(** * SHACL to JSON Schema converter: a shallow embedding

    This development embeds [scripts/lib/shacl_to_jsonschema.py] (class
    [SHACLToJSONSchemaConverter]) and proves properties of the property-shape
    translation, the naming strategies and the RDF list walks.

    Conventions of the embedding:
    - Python [str] is [string] (UTF-8 bytes).  The separators the code looks
      for (['#'], ['/'], [':']) are ASCII, so splitting agrees on bytes.
    - An rdflib graph is the list of its triples in store iteration order
      together with its namespace bindings in iteration order;
      [Graph.objects] filters the list, [Graph.value] takes the first hit.
    - An rdflib [Literal] carries its lexical form, datatype, language tag
      and the Python value rdflib converted it to ([None] when ill-typed or
      of unknown datatype).
    - Python dicts are association lists in insertion order.
    - The converter object [self] is passed explicitly; a method that can
      raise or loop returns an [outcome], and the two [while] loops over an
      RDF list and the recursion over [sh:not] take fuel.
    - [int] and [float] of a string first turn every Unicode decimal digit
      into its ASCII digit and every Unicode white space into a blank, as
      CPython does (digits and spaces of Unicode 14.0), then read the ASCII
      numeral; [float] rounds to the nearest binary64. *)

From Stdlib Require Import String Ascii List ZArith NArith Bool Lia Arith.
From Stdlib Require Import Permutation.
From Stdlib Require Import Floats.SpecFloat.
Import ListNotations.
Open Scope string_scope.
Open Scope Z_scope.

(* ===================================================================== *)
(** ** Python strings                                                     *)
(* ===================================================================== *)

Module PyStr.

(** [c in s] for a one-character [c]. *)
Fixpoint contains (c : ascii) (s : string) : bool :=
  match s with
  | EmptyString => false
  | String a r => Ascii.eqb a c || contains c r
  end.

(** [s.split(c)[-1]]: what follows the last [c], the whole of [s] when
    [c] does not occur. *)
Fixpoint split_last (c : ascii) (s : string) : string :=
  match s with
  | EmptyString => EmptyString
  | String a r =>
      if contains c r then split_last c r
      else if Ascii.eqb a c then r else s
  end.

(** [s.startswith(p)]. *)
Definition startswith (s p : string) : bool := String.prefix p s.

(** [s.endswith(('/', '#'))]. *)
Fixpoint ends_with_sep (s : string) : bool :=
  match s with
  | EmptyString => false
  | String a EmptyString => Ascii.eqb a "/" || Ascii.eqb a "#"
  | String _ r => ends_with_sep r
  end.

(** [s.split(c, 1)] when [c] occurs in [s]: the parts before and after
    the first [c]. *)
Fixpoint split_first (c : ascii) (s : string) : option (string * string) :=
  match s with
  | EmptyString => None
  | String a r =>
      if Ascii.eqb a c then Some (EmptyString, r)
      else match split_first c r with
           | Some (h, t) => Some (String a h, t)
           | None => None
           end
  end.

Definition lower_ascii (a : ascii) : ascii :=
  let n := nat_of_ascii a in
  if (Nat.leb 65 n && Nat.leb n 90)%bool then ascii_of_nat (n + 32) else a.

(** [s.lower()] on the ASCII letters. *)
Fixpoint lower (s : string) : string :=
  match s with
  | EmptyString => EmptyString
  | String a r => String (lower_ascii a) (lower r)
  end.

(** Truth value of a string: non-empty. *)
Definition truthy (s : string) : bool :=
  match s with EmptyString => false | _ => true end.

Definition is_space (a : ascii) : bool :=
  let n := nat_of_ascii a in
  (Nat.eqb n 32 || (Nat.leb 9 n && Nat.leb n 13))%bool.

Fixpoint lstrip (s : string) : string :=
  match s with
  | String a r => if is_space a then lstrip r else s
  | EmptyString => EmptyString
  end.

Fixpoint rstrip (s : string) : string :=
  match s with
  | EmptyString => EmptyString
  | String a r =>
      match rstrip r with
      | EmptyString => if is_space a then EmptyString else String a EmptyString
      | r' => String a r'
      end
  end.

(** [s.strip()] on ASCII white space. *)
Definition strip (s : string) : string := rstrip (lstrip s).

End PyStr.

(* ===================================================================== *)
(** ** Python numbers: [int(str)], [float(str)], [Decimal]               *)
(* ===================================================================== *)

Module PyNum.

(** The byte [a] when it continues a UTF-8 sequence: its six low bits. *)
Definition continuation (a : ascii) : option N :=
  let n := N_of_ascii a in
  if ((128 <=? n) && (n <? 192))%N then Some (n - 128)%N else None.

(** A code point in the range of its UTF-8 length (no overlong form, no
    surrogate, nothing above U+10FFFF). *)
Definition scalar (lo hi cp : N) : option N :=
  if ((lo <=? cp) && (cp <=? hi) && negb ((55296 <=? cp) && (cp <=? 57343)))%N%bool
  then Some cp else None.

(** The code points of a [str], from its UTF-8 bytes; [None] for bytes
    that are not UTF-8 (no [str] has them). *)
Fixpoint code_points (s : string) : option (list N) :=
  match s with
  | EmptyString => Some []
  | String a r =>
      let n := N_of_ascii a in
      if (n <? 128)%N then option_map (cons n) (code_points r)
      else if (n <? 192)%N then None
      else if (n <? 224)%N then
        match r with
        | String b r' =>
            match continuation b, code_points r' with
            | Some x, Some l =>
                option_map (fun cp => cp :: l) (scalar 128 2047 ((n - 192) * 64 + x))%N
            | _, _ => None
            end
        | _ => None
        end
      else if (n <? 240)%N then
        match r with
        | String b (String c r') =>
            match continuation b, continuation c, code_points r' with
            | Some x, Some y, Some l =>
                option_map (fun cp => cp :: l)
                           (scalar 2048 65535 ((n - 224) * 4096 + x * 64 + y))%N
            | _, _, _ => None
            end
        | _ => None
        end
      else if (n <? 248)%N then
        match r with
        | String b (String c (String d r')) =>
            match continuation b, continuation c, continuation d, code_points r' with
            | Some x, Some y, Some z, Some l =>
                option_map (fun cp => cp :: l)
                           (scalar 65536 1114111
                                   ((n - 240) * 262144 + x * 4096 + y * 64 + z))%N
            | _, _, _, _ => None
            end
        | _ => None
        end
      else None
  end.

(** The white space of Unicode above ASCII ([Py_UNICODE_ISSPACE]). *)
Definition unicode_spaces : list N :=
  [ 133; 160; 5760; 8192; 8193; 8194; 8195; 8196;
    8197; 8198; 8199; 8200; 8201; 8202; 8232; 8233;
    8239; 8287; 12288 ]%N.

(** The digit zero of every run of ten Unicode decimal digits
    ([Py_UNICODE_TODECIMAL]). *)
Definition decimal_zeros : list N :=
  [ 48; 1632; 1776; 1984; 2406; 2534; 2662; 2790;
    2918; 3046; 3174; 3302; 3430; 3558; 3664; 3792;
    3872; 4160; 4240; 6112; 6160; 6470; 6608; 6784;
    6800; 6992; 7088; 7232; 7248; 42528; 43216; 43264;
    43472; 43504; 43600; 44016; 65296; 66720; 68912; 69734;
    69872; 69942; 70096; 70384; 70736; 70864; 71248; 71360;
    71472; 71904; 72016; 72784; 73040; 73120; 92768; 92864;
    93008; 120782; 120792; 120802; 120812; 120822; 123200; 123632;
    125264; 130032 ]%N.

Definition decimal_of (cp : N) : option N :=
  match find (fun z => (z <=? cp) && (cp <? z + 10))%N%bool decimal_zeros with
  | Some z => Some (cp - z)%N
  | None => None
  end.

(** What [int] and [float] read for one character: an ASCII character is
    itself, a Unicode space a blank, a Unicode decimal digit its ASCII
    digit; [None] for any other character, which no numeral has. *)
Definition ascii_of_code_point (cp : N) : option ascii :=
  if (cp <? 128)%N then Some (ascii_of_N cp)
  else if existsb (N.eqb cp) unicode_spaces then Some " "%char
  else match decimal_of cp with
       | Some d => Some (ascii_of_N (48 + d))
       | None => None
       end.

Fixpoint string_of_code_points (l : list N) : option string :=
  match l with
  | [] => Some EmptyString
  | cp :: r =>
      match ascii_of_code_point cp, string_of_code_points r with
      | Some a, Some s => Some (String a s)
      | _, _ => None
      end
  end.

(** [_PyUnicode_TransformDecimalAndSpaceToASCII]: the string [int] and
    [float] parse. *)
Definition to_ascii (s : string) : option string :=
  match code_points s with
  | Some l => string_of_code_points l
  | None => None
  end.

Definition digit_of (a : ascii) : option Z :=
  let n := nat_of_ascii a in
  if (Nat.leb 48 n && Nat.leb n 57)%bool then Some (Z.of_nat (n - 48)) else None.

(** A group of decimal digits in which single underscores may separate
    digits.  Returns the number read and how many digits it has. *)
Fixpoint digit_group (need_digit : bool) (acc : Z) (count : Z) (s : string)
  : option (Z * Z) :=
  match s with
  | EmptyString => if need_digit then None else Some (acc, count)
  | String a r =>
      match digit_of a with
      | Some d => digit_group false (10 * acc + d) (count + 1) r
      | None =>
          if (Ascii.eqb a "_" && negb need_digit)%bool
          then digit_group true acc count r
          else None
      end
  end.

Definition digits (s : string) : option (Z * Z) := digit_group true 0 0 s.

(** An optional sign followed by the rest. *)
Definition split_sign (s : string) : bool * string :=
  match s with
  | String "-" r => (true, r)
  | String "+" r => (false, r)
  | _ => (false, s)
  end.

(** [int] of an ASCII string: blanks around an optional sign and a group
    of digits. *)
Definition int_of_ascii (s : string) : option Z :=
  let (neg, body) := split_sign (PyStr.strip s) in
  match digits body with
  | Some (n, _) => Some (if neg then - n else n)
  | None => None
  end.

(** [int(s)] in base ten; [None] stands for [ValueError]. *)
Definition py_int (s : string) : option Z :=
  match to_ascii s with
  | Some a => int_of_ascii a
  | None => None
  end.

(** Binary64: 53 bits of precision, infinities at exponent 1024. *)
Definition b64_round (neg : bool) (m : positive) (e : Z) : spec_float :=
  binary_round 53 1024 neg m e.

(** The binary64 nearest to [m * 10^e10] (ties to even). *)
Definition b64_of_decimal (neg : bool) (m : Z) (e10 : Z) : spec_float :=
  match m with
  | Z0 => S754_zero neg
  | Zpos p =>
      if 0 <=? e10 then
        b64_round neg (p * Z.to_pos (10 ^ e10))%positive 0
      else
        let d := 10 ^ (- e10) in
        let s := Z.max 0 (Z.log2 d - Z.log2 m + 64) in
        let n := m * 2 ^ s in
        let q := n / d in
        let r := n mod d in
        let loc := if r =? 0 then loc_Exact else loc_Inexact (Z.compare (2 * r) d) in
        binary_round_aux 53 1024 neg q (- s) loc
  | Zneg _ => S754_nan
  end.

(** The mantissa of a decimal numeral: [ddd], [ddd.], [ddd.ddd], [.ddd].
    Returns the digits read as one number and the number of digits after
    the point. *)
Definition mantissa (s : string) : option (Z * Z) :=
  match PyStr.split_first "." s with
  | None => match digits s with Some (n, _) => Some (n, 0) | None => None end
  | Some (ip, fp) =>
      match ip, fp with
      | EmptyString, EmptyString => None
      | EmptyString, _ =>
          match digits fp with Some (f, k) => Some (f, k) | None => None end
      | _, EmptyString =>
          match digits ip with Some (n, _) => Some (n, 0) | None => None end
      | _, _ =>
          match digits ip, digits fp with
          | Some (n, _), Some (f, k) => Some (n * 10 ^ k + f, k)
          | _, _ => None
          end
      end
  end.

Definition split_exponent (s : string) : string * option string :=
  match PyStr.split_first "e" (PyStr.lower s) with
  | Some (m, e) => (m, Some e)
  | None => (s, None)
  end.

Definition exponent (e : option string) : option Z :=
  match e with
  | None => Some 0
  | Some es =>
      let (neg, body) := split_sign es in
      match digits body with
      | Some (n, _) => Some (if neg then - n else n)
      | None => None
      end
  end.

(** [float] of an ASCII string: blanks around an optional sign and
    [inf], [infinity], [nan] or a decimal numeral with an optional
    exponent. *)
Definition float_of_ascii (s : string) : option spec_float :=
  let (neg, body) := split_sign (PyStr.strip s) in
  let low := PyStr.lower body in
  if (String.eqb low "inf" || String.eqb low "infinity")%bool
  then Some (S754_infinity neg)
  else if String.eqb low "nan" then Some S754_nan
  else
    let (ms, es) := split_exponent body in
    match mantissa ms, exponent es with
    | Some (m, k), Some e => Some (b64_of_decimal neg m (e - k))
    | _, _ => None
    end.

(** [float(s)]; [None] stands for [ValueError]. *)
Definition py_float (s : string) : option spec_float :=
  match to_ascii s with
  | Some a => float_of_ascii a
  | None => None
  end.

(** [x == n] for a float [x] and an integer [n]. *)
Definition float_eq_Z (x : spec_float) (n : Z) : bool :=
  match x with
  | S754_zero _ => n =? 0
  | S754_finite s m e =>
      let sm := if s then Zneg m else Zpos m in
      if 0 <=? e then sm * 2 ^ e =? n else sm =? n * 2 ^ (- e)
  | _ => false
  end.

(** Truth value of a float: anything but a zero. *)
Definition float_truthy (x : spec_float) : bool :=
  match x with S754_zero _ => false | _ => true end.

(** [decimal.Decimal]. *)
Variant pydecimal :=
  | DecFinite (neg : bool) (coeff : N) (exp : Z)
  | DecInfinity (neg : bool)
  | DecNaN (signaling : bool).

(** [float(d)]; a signalling NaN raises [ValueError]. *)
Definition float_of_decimal (d : pydecimal) : option spec_float :=
  match d with
  | DecFinite neg c e => Some (b64_of_decimal neg (Z.of_N c) e)
  | DecInfinity neg => Some (S754_infinity neg)
  | DecNaN false => Some S754_nan
  | DecNaN true => None
  end.

Definition decimal_truthy (d : pydecimal) : bool :=
  match d with
  | DecFinite _ c _ => negb (N.eqb c 0)
  | _ => true
  end.

End PyNum.

(* ===================================================================== *)
(** ** RDF terms and graphs (rdflib)                                      *)
(* ===================================================================== *)

(** The Python values a literal converts to, as far as the converter
    tells them apart: [bool], [int], [float], [str], [Decimal], the
    temporal types (kept as their [isoformat()]) and any other object
    (kept as its truth value). *)
Variant pyatom :=
  | ABool (b : bool)
  | AInt (z : Z)
  | AFloat (f : spec_float)
  | AStr (s : string)
  | ADecimal (d : PyNum.pydecimal)
  | ATemporal (iso : string)
  | AOther (truth : bool).

Record literal := mkLiteral {
  lexical : string;
  datatype : option string;
  lang : option string;
  value : option pyatom
}.

(** [URIRef], [BNode] and [Literal] are the three kinds of node. *)
Variant node :=
  | URIRef (iri : string)
  | BNode (id : string)
  | Literal (l : literal).

Definition atom_truthy (a : pyatom) : bool :=
  match a with
  | ABool b => b
  | AInt z => negb (z =? 0)
  | AFloat f => PyNum.float_truthy f
  | AStr s => PyStr.truthy s
  | ADecimal d => PyNum.decimal_truthy d
  | ATemporal _ => true
  | AOther t => t
  end.

(** [str(n)]. *)
Definition str (n : node) : string :=
  match n with
  | URIRef s => s
  | BNode s => s
  | Literal l => lexical l
  end.

(** [bool(n)]: identifiers are strings; [Literal.__bool__] looks at the
    converted value and falls back on the lexical form. *)
Definition truthy (n : node) : bool :=
  match n with
  | URIRef s => PyStr.truthy s
  | BNode s => PyStr.truthy s
  | Literal l =>
      match value l with
      | Some v => atom_truthy v
      | None => PyStr.truthy (lexical l)
      end
  end.

Definition opt_truthy (o : option node) : bool :=
  match o with Some n => truthy n | None => false end.

Lemma spec_float_eq_dec (x y : spec_float) : {x = y} + {x <> y}.
Proof. decide equality; auto using Bool.bool_dec, Pos.eq_dec, Z.eq_dec. Defined.

Lemma pydecimal_eq_dec (x y : PyNum.pydecimal) : {x = y} + {x <> y}.
Proof. decide equality; auto using Bool.bool_dec, N.eq_dec, Z.eq_dec. Defined.

Lemma pyatom_eq_dec (x y : pyatom) : {x = y} + {x <> y}.
Proof.
  decide equality;
    auto using Bool.bool_dec, Z.eq_dec, string_dec, spec_float_eq_dec, pydecimal_eq_dec.
Defined.

Lemma opt_eq_dec {A} (dec : forall a b : A, {a = b} + {a <> b}) (x y : option A) :
  {x = y} + {x <> y}.
Proof. decide equality. Defined.

Lemma literal_eq_dec (x y : literal) : {x = y} + {x <> y}.
Proof.
  decide equality; auto using string_dec, opt_eq_dec, pyatom_eq_dec.
Defined.

Lemma node_eq_dec (x y : node) : {x = y} + {x <> y}.
Proof. decide equality; auto using string_dec, literal_eq_dec. Defined.

Definition node_eqb (x y : node) : bool :=
  if node_eq_dec x y then true else false.

Lemma node_eqb_eq x y : node_eqb x y = true <-> x = y.
Proof. unfold node_eqb. destruct (node_eq_dec x y); split; congruence. Qed.

Lemma node_eqb_refl x : node_eqb x x = true.
Proof. apply node_eqb_eq. reflexivity. Qed.

Definition triple : Type := node * node * node.

Record Graph := mkGraph {
  triples : list triple;
  namespace_bindings : list (string * string)
}.

(** [graph.objects(s, p)]. *)
Definition objects (g : Graph) (s p : node) : list node :=
  map (fun t => snd t)
      (filter (fun t => node_eqb (fst (fst t)) s && node_eqb (snd (fst t)) p)%bool
              (triples g)).

(** [graph.subjects(p, o)]. *)
Definition subjects (g : Graph) (p o : node) : list node :=
  map (fun t => fst (fst t))
      (filter (fun t => node_eqb (snd (fst t)) p && node_eqb (snd t) o)%bool
              (triples g)).

(** [graph.objects(None, p)]. *)
Definition objects_of_predicate (g : Graph) (p : node) : list node :=
  map (fun t => snd t) (filter (fun t => node_eqb (snd (fst t)) p) (triples g)).

(** [graph.value(s, p)]: the first object, [None] when there is none. *)
Definition graph_value (g : Graph) (s p : node) : option node :=
  hd_error (objects g s p).

(** [graph.namespaces()]. *)
Definition namespaces (g : Graph) : list (string * string) := namespace_bindings g.

(** *** Vocabulary *)

Definition sh (l : string) : node := URIRef ("http://www.w3.org/ns/shacl#" ++ l).
Definition rdf (l : string) : node :=
  URIRef ("http://www.w3.org/1999/02/22-rdf-syntax-ns#" ++ l).
Definition xsd (l : string) : node := URIRef ("http://www.w3.org/2001/XMLSchema#" ++ l).

Definition RDF_type := rdf "type".
Definition RDF_first := rdf "first".
Definition RDF_rest := rdf "rest".
Definition RDF_nil := rdf "nil".

(* ===================================================================== *)
(** ** Python values and dicts                                            *)
(* ===================================================================== *)

(** The values the converter stores in the schema it builds, and the
    values of a JSON document loaded with [json.load]. *)
#[local] Set Warnings "-register-all".
Inductive pyval :=
  | VNone
  | VBool (b : bool)
  | VInt (z : Z)
  | VFloat (f : spec_float)
  | VStr (s : string)
  | VOther
  | VList (l : list pyval)
  | VDict (d : list (string * pyval)).

(** A [dict] with string keys, in insertion order. *)
Definition dict (V : Type) : Type := list (string * V).

Section Dict.
Context {V : Type}.

(** [d.get(k)]. *)
Fixpoint dict_get (k : string) (d : dict V) : option V :=
  match d with
  | [] => None
  | (k', v) :: r => if String.eqb k' k then Some v else dict_get k r
  end.

(** [k in d]. *)
Definition dict_has (k : string) (d : dict V) : bool :=
  match dict_get k d with Some _ => true | None => false end.

(** [d[k] = v]: an existing key keeps its place. *)
Fixpoint dict_set (k : string) (v : V) (d : dict V) : dict V :=
  match d with
  | [] => [(k, v)]
  | (k', v') :: r =>
      if String.eqb k' k then (k', v) :: r else (k', v') :: dict_set k v r
  end.

(** [d.update(e)]. *)
Definition dict_update (d e : dict V) : dict V :=
  fold_left (fun acc kv => dict_set (fst kv) (snd kv) acc) e d.

(** [d.setdefault(k, v)], for its effect. *)
Definition dict_setdefault (k : string) (v : V) (d : dict V) : dict V :=
  if dict_has k d then d else dict_set k v d.

(** [{k: v for k, v in d.items() if k != x}]. *)
Definition dict_without (x : string) (d : dict V) : dict V :=
  filter (fun kv => negb (String.eqb (fst kv) x)) d.

Definition dict_keys (d : dict V) : list string := map fst d.
End Dict.

Definition pydict := dict pyval.

(** Truth value of a dict or list: non-empty. *)
Definition nonempty {A : Type} (l : list A) : bool :=
  match l with [] => false | _ => true end.

(** [d.get(k) == s] for a string [s]. *)
Definition get_is_str (k : string) (d : pydict) (s : string) : bool :=
  match dict_get k d with
  | Some (VStr s') => String.eqb s' s
  | _ => false
  end.

(* ===================================================================== *)
(** ** Outcomes and the converter object                                  *)
(* ===================================================================== *)

Variant pyexn := ValueError | TypeError | AttributeError.

(** A call returns, raises, or is still running when the fuel given to the
    loops is used up. *)
Variant outcome (A : Type) :=
  | Done (a : A)
  | Raised (e : pyexn)
  | OutOfFuel.
Arguments Done {A} a.
Arguments Raised {A} e.
Arguments OutOfFuel {A}.

(** The attributes of [SHACLToJSONSchemaConverter]. *)
Record Converter := mkConverter {
  graph : Graph;
  naming : string;
  iri_to_term : dict string;
  definitions : pydict;
  warnings : list string;
  class_to_shape_map : dict string
}.

(** A method of the converter: reads and updates [self]. *)
Definition M (A : Type) : Type := Converter -> outcome (A * Converter).

Definition ret {A} (a : A) : M A := fun self => Done (a, self).

Definition bind {A B} (m : M A) (k : A -> M B) : M B :=
  fun self =>
    match m self with
    | Done (a, self') => k a self'
    | Raised e => Raised e
    | OutOfFuel => OutOfFuel
    end.

Definition raise {A} (e : pyexn) : M A := fun _ => Raised e.
Definition out_of_fuel {A} : M A := fun _ => OutOfFuel.

(** [self.warnings.append(w)]. *)
Definition warn (w : string) : M unit :=
  fun self =>
    Done (tt, mkConverter (graph self) (naming self) (iri_to_term self)
                          (definitions self) (warnings self ++ [w])%list
                          (class_to_shape_map self)).

(** A builtin that returns or raises [ValueError]. *)
Definition or_value_error {A} (o : option A) : M A :=
  match o with Some a => ret a | None => raise ValueError end.

Declare Scope conv_scope.
Delimit Scope conv_scope with conv.
Notation "x <- c ;; k" := (bind c (fun x => k))
  (at level 61, c at next level, right associativity) : conv_scope.
Notation "' p <- c ;; k" := (bind c (fun x => let 'p := x in k))
  (at level 61, p pattern, c at next level, right associativity) : conv_scope.
Notation "c ;;; k" := (bind c (fun _ => k))
  (at level 61, right associativity) : conv_scope.
Open Scope conv_scope.

Definition get_self : M Converter := fun self => Done (self, self).

(** [for x in l: acc = body(x, acc)], in the converter monad. *)
Fixpoint for_each {A S : Type} (l : list A) (body : A -> S -> M S) (acc : S) : M S :=
  match l with
  | [] => ret acc
  | x :: r => acc' <- body x acc ;; for_each r body acc'
  end.

(* ===================================================================== *)
(** ** Names                                                              *)
(* ===================================================================== *)

(** [_get_local_name]: the local name of a URI. *)
Definition _get_local_name (uri : node) : string :=
  let uri_str := str uri in
  if PyStr.contains "#" uri_str then PyStr.split_last "#" uri_str
  else if PyStr.contains "/" uri_str then PyStr.split_last "/" uri_str
  else uri_str.

(** The first binding of [graph.namespaces()] whose namespace the IRI
    starts with. *)
Definition matching_namespace (path : node) (b : string * string) : bool :=
  PyStr.startswith (str path) (snd b).

(** [_get_property_name]: the JSON property name of a path. *)
Definition _get_property_name (self : Converter) (path : node) : string :=
  let iri := str path in
  if String.eqb (naming self) "local" then _get_local_name path
  else if String.eqb (naming self) "context" then
    match dict_get iri (iri_to_term self) with
    | Some term => if PyStr.truthy term then term else _get_local_name path
    | None => _get_local_name path
    end
  else
    let local_name := _get_local_name path in
    match find (matching_namespace path) (namespaces (graph self)) with
    | Some (prefix, _) => prefix ++ ":" ++ local_name
    | None => local_name
    end.

(** [_get_literal_value]: [str] of the value when it is truthy. *)
Definition _get_literal_value (self : Converter) (subject predicate : node)
  : option string :=
  match graph_value (graph self) subject predicate with
  | Some v => if truthy v then Some (str v) else None
  | None => None
  end.

(** Truth value of an optional string. *)
Definition str_truthy (o : option string) : bool :=
  match o with Some s => PyStr.truthy s | None => false end.

(* ===================================================================== *)
(** ** RDF lists                                                          *)
(* ===================================================================== *)

(** [_extract_list_nodes]: the [while current != RDF.nil] loop; one unit of
    fuel per test of the loop condition. *)
Fixpoint list_nodes_loop (fuel : nat) (g : Graph) (current : node) (nodes : list node)
  : outcome (list node) :=
  match fuel with
  | O => OutOfFuel
  | S fuel' =>
      if node_eqb current RDF_nil then Done nodes
      else
        let nodes :=
          match graph_value g current RDF_first with
          | Some first => (nodes ++ [first])%list
          | None => nodes
          end in
        match graph_value g current RDF_rest with
        | Some rest =>
            if truthy rest then list_nodes_loop fuel' g rest nodes else Done nodes
        | None => Done nodes
        end
  end.

Definition _extract_list_nodes (fuel : nat) (self : Converter) (list_node : node)
  : outcome (list node) :=
  list_nodes_loop fuel (graph self) list_node [].

(** What [_extract_list_values] appends for one [rdf:first]: the string of
    an IRI, nothing for a blank node, the native value of a literal (a
    [Decimal] as a float, a date or time in ISO form, any other object and
    an ill-typed literal as the lexical form).  [None] stands for the
    [ValueError] of [float] on a [Decimal]. *)
Definition list_value_of (first : node) : option (list pyval) :=
  match first with
  | URIRef s => Some [VStr s]
  | BNode _ => Some []
  | Literal l =>
      match value l with
      | Some (ABool b) => Some [VBool b]
      | Some (AInt z) => Some [VInt z]
      | Some (AFloat f) => Some [VFloat f]
      | Some (AStr s) => Some [VStr s]
      | Some (ADecimal d) =>
          match PyNum.float_of_decimal d with
          | Some f => Some [VFloat f]
          | None => None
          end
      | Some (ATemporal iso) => Some [VStr iso]
      | Some (AOther _) => Some [VStr (lexical l)]
      | None => Some [VStr (lexical l)]
      end
  end.

(** [_extract_list_values]: the same walk, keeping native values. *)
Fixpoint list_values_loop (fuel : nat) (g : Graph) (current : node) (values : list pyval)
  : outcome (list pyval) :=
  match fuel with
  | O => OutOfFuel
  | S fuel' =>
      if node_eqb current RDF_nil then Done values
      else
        match
          match graph_value g current RDF_first with
          | Some first =>
              match list_value_of first with
              | Some vs => Some (values ++ vs)%list
              | None => None
              end
          | None => Some values
          end
        with
        | None => Raised ValueError
        | Some values =>
            match graph_value g current RDF_rest with
            | Some rest =>
                if truthy rest then list_values_loop fuel' g rest values
                else Done values
            | None => Done values
            end
        end
  end.

Definition _extract_list_values (fuel : nat) (self : Converter) (list_node : node)
  : outcome (list pyval) :=
  list_values_loop fuel (graph self) list_node [].

(** A pure call that can raise or run out of fuel, inside a method. *)
Definition lift {A} (o : outcome A) : M A :=
  fun self =>
    match o with
    | Done a => Done (a, self)
    | Raised e => Raised e
    | OutOfFuel => OutOfFuel
    end.

(* ===================================================================== *)
(** ** Datatypes and node kinds                                           *)
(* ===================================================================== *)

Fixpoint node_assoc (k : node) (l : list (node * string)) : option string :=
  match l with
  | [] => None
  | (k', v) :: r => if node_eqb k' k then Some v else node_assoc k r
  end.

Definition xsd_to_json_type : list (node * string) :=
  [ (xsd "string", "string"); (xsd "integer", "integer"); (xsd "int", "integer");
    (xsd "long", "integer"); (xsd "short", "integer"); (xsd "byte", "integer");
    (xsd "decimal", "number"); (xsd "float", "number"); (xsd "double", "number");
    (xsd "boolean", "boolean"); (xsd "date", "string"); (xsd "dateTime", "string");
    (xsd "time", "string"); (xsd "anyURI", "string") ].

Definition xsd_to_json_format : list (node * string) :=
  [ (xsd "dateTime", "date-time"); (xsd "date", "date"); (xsd "time", "time");
    (xsd "anyURI", "uri") ].

(** The schema of a datatype: its JSON type (default [string]) and its
    format when it has one. *)
Definition datatype_schema (prop_def : pydict) (dt : node) : pydict :=
  let json_type :=
    match node_assoc dt xsd_to_json_type with Some t => t | None => "string" end in
  let prop_def := dict_set "type" (VStr json_type) prop_def in
  match node_assoc dt xsd_to_json_format with
  | Some json_format =>
      if PyStr.truthy json_format
      then dict_set "format" (VStr json_format) prop_def
      else prop_def
  | None => prop_def
  end.

(** [_jsonld_id_object_schema]. *)
Definition _jsonld_id_object_schema : pydict :=
  [ ("type", VStr "object");
    ("properties", VDict [("@id", VDict [("type", VStr "string"); ("format", VStr "uri")])]);
    ("required", VList [VStr "@id"]);
    ("additionalProperties", VBool true) ].

Definition uri_string_schema : pyval :=
  VDict [("type", VStr "string"); ("format", VStr "uri")].

(** [_nodekind_to_schema]. *)
Definition _nodekind_to_schema (node_kind : node) : pydict :=
  if node_eqb node_kind (sh "IRI") then
    [("anyOf", VList [uri_string_schema; VDict _jsonld_id_object_schema])]
  else if node_eqb node_kind (sh "Literal") then [("type", VStr "string")]
  else if node_eqb node_kind (sh "BlankNode") then [("type", VStr "object")]
  else if node_eqb node_kind (sh "BlankNodeOrIRI") then
    [("anyOf", VList [VDict [("type", VStr "object")]; uri_string_schema;
                      VDict _jsonld_id_object_schema])]
  else if node_eqb node_kind (sh "IRIOrLiteral") then
    [("anyOf", VList [uri_string_schema; VDict _jsonld_id_object_schema;
                      VDict [("type", VStr "string")]])]
  else if node_eqb node_kind (sh "BlankNodeOrLiteral") then
    [("anyOf", VList [VDict [("type", VStr "object")]; VDict [("type", VStr "string")]])]
  else [("$comment", VStr ("Unsupported sh:nodeKind " ++ str node_kind))].

Definition ref_to (shape_name : string) : pyval := VStr ("#/$defs/" ++ shape_name).

(** [graph.value(s, p)] when the result passes an [if]. *)
Definition truthy_value (g : Graph) (s p : node) : option node :=
  match graph_value g s p with
  | Some n => if truthy n then Some n else None
  | None => None
  end.

Definition no_shape_comment (class_ref : node) : pyval :=
  VStr ("sh:class " ++ str class_ref ++ " - no corresponding shape found").

(** [self.class_to_shape_map.get(str(class_ref))] when it passes an [if]. *)
Definition shape_of_class (self : Converter) (class_ref : node) : option string :=
  match dict_get (str class_ref) (class_to_shape_map self) with
  | Some shape_name => if PyStr.truthy shape_name then Some shape_name else None
  | None => None
  end.

(** [_convert_inline_constraint_to_schema]: one alternative of a
    property-level [sh:or]. *)
Definition _convert_inline_constraint_to_schema (self : Converter) (constraint_node : node)
  : pydict :=
  let g := graph self in
  match truthy_value g constraint_node (sh "datatype") with
  | Some datatype => datatype_schema [] datatype
  | None =>
  match truthy_value g constraint_node (sh "nodeKind") with
  | Some node_kind => _nodekind_to_schema node_kind
  | None =>
  match truthy_value g constraint_node (sh "class") with
  | Some class_ref =>
      match shape_of_class self class_ref with
      | Some shape_name => [("$ref", ref_to shape_name)]
      | None => [("$comment", no_shape_comment class_ref)]
      end
  | None =>
  match truthy_value g constraint_node (sh "node") with
  | Some node_shape => [("$ref", ref_to (_get_local_name node_shape))]
  | None => []
  end end end end.

(* ===================================================================== *)
(** ** Property shapes                                                    *)
(* ===================================================================== *)

(** An optional string when it passes an [if]. *)
Definition truthy_str (o : option string) : option string :=
  match o with
  | Some s => if PyStr.truthy s then Some s else None
  | None => None
  end.

(** The description of a property: [sh:description], else [sh:message]. *)
Definition describe (self : Converter) (prop_shape : node) : pydict :=
  let description := _get_literal_value self prop_shape (sh "description") in
  let message := _get_literal_value self prop_shape (sh "message") in
  match truthy_str description with
  | Some d => [("description", VStr d)]
  | None =>
      match truthy_str message with
      | Some m => [("description", VStr m)]
      | None => []
      end
  end.

(** [sh:hasValue] with a literal: the constant ([toPython()], with dates
    as ISO strings and decimals as floats) and the JSON type inferred
    from it.  [None] when [float(Decimal)] raises. *)
Definition literal_const (l : literal) : option (pyval * string) :=
  match value l with
  | Some (ABool b) => Some (VBool b, "boolean")
  | Some (AInt z) => Some (VInt z, "number")
  | Some (AFloat f) => Some (VFloat f, "number")
  | Some (AStr s) => Some (VStr s, "string")
  | Some (ADecimal d) =>
      match PyNum.float_of_decimal d with
      | Some f => Some (VFloat f, "number")
      | None => None
      end
  | Some (ATemporal iso) => Some (VStr iso, "string")
  | Some (AOther _) => Some (VOther, "string")
  | None => Some (VStr (lexical l), "string")
  end.

(** The [sh:hasValue] branch. *)
Definition has_value_schema (self : Converter) (has_value : node) (prop_def : pydict)
  : option pydict :=
  match has_value with
  | URIRef _ =>
      let val := _get_property_name self has_value in
      Some (dict_set "type" (VStr "string") (dict_set "const" (VStr val) prop_def))
  | Literal l =>
      match literal_const l with
      | Some (val, ty) => Some (dict_set "type" (VStr ty) (dict_set "const" val prop_def))
      | None => None
      end
  | BNode _ => Some prop_def
  end.

(** One alternative of [sh:or] added to [any_of]: an alternative that is
    only an [anyOf] is spliced in, an empty one is dropped. *)
Definition add_alternative (any_of : list pyval) (alt_schema : pydict) : list pyval :=
  match alt_schema with
  | [] => any_of
  | [(k, VList alts)] =>
      if String.eqb k "anyOf" then (any_of ++ alts)%list
      else (any_of ++ [VDict alt_schema])%list
  | _ => (any_of ++ [VDict alt_schema])%list
  end.

(** The type of the property, from the first of [sh:hasValue], [sh:or],
    [sh:datatype], [sh:nodeKind], [sh:node], [sh:class] that is there. *)
Definition type_stage (fuel : nat) (prop_shape : node) (prop_name : string)
  (prop_def : pydict) : M pydict :=
  self <- get_self ;;
  let g := graph self in
  match graph_value g prop_shape (sh "hasValue") with
  | Some has_value => or_value_error (has_value_schema self has_value prop_def)
  | None =>
  match truthy_value g prop_shape (sh "or") with
  | Some or_list =>
      alts <- lift (_extract_list_nodes fuel self or_list) ;;
      let any_of :=
        fold_left (fun acc alt_node =>
                     add_alternative acc (_convert_inline_constraint_to_schema self alt_node))
                  alts [] in
      if nonempty any_of then ret (dict_set "anyOf" (VList any_of) prop_def)
      else
        warn ("sh:or found in " ++ prop_name ++ " but no convertible alternatives were found") ;;;
        ret (dict_set "$comment" (VStr "sh:or present but could not be converted") prop_def)
  | None =>
  match truthy_value g prop_shape (sh "datatype") with
  | Some datatype => ret (datatype_schema prop_def datatype)
  | None =>
  match truthy_value g prop_shape (sh "nodeKind") with
  | Some node_kind => ret (dict_update prop_def (_nodekind_to_schema node_kind))
  | None =>
  match truthy_value g prop_shape (sh "node") with
  | Some node_shape =>
      ret (dict_set "$ref" (ref_to (_get_local_name node_shape)) prop_def)
  | None =>
  match truthy_value g prop_shape (sh "class") with
  | Some class_ref =>
      match shape_of_class self class_ref with
      | Some shape_name => ret (dict_set "$ref" (ref_to shape_name) prop_def)
      | None =>
          warn ("No shape found with sh:targetClass " ++ str class_ref
                ++ " for property " ++ prop_name) ;;;
          ret (dict_set "$comment" (no_shape_comment class_ref) prop_def)
      end
  | None =>
      ret (dict_set "$comment" (VStr "No explicit sh:datatype or sh:class found") prop_def)
  end end end end end end.

(** A [$ref] with a description beside it is moved under [allOf]. *)
Definition ref_rewrite (prop_def : pydict) : pydict :=
  match dict_get "$ref" prop_def, dict_get "description" prop_def with
  | Some ref, Some desc => [("description", desc); ("allOf", VList [VDict [("$ref", ref)]])]
  | _, _ => prop_def
  end.

(** The array built by either cardinality branch. *)
Definition wrap_array (prop_def : pydict) (min_items max_items : option Z) : pydict :=
  let array_def := [("type", VStr "array")] in
  let array_def :=
    if (dict_has "type" prop_def || dict_has "$ref" prop_def)%bool
    then dict_set "items" (VDict (dict_without "description" prop_def)) array_def
    else array_def in
  let array_def :=
    match dict_get "description" prop_def with
    | Some d => dict_set "description" d array_def
    | None => array_def
    end in
  let array_def :=
    match min_items with
    | Some n => dict_set "minItems" (VInt n) array_def
    | None => array_def
    end in
  match max_items with
  | Some n => dict_set "maxItems" (VInt n) array_def
  | None => array_def
  end.

(** [int(s)] for an optional string that is there. *)
Definition int_of (o : option string) : option (option Z) :=
  match o with
  | None => Some None
  | Some s => match PyNum.py_int s with Some n => Some (Some n) | None => None end
  end.

Definition gt_one (o : option Z) : bool :=
  match o with Some n => 1 <? n | None => false end.

(** Cardinality: whether the property is required, and the array wrap.
    [None] when [int] raises. *)
Definition cardinality (self : Converter) (prop_shape : node) (prop_def : pydict)
  : option (pydict * bool) :=
  let min_count := _get_literal_value self prop_shape (sh "minCount") in
  let max_count := _get_literal_value self prop_shape (sh "maxCount") in
  match int_of min_count with
  | None => None
  | Some min_int =>
      let is_required := match min_int with Some n => 1 <=? n | None => false end in
      match int_of max_count with
      | None => None
      | Some max_int =>
          if gt_one max_int then Some (wrap_array prop_def min_int max_int, is_required)
          else if gt_one min_int then Some (wrap_array prop_def min_int None, is_required)
          else Some (prop_def, is_required)
      end
  end.

(** [prop_def.get("type") == "array" and "items" in prop_def]. *)
Definition wrapped (prop_def : pydict) : bool :=
  (get_is_str "type" prop_def "array" && dict_has "items" prop_def)%bool.

(** The schema the value constraints go to: the items of an array that
    has them, else the property itself.  The items dict is updated in
    place. *)
Definition on_target (f : pydict -> outcome pydict) (prop_def : pydict)
  : outcome pydict :=
  if wrapped prop_def then
    match dict_get "items" prop_def with
    | Some (VDict items) =>
        match f items with
        | Done items' => Done (dict_set "items" (VDict items') prop_def)
        | Raised e => Raised e
        | OutOfFuel => OutOfFuel
        end
    | _ => Raised AttributeError
    end
  else f prop_def.

(** The target itself, for reading. *)
Definition target_of (prop_def : pydict) : pydict :=
  if wrapped prop_def then
    match dict_get "items" prop_def with
    | Some (VDict items) => items
    | _ => []
    end
  else prop_def.

(** [v == True] or [v == False] as Python compares. *)
Definition py_eq_bool (b : bool) (v : pyval) : bool :=
  match v with
  | VBool b' => Bool.eqb b' b
  | VInt z => z =? (if b then 1 else 0)
  | VFloat f => PyNum.float_eq_Z f (if b then 1 else 0)
  | _ => false
  end.

(** [set(enum_values) == {True, False}]. *)
Definition is_true_false_set (enum_values : list pyval) : bool :=
  (forallb (fun v => py_eq_bool true v || py_eq_bool false v) enum_values
   && existsb (py_eq_bool true) enum_values
   && existsb (py_eq_bool false) enum_values)%bool.

(** The enumeration written to its target, unless it is [true] and
    [false] on a boolean. *)
Definition place_enum (enum_values : list pyval) (enum_target : pydict) : outcome pydict :=
  if (get_is_str "type" enum_target "boolean" && is_true_false_set enum_values)%bool
  then Done enum_target
  else Done (dict_set "enum" (VList enum_values) enum_target).

(** [sh:in]: the enumeration, on the target. *)
Definition in_stage (fuel : nat) (self : Converter) (prop_shape : node) (prop_def : pydict)
  : outcome pydict :=
  match objects (graph self) prop_shape (sh "in") with
  | [] => Done prop_def
  | in_value :: _ =>
      match _extract_list_values fuel self in_value with
      | Done enum_values =>
          if nonempty enum_values then on_target (place_enum enum_values) prop_def
          else Done prop_def
      | Raised e => Raised e
      | OutOfFuel => OutOfFuel
      end
  end.

(** One optional constraint written to the target: [conv] is [float] or
    [int], [None] when it raises. *)
Definition set_converted (key : string) (o : option string)
  (conv : string -> option pyval) (target_def : pydict) : option pydict :=
  match o with
  | None => Some target_def
  | Some s =>
      match conv s with
      | Some v => Some (dict_set key v target_def)
      | None => None
      end
  end.

Definition as_float (s : string) : option pyval :=
  match PyNum.py_float s with Some f => Some (VFloat f) | None => None end.

Definition as_int (s : string) : option pyval :=
  match PyNum.py_int s with Some n => Some (VInt n) | None => None end.

Definition and_then {A B} (o : option A) (f : A -> option B) : option B :=
  match o with Some a => f a | None => None end.

(** Numeric and string bounds, on the target.  [None] when [float] or
    [int] raises. *)
Definition bounds_on (self : Converter) (prop_shape : node) (target_def : pydict)
  : option pydict :=
  let lit := _get_literal_value self prop_shape in
  and_then (set_converted "minimum" (lit (sh "minInclusive")) as_float target_def) (fun t =>
  and_then (set_converted "maximum" (lit (sh "maxInclusive")) as_float t) (fun t =>
  and_then (set_converted "exclusiveMinimum" (lit (sh "minExclusive")) as_float t) (fun t =>
  and_then (set_converted "exclusiveMaximum" (lit (sh "maxExclusive")) as_float t) (fun t =>
  and_then (set_converted "minLength" (lit (sh "minLength")) as_int t) (fun t =>
  and_then (set_converted "maxLength" (lit (sh "maxLength")) as_int t) (fun t =>
  match truthy_str (lit (sh "pattern")) with
  | Some pattern => Some (dict_set "pattern" (VStr pattern) t)
  | None => Some t
  end)))))).

Definition bounds_target (self : Converter) (prop_shape : node) (target_def : pydict)
  : outcome pydict :=
  match bounds_on self prop_shape target_def with
  | Some t => Done t
  | None => Raised ValueError
  end.

Definition bounds_stage (self : Converter) (prop_shape : node) (prop_def : pydict)
  : outcome pydict :=
  on_target (bounds_target self prop_shape) prop_def.

Definition sparql_note : string :=
  " Contains sh:sparql constraint not convertible to JSON Schema".

(** [(prop_def.get("$comment", "") + sparql_note).strip()]. *)
Definition sparql_comment (prop_def : pydict) : option string :=
  match dict_get "$comment" prop_def with
  | None => Some (PyStr.strip ("" ++ sparql_note))
  | Some (VStr c) => Some (PyStr.strip (c ++ sparql_note))
  | Some _ => None
  end.

(** [sh:xone], [sh:and] and [sh:sparql] on a property: a warning each, and
    a [$comment] for [sh:sparql]. *)
Definition unconvertible_stage (prop_shape : node) (prop_name : string)
  (prop_def : pydict) : M pydict :=
  self <- get_self ;;
  let g := graph self in
  (if nonempty (objects g prop_shape (sh "xone"))
   then warn ("sh:xone found in " ++ prop_name ++ " - partial conversion to oneOf")
   else ret tt) ;;;
  (if nonempty (objects g prop_shape (sh "and"))
   then warn ("sh:and found in " ++ prop_name ++ " - partial conversion to allOf")
   else ret tt) ;;;
  if nonempty (objects g prop_shape (sh "sparql")) then
    warn ("sh:sparql found in " ++ prop_name ++ " - CANNOT be converted to JSON Schema") ;;;
    match sparql_comment prop_def with
    | Some c => ret (dict_set "$comment" (VStr c) prop_def)
    | None => raise TypeError
    end
  else ret prop_def.

(** The schema of a property with a path, up to its value constraints:
    description, type, cardinality, enumeration and bounds. *)
Definition constrained_schema (fuel : nat) (prop_shape : node) (prop_name : string)
  : M (pydict * bool) :=
  self <- get_self ;;
  let prop_def := describe self prop_shape in
  prop_def <- type_stage fuel prop_shape prop_name prop_def ;;
  let prop_def := ref_rewrite prop_def in
  '(prop_def, is_required) <-
     or_value_error (cardinality self prop_shape prop_def) ;;
  prop_def <- lift (in_stage fuel self prop_shape prop_def) ;;
  prop_def <- lift (bounds_stage self prop_shape prop_def) ;;
  ret (prop_def, is_required).

(** [_convert_property_shape]: the name, the schema and whether the
    property is required. *)
Definition _convert_property_shape (fuel : nat) (prop_shape : node)
  : M (option string * pydict * bool) :=
  self <- get_self ;;
  match truthy_value (graph self) prop_shape (sh "path") with
  | None =>
      warn ("Property shape without sh:path found: " ++ str prop_shape) ;;;
      ret (None, [], false)
  | Some path =>
      let prop_name := _get_property_name self path in
      '(prop_def, is_required) <- constrained_schema fuel prop_shape prop_name ;;
      prop_def <- unconvertible_stage prop_shape prop_name prop_def ;;
      ret (Some prop_name, prop_def, is_required)
  end.

(* ===================================================================== *)
(** ** Node shapes                                                        *)
(* ===================================================================== *)

Definition informative_keys : list string :=
  [ "type"; "$ref"; "anyOf"; "oneOf"; "allOf"; "enum"; "format"; "minimum"; "maximum";
    "exclusiveMinimum"; "exclusiveMaximum"; "pattern"; "minLength"; "maxLength" ].

(** [_is_informative_property_schema]. *)
Definition _is_informative_property_schema (schema : pyval) : bool :=
  match schema with
  | VDict d => existsb (fun k => dict_has k d) informative_keys
  | _ => false
  end.

(** [props[name] = schema] unless an entry is there that is informative
    or no less informative than [schema]. *)
Definition merge_property (props : pydict) (entry : string * pyval) : pydict :=
  let (name, schema) := entry in
  match dict_get name props with
  | None => dict_set name schema props
  | Some existing =>
      if (negb (_is_informative_property_schema existing)
          && _is_informative_property_schema schema)%bool
      then dict_set name schema props
      else props
  end.

(** The body of [for prop_shape in graph.objects(shape, SH.property)]:
    the property is entered under its name, and its name appended to
    [required] when it is required. *)
Definition property_loop_body (fuel : nat) (prop_shape : node)
  (acc : pydict * list string) : M (pydict * list string) :=
  let (properties, required) := acc in
  '(prop_name, prop_def, is_required) <- _convert_property_shape fuel prop_shape ;;
  match truthy_str prop_name with
  | Some name =>
      ret (dict_set name (VDict prop_def) properties,
           if is_required then (required ++ [name])%list else required)
  | None => ret (properties, required)
  end.

(** [_convert_node_constraint_node_to_schema]: an inline node constraint,
    with its [sh:property] blocks and, recursively, its [sh:not] blocks.
    Returns the schema and the properties discovered. *)
Fixpoint _convert_node_constraint_node_to_schema (fuel : nat) (constraint_node : node)
  : M (pydict * pydict) :=
  match fuel with
  | O => out_of_fuel
  | S fuel' =>
      self <- get_self ;;
      let g := graph self in
      '(props, req) <-
         for_each (objects g constraint_node (sh "property"))
                  (property_loop_body fuel') ([], []) ;;
      (* discovered_props receives the same entries as props *)
      let discovered_props := props in
      let obj_schema :=
        let o := [("type", VStr "object")] in
        let o := if nonempty props then dict_set "properties" (VDict props) o else o in
        if nonempty req then dict_set "required" (VList (map VStr req)) o else o in
      let subschemas :=
        if (nonempty props || nonempty req)%bool then [obj_schema] else [] in
      '(subschemas, discovered_props) <-
         for_each (objects g constraint_node (sh "not"))
                  (fun not_node (acc : list pydict * pydict) =>
                     let (subschemas, discovered_props) := acc in
                     '(nested_schema, nested_props) <-
                        _convert_node_constraint_node_to_schema fuel' not_node ;;
                     let discovered_props :=
                       fold_left merge_property nested_props discovered_props in
                     ret (if nonempty nested_schema
                          then (subschemas ++ [[("not", VDict nested_schema)]])%list
                          else subschemas,
                          discovered_props))
                  (subschemas, discovered_props) ;;
      match subschemas with
      | [] => ret ([], discovered_props)
      | [only] => ret (only, discovered_props)
      | _ => ret ([("allOf", VList (map VDict subschemas))], discovered_props)
      end
  end.

(** The node-level [sh:or]: the alternatives and the properties hoisted
    out of them. *)
Definition node_or_stage (fuel : nat) (shape_name : string) (shape_or_list : node)
  (definition properties : pydict) : M (pydict * pydict) :=
  self <- get_self ;;
  alts <- lift (_extract_list_nodes fuel self shape_or_list) ;;
  '(any_of, discovered_props) <-
     for_each alts
       (fun alt_node (acc : list pyval * pydict) =>
          let (any_of, discovered_props) := acc in
          '(alt_schema, alt_props) <-
             _convert_node_constraint_node_to_schema fuel alt_node ;;
          ret (if nonempty alt_schema then (any_of ++ [VDict alt_schema])%list else any_of,
               fold_left merge_property alt_props discovered_props))
       ([], []) ;;
  let properties := fold_left merge_property discovered_props properties in
  if nonempty any_of then ret (dict_set "anyOf" (VList any_of) definition, properties)
  else
    warn ("sh:or found in NodeShape " ++ shape_name
          ++ " but no convertible alternatives were found") ;;;
    ret (definition, properties).

(** The node-level [sh:and]: references to named shapes and inline
    members; the properties of inline members are merged into
    [properties]. *)
Definition node_and_stage (fuel : nat) (shape_name : string) (and_list : node)
  (definition properties : pydict) : M (pydict * pydict) :=
  self <- get_self ;;
  members <- lift (_extract_list_nodes fuel self and_list) ;;
  '(all_of, properties) <-
     for_each members
       (fun and_node (acc : list pyval * pydict) =>
          let (all_of, properties) := acc in
          match and_node with
          | URIRef _ =>
              let ref_name := _get_local_name and_node in
              if String.eqb ref_name shape_name then ret (all_of, properties)
              else ret ((all_of ++ [VDict [("$ref", ref_to ref_name)]])%list, properties)
          | _ =>
              '(and_schema, and_props) <-
                 _convert_node_constraint_node_to_schema fuel and_node ;;
              let properties := fold_left merge_property and_props properties in
              ret (if nonempty and_schema then (all_of ++ [VDict and_schema])%list
                   else all_of,
                   properties)
          end)
       ([], properties) ;;
  if nonempty all_of then ret (dict_set "allOf" (VList all_of) definition, properties)
  else
    warn ("sh:and found in NodeShape " ++ shape_name
          ++ " but no convertible members were found") ;;;
    ret (definition, properties).

(** [self.definitions[shape_name] = definition]. *)
Definition store_definition (shape_name : string) (definition : pydict) : M unit :=
  fun self =>
    Done (tt, mkConverter (graph self) (naming self) (iri_to_term self)
                          (dict_set shape_name (VDict definition) (definitions self))
                          (warnings self) (class_to_shape_map self)).

(** The definition a node shape starts from: type, comment, title and
    description. *)
Definition shape_header (self : Converter) (shape : node) : pydict :=
  let shape_name := _get_local_name shape in
  let definition :=
    [("type", VStr "object");
     ("$comment", VStr ("Generated from SHACL shape " ++ str shape))] in
  let name := _get_literal_value self shape (sh "name") in
  let description := _get_literal_value self shape (sh "description") in
  let definition := dict_set "title" (VStr shape_name) definition in
  match truthy_str description with
  | Some d => dict_set "description" (VStr d) definition
  | None =>
      match truthy_str name with
      | Some n => dict_set "description" (VStr n) definition
      | None => definition
      end
  end.

(** The [@type] property of a shape with a target class. *)
Definition type_property (class_name : string) : pyval :=
  VDict [("type", VStr "string"); ("const", VStr class_name);
         ("description", VStr ("Type identifier for " ++ class_name))].

(** [_convert_node_shape]: one definition per node shape.  [properties]
    is put into the definition before [sh:and] is handled and shared with
    it, so what [sh:and] merges into [properties] shows in the definition
    exactly when [properties] was not empty at that point. *)
Definition _convert_node_shape (fuel : nat) (shape : node) : M unit :=
  self <- get_self ;;
  let g := graph self in
  let shape_name := _get_local_name shape in
  let definition := shape_header self shape in
  let '(properties, required) :=
    match truthy_value g shape (sh "targetClass") with
    | Some target_class =>
        ([("@type", type_property (_get_local_name target_class))], ["@type"])
    | None => ([], [])
    end in
  '(properties, required) <-
     for_each (objects g shape (sh "property")) (property_loop_body fuel)
              (properties, required) ;;
  '(definition, properties) <-
     match truthy_value g shape (sh "or") with
     | Some shape_or_list => node_or_stage fuel shape_name shape_or_list definition properties
     | None => ret (definition, properties)
     end ;;
  let shared := nonempty properties in
  let definition :=
    if shared then dict_set "properties" (VDict properties) definition else definition in
  let definition :=
    if nonempty required then dict_set "required" (VList (map VStr required)) definition
    else definition in
  '(definition, properties) <-
     match truthy_value g shape (sh "and") with
     | Some and_list => node_and_stage fuel shape_name and_list definition properties
     | None => ret (definition, properties)
     end ;;
  let definition :=
    if shared then dict_set "properties" (VDict properties) definition else definition in
  let closed := _get_literal_value self shape (sh "closed") in
  let definition :=
    match truthy_str closed with
    | Some c =>
        if String.eqb (PyStr.lower c) "true"
        then dict_set "additionalProperties" (VBool false) definition
        else definition
    | None => definition
    end in
  store_definition shape_name definition.

(* ===================================================================== *)
(** ** The document                                                       *)
(* ===================================================================== *)

(** [self.class_to_shape_map[key] = shape_name]. *)
Definition map_class (key shape_name : string) : M unit :=
  fun self =>
    Done (tt, mkConverter (graph self) (naming self) (iri_to_term self)
                          (definitions self) (warnings self)
                          (dict_set key shape_name (class_to_shape_map self))).

(** [_build_class_to_shape_map]. *)
Definition _build_class_to_shape_map (node_shapes : list node) : M unit :=
  for_each node_shapes
    (fun shape (_ : unit) =>
       self <- get_self ;;
       match truthy_value (graph self) shape (sh "targetClass") with
       | Some target_class => map_class (str target_class) (_get_local_name shape)
       | None => ret tt
       end)
    tt.

(** [_create_empty_schema]. *)
Definition _create_empty_schema : pydict :=
  [ ("$schema", VStr "http://json-schema.org/draft-07/schema#");
    ("title", VStr "Empty Schema");
    ("description", VStr "No SHACL shapes found for conversion");
    ("type", VStr "object") ].

Definition get_default (k : string) (d : pydict) (default : pyval) : pyval :=
  match dict_get k d with Some v => v | None => default end.

(** [if key in first_shape: schema[key] = first_shape[key]]. *)
Definition copy_key (first_shape : pydict) (schema : pydict) (key : string) : pydict :=
  match dict_get key first_shape with
  | Some v => dict_set key v schema
  | None => schema
  end.

(** [_create_main_schema]: the header, the definitions, and the first
    definition copied to the root. *)
Definition _create_main_schema (self : Converter) : outcome pydict :=
  let schema :=
    [ ("$schema", VStr "http://json-schema.org/draft-07/schema#");
      ("title", VStr "Generated JSON Schema from SHACL");
      ("description", VStr "This schema was automatically generated from SHACL shapes. It provides structural validation only. For semantic validation, use the original SHACL shapes.");
      ("$comment", VStr "Auto-generated by shacl-to-jsonschema.py - DO NOT EDIT MANUALLY");
      ("$defs", VDict (definitions self)) ] in
  match definitions self with
  | [] => Done schema
  | (_, VDict first_shape) :: _ =>
      let schema :=
        dict_update schema
          [ ("type", get_default "type" first_shape (VStr "object"));
            ("properties", get_default "properties" first_shape (VDict []));
            ("required", get_default "required" first_shape (VList [])) ] in
      let schema := copy_key first_shape schema "additionalProperties" in
      let schema := fold_left (copy_key first_shape) ["allOf"; "anyOf"; "oneOf"; "not"] schema in
      let schema := copy_key first_shape schema "title" in
      Done (copy_key first_shape schema "description")
  | _ => Raised AttributeError
  end.

(** [convert]: the schema of the graph of [self]. *)
Definition convert (fuel : nat) : M pydict :=
  self <- get_self ;;
  let node_shapes := subjects (graph self) RDF_type (sh "NodeShape") in
  if nonempty node_shapes then
    _build_class_to_shape_map node_shapes ;;;
    for_each node_shapes (fun shape (_ : unit) => _convert_node_shape fuel shape) tt ;;;
    self <- get_self ;;
    lift (_create_main_schema self)
  else ret _create_empty_schema.

(** *** The JSON-LD context *)

Definition str_entries (ctx : pydict) : list (string * string) :=
  flat_map (fun kv => match snd kv with VStr v => [(fst kv, v)] | _ => [] end) ctx.

(** The prefix declarations of a context: string values that end in
    ['/'] or ['#']. *)
Definition context_prefixes (ctx : pydict) : dict string :=
  fold_left (fun acc kv => dict_set (fst kv) (snd kv) acc)
            (filter (fun kv => PyStr.ends_with_sep (snd kv)) (str_entries ctx)) [].

(** [expand]: a CURIE-valued term, expanded with the prefixes. *)
Definition expand (prefixes : dict string) (v : string) : string :=
  if (PyStr.startswith v "http://" || PyStr.startswith v "https://")%bool then v
  else
    match PyStr.split_first ":" v with
    | Some (pfx, suffix) =>
        match truthy_str (dict_get pfx prefixes) with
        | Some base => base ++ suffix
        | None => v
        end
    | None => v
    end.

(** [_load_jsonld_context_inverse] on the document [json.load] returned
    ([None] when it raised): IRI to term, the first term wins. *)
Definition _load_jsonld_context_inverse (doc : option pyval) : outcome (dict string) :=
  match doc with
  | Some (VDict d) =>
      match dict_get "@context" d with
      | Some (VDict ctx) =>
          let prefixes := context_prefixes ctx in
          Done (fold_left
                  (fun iri_to_term kv =>
                     if PyStr.ends_with_sep (snd kv) then iri_to_term
                     else dict_setdefault (expand prefixes (snd kv)) (fst kv) iri_to_term)
                  (str_entries ctx) [])
      | _ => Raised ValueError
      end
  | _ => Raised ValueError
  end.

(** [__init__]: [context] is [None] without a context path, else the
    document loaded from it. *)
Definition init (g : Graph) (naming : string) (context : option (option pyval))
  : outcome Converter :=
  if String.eqb naming "context" then
    match context with
    | None => Raised ValueError
    | Some doc =>
        match _load_jsonld_context_inverse doc with
        | Done table => Done (mkConverter g naming table [] [] [])
        | Raised e => Raised e
        | OutOfFuel => OutOfFuel
        end
    end
  else Done (mkConverter g naming [] [] [] []).

(** One run: the document and the diagnostics. *)
Definition run (fuel : nat) (g : Graph) (naming : string) (context : option (option pyval))
  : outcome (pydict * list string) :=
  match init g naming context with
  | Done self =>
      match convert fuel self with
      | Done (schema, self') => Done (schema, warnings self')
      | Raised e => Raised e
      | OutOfFuel => OutOfFuel
      end
  | Raised e => Raised e
  | OutOfFuel => OutOfFuel
  end.

(* ===================================================================== *)
(** * The vocabulary of the statements, and the scenarios                 *)
(* ===================================================================== *)

(** ** Converters and outcomes *)

(** The converter [__init__] builds for a strategy other than [context]. *)
Definition converter_of (g : Graph) (naming : string) : Converter :=
  mkConverter g naming [] [] [] [].

(** The converter with other diagnostics. *)
Definition with_warnings (self : Converter) (ws : list string) : Converter :=
  mkConverter (graph self) (naming self) (iri_to_term self) (definitions self) ws
              (class_to_shape_map self).

(** The definitions a method leaves behind. *)
Definition definitions_after {A} (o : outcome (A * Converter)) : option pydict :=
  match o with Done (_, self) => Some (definitions self) | _ => None end.

(** The diagnostics a method leaves behind. *)
Definition warnings_after {A} (o : outcome (A * Converter)) : option (list string) :=
  match o with Done (_, self) => Some (warnings self) | _ => None end.

(** The schema a translation returns. *)
Definition schema_of (o : outcome (option string * pydict * bool * Converter))
  : option pydict :=
  match o with Done ((_, schema, _), _) => Some schema | _ => None end.

(** The converter a method leaves behind. *)
Definition converter_after {A} (o : outcome (A * Converter)) (default : Converter)
  : Converter :=
  match o with Done (_, self) => self | _ => default end.


(** ** Graph shapes *)

(** Every triple about [s] uses one of the predicates [preds]. *)
Definition only_predicates (g : Graph) (s : node) (preds : list node) : bool :=
  forallb (fun t => negb (node_eqb (fst (fst t)) s)
                    || existsb (node_eqb (snd (fst t))) preds)%bool
          (triples g).

(** The cell the walk moves to from [current]: none at [rdf:nil], and none
    when [rdf:rest] is missing or falsy. *)
Definition next_cell (g : Graph) (current : node) : option node :=
  if node_eqb current RDF_nil then None else truthy_value g current RDF_rest.

(** The cell the walk is at after [n] moves. *)
Fixpoint cell_at (g : Graph) (n : nat) (current : node) : option node :=
  match n with
  | O => Some current
  | S n' =>
      match next_cell g current with
      | Some r => cell_at g n' r
      | None => None
      end
  end.

(** The walk from [head] never comes back to a cell it has been at. *)
Definition acyclic_from (g : Graph) (head : node) : Prop :=
  forall i j c, (i < j)%nat -> cell_at g i head = Some c -> cell_at g j head <> Some c.

(** ** Names *)

(** [path] is resolved by the binding [b], and is that namespace followed
    by the local name of [path]. *)
Definition resolved_by (self : Converter) (path : node) (b : string * string) : Prop :=
  find (matching_namespace path) (namespaces (graph self)) = Some b
  /\ str path = snd b ++ _get_local_name path.

(** No prefix of the bindings contains a colon. *)
Definition colon_free_prefixes (self : Converter) : bool :=
  forallb (fun b => negb (PyStr.contains ":" (fst b))) (namespaces (graph self)).

(** ** Keys, warnings and cases of the property translation *)

(** The keys the type stage writes. *)
Definition type_keys : list string :=
  ["const"; "type"; "anyOf"; "$comment"; "format"; "$ref"].

(** The keys the bounds stage writes. *)
Definition bound_keys : list string :=
  ["minimum"; "maximum"; "exclusiveMinimum"; "exclusiveMaximum"; "minLength"; "maxLength";
   "pattern"].

(** The [$comment] of a schema, when there is one, is a string. *)
Definition comment_ok (d : pydict) : Prop :=
  match dict_get "$comment" d with
  | None | Some (VStr _) => True
  | Some _ => False
  end.

(** An entry that is there when its value is. *)
Definition optional_entry (k : string) (o : option pyval) : pydict :=
  match o with Some v => [(k, v)] | None => [] end.

(** An integer entry that is there when its value is. *)
Definition optional_int (k : string) (o : option Z) : pydict :=
  match o with Some n => [(k, VInt n)] | None => [] end.

(** The warning each construct without a counterpart adds, when the
    property shape carries it. *)
Definition xone_warning (g : Graph) (ps : node) (name : string) : list string :=
  if nonempty (objects g ps (sh "xone"))
  then ["sh:xone found in " ++ name ++ " - partial conversion to oneOf"] else [].

Definition and_warning (g : Graph) (ps : node) (name : string) : list string :=
  if nonempty (objects g ps (sh "and"))
  then ["sh:and found in " ++ name ++ " - partial conversion to allOf"] else [].

Definition sparql_warning (g : Graph) (ps : node) (name : string) : list string :=
  if nonempty (objects g ps (sh "sparql"))
  then ["sh:sparql found in " ++ name ++ " - CANNOT be converted to JSON Schema"] else [].

Definition unconvertible_warnings (g : Graph) (ps : node) (name : string) : list string :=
  (xone_warning g ps name ++ and_warning g ps name ++ sparql_warning g ps name)%list.

(** [sh:hasValue] with an IRI and with a boolean literal: the constant
    and the type each gives. *)
Inductive has_value_case (self : Converter) : node -> pyval -> string -> Prop :=
  | HasValueIRI iri :
      has_value_case self (URIRef iri) (VStr (_get_property_name self (URIRef iri))) "string"
  | HasValueBoolean l b :
      value l = Some (ABool b) ->
      has_value_case self (Literal l) (VBool b) "boolean".


(** A property shape with a path, a name and a minimum count of one or
    more. *)
Definition required_property (self : Converter) (ps : node) (name : string) : Prop :=
  exists path s n,
    truthy_value (graph self) ps (sh "path") = Some path
    /\ name = _get_property_name self path
    /\ name <> ""
    /\ _get_literal_value self ps (sh "minCount") = Some s
    /\ PyNum.py_int s = Some n
    /\ 1 <= n.

(** ** Property shapes that translate *)

(** The predicates whose value [_convert_property_shape] hands to [int],
    and those whose value it hands to [float]. *)
Definition int_predicates : list node :=
  [sh "minCount"; sh "maxCount"; sh "minLength"; sh "maxLength"].

Definition float_predicates : list node :=
  [sh "minInclusive"; sh "maxInclusive"; sh "minExclusive"; sh "maxExclusive"].

(** [conv] does not raise on an optional string that is there. *)
Definition parses {A} (conv : string -> option A) (o : option string) : bool :=
  match o with
  | Some s => match conv s with Some _ => true | None => false end
  | None => true
  end.

(** The counts, the lengths and the bounds a property shape gives are
    numerals that [int] and [float] read. *)
Definition numerals_parse (self : Converter) (prop_shape : node) : bool :=
  (forallb (fun p => parses PyNum.py_int (_get_literal_value self prop_shape p))
           int_predicates
   && forallb (fun p => parses PyNum.py_float (_get_literal_value self prop_shape p))
              float_predicates)%bool.

(** A node whose Python value the converter can take: any node but a
    literal whose value is a [Decimal] that [float] rejects (a signalling
    NaN). *)
Definition converts (n : node) : bool :=
  match list_value_of n with Some _ => true | None => false end.

(** Every object of the graph converts. *)
Definition values_convert (g : Graph) : bool :=
  forallb (fun t => converts (snd t)) (triples g).

(** The walk from [head], when there is one, ends within [fuel] tests of
    the loop condition. *)
Definition list_ends (g : Graph) (fuel : nat) (head : option node) : bool :=
  match head with
  | Some h => match cell_at g fuel h with None => true | Some _ => false end
  | None => true
  end.

(** The lists the translation of a property shape walks end within
    [fuel]: the [sh:or] list, looked at when there is no [sh:hasValue],
    and the first [sh:in] list. *)
Definition lists_end (fuel : nat) (g : Graph) (prop_shape : node) : bool :=
  ((match graph_value g prop_shape (sh "hasValue") with
    | Some _ => true
    | None => list_ends g fuel (truthy_value g prop_shape (sh "or"))
    end)
   && list_ends g fuel (hd_error (objects g prop_shape (sh "in"))))%bool.

(** What the translation of a property shape needs of its input in order
    to return: values that convert, numerals that parse and lists that
    end. *)
Definition well_formed (fuel : nat) (self : Converter) (prop_shape : node) : bool :=
  (values_convert (graph self)
   && numerals_parse self prop_shape
   && lists_end fuel (graph self) prop_shape)%bool.

(** An array that has items has a schema for items. *)
Definition items_ok (d : pydict) : Prop :=
  wrapped d = true -> exists items, dict_get "items" d = Some (VDict items).

(** The predicates of the value constraints written after the cardinality:
    the bounds and the pattern. *)
Definition bound_predicates : list node :=
  [sh "minInclusive"; sh "maxInclusive"; sh "minExclusive"; sh "maxExclusive";
   sh "minLength"; sh "maxLength"; sh "pattern"].

(** A property shape without enumeration, bounds, pattern and
    [sh:sparql]. *)
Definition no_value_constraints (self : Converter) (prop_shape : node) : bool :=
  (negb (nonempty (objects (graph self) prop_shape (sh "in")))
   && forallb (fun p => match _get_literal_value self prop_shape p with
                        | Some _ => false
                        | None => true
                        end) bound_predicates
   && negb (nonempty (objects (graph self) prop_shape (sh "sparql"))))%bool.

(** The array of the cardinality stage, key by key. *)
Definition array_of (prior : pydict) (min_items max_items : option Z) : pydict :=
  ([("type", VStr "array")]
   ++ (if (dict_has "type" prior || dict_has "$ref" prior)%bool
       then [("items", VDict (dict_without "description" prior))] else [])
   ++ optional_entry "description" (dict_get "description" prior)
   ++ optional_int "minItems" min_items
   ++ optional_int "maxItems" max_items)%list.

(** ** Terms of the scenarios *)

(** An IRI of the example namespace. *)
Definition ex (l : string) : node := URIRef ("http://example.org/" ++ l).

(** A literal of datatype [xsd:integer]. *)
Definition xsd_integer_literal (lex : string) (z : Z) : node :=
  Literal (mkLiteral lex (Some "http://www.w3.org/2001/XMLSchema#integer") None
                     (Some (AInt z))).

(** A literal of datatype [xsd:boolean]. *)
Definition xsd_boolean_literal (b : bool) : node :=
  Literal (mkLiteral (if b then "true" else "false")
                     (Some "http://www.w3.org/2001/XMLSchema#boolean") None
                     (Some (ABool b))).

(** A plain string literal. *)
Definition plain_literal (s : string) : node :=
  Literal (mkLiteral s None None (Some (AStr s))).

(** Two IRIs with the same local name, and one below two namespaces. *)
Definition one_code : node := URIRef "http://example.org/one#code".
Definition two_code : node := URIRef "http://example.org/two#code".

Definition vocab_name : node := URIRef "http://example.org/vocab/name".

Definition bindings_ex_first : list (string * string) :=
  [("ex", "http://example.org/"); ("exv", "http://example.org/vocab/")].

Definition bindings_exv_first : list (string * string) :=
  [("exv", "http://example.org/vocab/"); ("ex", "http://example.org/")].

(** ** Scenarios *)

(** The quantity scenario of the specification: integers, none to five. *)
Definition qty_graph : Graph :=
  mkGraph
    [ (BNode "qty", sh "path", ex "qty");
      (BNode "qty", sh "datatype", xsd "integer");
      (BNode "qty", sh "minCount", xsd_integer_literal "0" 0);
      (BNode "qty", sh "maxCount", xsd_integer_literal "5" 5) ]
    [("ex", "http://example.org/")].

(** A shape whose property shape has no path. *)
Definition pathless_graph : Graph :=
  mkGraph
    [ (ex "S", sh "property", BNode "p");
      (BNode "p", sh "datatype", xsd "string");
      (BNode "p", sh "minCount", xsd_integer_literal "1" 1) ]
    [].

(** A property whose [sh:in] list has its own cell for [rdf:rest]. *)
Definition cyclic_list_graph : Graph :=
  mkGraph
    [ (BNode "p", sh "path", ex "status");
      (BNode "p", sh "in", BNode "c");
      (BNode "c", RDF_first, URIRef "http://example.org/A");
      (BNode "c", RDF_rest, BNode "c") ]
    [].

(** A well-formed list of two cells. *)
Definition two_cell_list_graph : Graph :=
  mkGraph
    [ (BNode "l1", RDF_first, URIRef "http://example.org/A");
      (BNode "l1", RDF_rest, BNode "l2");
      (BNode "l2", RDF_first, URIRef "http://example.org/B");
      (BNode "l2", RDF_rest, RDF_nil) ]
    [].

(** The collision scenario of the specification: two [code] properties
    from two namespaces. *)
Definition code_graph : Graph :=
  mkGraph
    [ (ex "S", sh "property", BNode "p1");
      (BNode "p1", sh "path", URIRef "http://example.org/one#code");
      (BNode "p1", sh "datatype", xsd "string");
      (ex "S", sh "property", BNode "p2");
      (BNode "p2", sh "path", URIRef "http://example.org/two#code");
      (BNode "p2", sh "datatype", xsd "integer") ]
    [("ex1", "http://example.org/one#"); ("ex2", "http://example.org/two#")].

(** The scenario of the specification: a shape [PartyShape] for the class
    [ex:Party] with a required [ex:name]. *)
Definition party_graph : Graph :=
  mkGraph
    [ (ex "PartyShape", RDF_type, sh "NodeShape");
      (ex "PartyShape", sh "targetClass", ex "Party");
      (ex "PartyShape", sh "property", BNode "name");
      (BNode "name", sh "path", ex "name");
      (BNode "name", sh "datatype", xsd "string");
      (BNode "name", sh "minCount", xsd_integer_literal "1" 1) ]
    [("ex", "http://example.org/")].

(** The document and the diagnostics of the party scenario. *)
Definition party_document : pydict * list string :=
  Eval vm_compute in
    match run 1 party_graph "local" None with
    | Done r => r
    | _ => ([], [])
    end.

(** The converter after the party shape is converted. *)
Definition party_converted : Converter :=
  Eval vm_compute in
    converter_after (_convert_node_shape 1 (ex "PartyShape") (converter_of party_graph "local"))
                    (converter_of party_graph "local").

(** A shape whose only property has the namespace IRI itself as path. *)
Definition empty_name_graph : Graph :=
  mkGraph
    [ (ex "S", RDF_type, sh "NodeShape");
      (ex "S", sh "property", BNode "p");
      (BNode "p", sh "path", URIRef "http://example.org/ns#");
      (BNode "p", sh "datatype", xsd "string");
      (BNode "p", sh "minCount", xsd_integer_literal "1" 1) ]
    [].

(** Tags: described strings, two to five of them. *)
Definition tags_graph : Graph :=
  mkGraph
    [ (BNode "tags", sh "path", ex "tags");
      (BNode "tags", sh "description", plain_literal "Free-form tags");
      (BNode "tags", sh "datatype", xsd "string");
      (BNode "tags", sh "minCount", xsd_integer_literal "2" 2);
      (BNode "tags", sh "maxCount", xsd_integer_literal "5" 5) ]
    [].

(** Links: IRIs, up to three of them; and a property without any type,
    up to two. *)
Definition links_graph : Graph :=
  mkGraph
    [ (BNode "links", sh "path", ex "links");
      (BNode "links", sh "nodeKind", sh "IRI");
      (BNode "links", sh "maxCount", xsd_integer_literal "3" 3);
      (BNode "any", sh "path", ex "any");
      (BNode "any", sh "maxCount", xsd_integer_literal "2" 2) ]
    [].

(** A status that is always [ex:Active], though declared an integer, and
    up to two flags that are always [true]. *)
Definition status_graph : Graph :=
  mkGraph
    [ (BNode "status", sh "path", ex "status");
      (BNode "status", sh "hasValue", ex "Active");
      (BNode "status", sh "datatype", xsd "integer");
      (BNode "status", sh "nodeKind", sh "Literal");
      (BNode "flag", sh "path", ex "flag");
      (BNode "flag", sh "hasValue", xsd_boolean_literal true);
      (BNode "flag", sh "datatype", xsd "string");
      (BNode "flag", sh "maxCount", xsd_integer_literal "2" 2) ]
    [].

(** Enumerations: a boolean with [(true false)]; up to three IRIs out of
    [(ex:A)]; a string whose list has a blank node for only member; up to
    three strings out of [("a")]. *)
Definition enum_graph : Graph :=
  mkGraph
    [ (BNode "active", sh "path", ex "active");
      (BNode "active", sh "datatype", xsd "boolean");
      (BNode "active", sh "in", BNode "l1");
      (BNode "l1", RDF_first, xsd_boolean_literal true);
      (BNode "l1", RDF_rest, BNode "l2");
      (BNode "l2", RDF_first, xsd_boolean_literal false);
      (BNode "l2", RDF_rest, RDF_nil);
      (BNode "kinds", sh "path", ex "kinds");
      (BNode "kinds", sh "nodeKind", sh "IRI");
      (BNode "kinds", sh "maxCount", xsd_integer_literal "3" 3);
      (BNode "kinds", sh "in", BNode "k1");
      (BNode "k1", RDF_first, ex "A");
      (BNode "k1", RDF_rest, RDF_nil);
      (BNode "shapes", sh "path", ex "shapes");
      (BNode "shapes", sh "datatype", xsd "string");
      (BNode "shapes", sh "in", BNode "s1");
      (BNode "s1", RDF_first, BNode "inline");
      (BNode "s1", RDF_rest, RDF_nil);
      (BNode "codes", sh "path", ex "codes");
      (BNode "codes", sh "datatype", xsd "string");
      (BNode "codes", sh "maxCount", xsd_integer_literal "3" 3);
      (BNode "codes", sh "in", BNode "c1");
      (BNode "c1", RDF_first, plain_literal "a");
      (BNode "c1", RDF_rest, RDF_nil) ]
    [].

(** Constructs without a counterpart: a total with [sh:xone], [sh:and] and
    [sh:sparql]; a count with [sh:sparql] and a [sh:maxCount] that is not
    a number; a property shape with [sh:sparql] and no path. *)
Definition sparql_graph : Graph :=
  mkGraph
    [ (BNode "total", sh "path", ex "total");
      (BNode "total", sh "datatype", xsd "decimal");
      (BNode "total", sh "xone", BNode "x");
      (BNode "total", sh "and", BNode "a");
      (BNode "total", sh "sparql", BNode "q");
      (BNode "count", sh "path", ex "count");
      (BNode "count", sh "sparql", BNode "q");
      (BNode "count", sh "maxCount", plain_literal "many");
      (BNode "nopath", sh "sparql", BNode "q") ]
    [].

(** The party scenario with its triples in the opposite order. *)
Definition party_graph_reversed : Graph :=
  mkGraph (rev (triples party_graph)) (namespace_bindings party_graph).

(** Constants that are not at the top of a translated schema: a constant
    on a property shape without a path, one beside a count that is not a
    number, and one on a property that may repeat. *)
Definition constant_graph : Graph :=
  mkGraph
    [ (BNode "nopath", sh "hasValue", ex "Active");
      (BNode "count", sh "path", ex "count");
      (BNode "count", sh "hasValue", ex "Active");
      (BNode "count", sh "maxCount", plain_literal "many");
      (BNode "flags", sh "path", ex "flags");
      (BNode "flags", sh "hasValue", xsd_boolean_literal true);
      (BNode "flags", sh "maxCount", xsd_integer_literal "2" 2) ]
    [].

(** Arrays that are more, or less, than the wrap of the prior schema: up
    to three names of at least one character; up to two rules with a
    [sh:sparql] constraint; up to two owners, described references to a
    person shape; sizes whose [sh:maxCount] is not a number. *)
Definition wrap_graph : Graph :=
  mkGraph
    [ (BNode "names", sh "path", ex "names");
      (BNode "names", sh "datatype", xsd "string");
      (BNode "names", sh "maxCount", xsd_integer_literal "3" 3);
      (BNode "names", sh "minLength", xsd_integer_literal "1" 1);
      (BNode "rules", sh "path", ex "rules");
      (BNode "rules", sh "datatype", xsd "string");
      (BNode "rules", sh "maxCount", xsd_integer_literal "2" 2);
      (BNode "rules", sh "sparql", BNode "q");
      (BNode "owners", sh "path", ex "owners");
      (BNode "owners", sh "description", plain_literal "The owners");
      (BNode "owners", sh "node", ex "PersonShape");
      (BNode "owners", sh "maxCount", xsd_integer_literal "2" 2);
      (BNode "sizes", sh "path", ex "sizes");
      (BNode "sizes", sh "datatype", xsd "integer");
      (BNode "sizes", sh "maxCount", plain_literal "many") ]
    [].

(** ** Graphs that the converter cannot tell apart *)

(** The converter on another graph. *)
Definition with_graph (self : Converter) (g : Graph) : Converter :=
  mkConverter g (naming self) (iri_to_term self) (definitions self) (warnings self)
              (class_to_shape_map self).





(** ** The vocabulary and the scenarios of the further properties *)

(** A method that only appends diagnostics: the graph, the naming, the
    context terms, the definitions and the class map stay as they are. *)
Definition appends_warnings {A} (c : M A) : Prop :=
  forall self a self', c self = Done (a, self') ->
    exists ws, self' = with_warnings self (warnings self ++ ws).

(** The properties and the required list a node shape starts from: the
    [@type] property of a shape with a target class. *)
Definition type_entry (g : Graph) (shape : node) : pydict * list string :=
  match truthy_value g shape (sh "targetClass") with
  | Some target_class =>
      ([("@type", type_property (_get_local_name target_class))], ["@type"])
  | None => ([], [])
  end.

(** [sh:closed] read as [_convert_node_shape] reads it. *)
Definition is_closed (self : Converter) (shape : node) : bool :=
  match truthy_str (_get_literal_value self shape (sh "closed")) with
  | Some c => String.eqb (PyStr.lower c) "true"
  | None => false
  end.

(** The converter with one more definition and other diagnostics. *)
Definition with_definition (self : Converter) (name : string) (definition : pydict)
  (ws : list string) : Converter :=
  mkConverter (graph self) (naming self) (iri_to_term self)
              (dict_set name (VDict definition) (definitions self)) ws
              (class_to_shape_map self).

(** The description of a node shape: [sh:description], else [sh:name]. *)
Definition shape_description (self : Converter) (shape : node) : option string :=
  match truthy_str (_get_literal_value self shape (sh "description")) with
  | Some d => Some d
  | None => truthy_str (_get_literal_value self shape (sh "name"))
  end.

(** The keys [_convert_node_shape] writes after the header of a
    definition. *)
Definition body_keys : list string :=
  ["anyOf"; "properties"; "required"; "allOf"; "additionalProperties"].

(** A closed shape with a name and an optional street. *)
Definition address_graph : Graph :=
  mkGraph
    [ (ex "AddressShape", RDF_type, sh "NodeShape");
      (ex "AddressShape", sh "name", plain_literal "Postal address");
      (ex "AddressShape", sh "closed", xsd_boolean_literal true);
      (ex "AddressShape", sh "property", BNode "street");
      (BNode "street", sh "path", ex "street");
      (BNode "street", sh "datatype", xsd "string") ]
    [("ex", "http://example.org/")].

(** The converter after the address shape is converted. *)
Definition address_converted : Converter :=
  Eval vm_compute in
    converter_after
      (_convert_node_shape 1 (ex "AddressShape") (converter_of address_graph "curie"))
      (converter_of address_graph "curie").

(** [shape] targets the class whose string is [c]. *)
Definition targets (g : Graph) (c : string) (shape : node) : bool :=
  match truthy_value g shape (sh "targetClass") with
  | Some target_class => String.eqb (str target_class) c
  | None => false
  end.

(** Whether a call returned. *)
Definition returns {A} (o : outcome A) : bool :=
  match o with Done _ => true | _ => false end.

(** The node shapes of a graph, as [convert] lists them. *)
Definition node_shapes_of (g : Graph) : list node := subjects g RDF_type (sh "NodeShape").

(** The keys of a definition that [_create_main_schema] copies to the
    root as they are. *)
Definition copied_keys : list string :=
  ["additionalProperties"; "allOf"; "anyOf"; "oneOf"; "not"].

(** The description of the document when the first definition has none. *)
Definition generated_description : pyval :=
  VStr "This schema was automatically generated from SHACL shapes. It provides structural validation only. For semantic validation, use the original SHACL shapes.".

(** Two shapes for one class, and a third shape that refers to the class. *)
Definition two_shapes_graph : Graph :=
  mkGraph
    [ (ex "PersonShape", RDF_type, sh "NodeShape");
      (ex "PersonShape", sh "targetClass", ex "Agent");
      (ex "CompanyShape", RDF_type, sh "NodeShape");
      (ex "CompanyShape", sh "targetClass", ex "Agent");
      (ex "OrderShape", RDF_type, sh "NodeShape");
      (ex "OrderShape", sh "property", BNode "buyer");
      (BNode "buyer", sh "path", ex "buyer");
      (BNode "buyer", sh "class", ex "Agent") ]
    [("ex", "http://example.org/")].

(** A shape one of whose properties has a count that is not a number. *)
Definition bad_count_graph : Graph :=
  mkGraph
    [ (ex "ItemShape", RDF_type, sh "NodeShape");
      (ex "ItemShape", sh "property", BNode "name");
      (BNode "name", sh "path", ex "name");
      (BNode "name", sh "datatype", xsd "string");
      (ex "ItemShape", sh "property", BNode "size");
      (BNode "size", sh "path", ex "size");
      (BNode "size", sh "minCount", plain_literal "one") ]
    [("ex", "http://example.org/")].

(** Every definition is an object that its key titles, without [oneOf]
    and [not]. *)
Definition titled_definitions (defs : pydict) : Prop :=
  forall k v, dict_get k defs = Some v ->
    exists d, v = VDict d
              /\ dict_get "title" d = Some (VStr k)
              /\ dict_get "type" d = Some (VStr "object")
              /\ dict_get "oneOf" d = None
              /\ dict_get "not" d = None.

(** The comment at the root of a document. *)
Definition generated_comment : pyval :=
  VStr "Auto-generated by shacl-to-jsonschema.py - DO NOT EDIT MANUALLY".

(** The document and the diagnostics of the two-shapes scenario. *)
Definition two_shapes_document : pydict * list string :=
  Eval vm_compute in
    match run 1 two_shapes_graph "curie" None with
    | Done r => r
    | _ => ([], [])
    end.

(** A property shape one of whose numerals [int] or [float] rejects. *)
Definition malformed_numeral (self : Converter) (ps : node) : Prop :=
  exists p s,
    _get_literal_value self ps p = Some s
    /\ ((In p int_predicates /\ PyNum.py_int s = None)
        \/ (In p float_predicates /\ PyNum.py_float s = None)).

(** The keyword each bound is written under, and how its string is
    converted: [float] for the numeric bounds, [int] for the lengths, the
    string itself, when it is not empty, for the pattern. *)
Definition bound_keywords : list (node * string * (string -> option pyval)) :=
  [ (sh "minInclusive", "minimum", as_float);
    (sh "maxInclusive", "maximum", as_float);
    (sh "minExclusive", "exclusiveMinimum", as_float);
    (sh "maxExclusive", "exclusiveMaximum", as_float);
    (sh "minLength", "minLength", as_int);
    (sh "maxLength", "maxLength", as_int);
    (sh "pattern", "pattern", fun s => if PyStr.truthy s then Some (VStr s) else None) ].

(** The keys a schema can have before the cardinality stage. *)
Definition prior_keys : list string := "description" :: "allOf" :: type_keys.

(** An age between [0] and [150], and up to three sizes of [1] or more. *)
Definition bounds_graph : Graph :=
  mkGraph
    [ (BNode "age", sh "path", ex "age");
      (BNode "age", sh "datatype", xsd "integer");
      (BNode "age", sh "minInclusive", xsd_integer_literal "0" 0);
      (BNode "age", sh "maxInclusive", xsd_integer_literal "150" 150);
      (BNode "sizes", sh "path", ex "sizes");
      (BNode "sizes", sh "datatype", xsd "integer");
      (BNode "sizes", sh "maxCount", xsd_integer_literal "3" 3);
      (BNode "sizes", sh "minInclusive", xsd_integer_literal "1" 1) ]
    [("ex", "http://example.org/")].

(** The schema a translation returns, [{}] when it does not return. *)
Definition schema_or_empty (o : outcome (option string * pydict * bool * Converter))
  : pydict :=
  match schema_of o with Some d => d | None => [] end.

Definition age_schema : pydict :=
  Eval vm_compute in
    schema_or_empty (_convert_property_shape 1 (BNode "age") (converter_of bounds_graph "curie")).

Definition sizes_schema : pydict :=
  Eval vm_compute in
    schema_or_empty
      (_convert_property_shape 1 (BNode "sizes") (converter_of bounds_graph "curie")).

(** A member of an [anyOf] list that is itself nothing but an [anyOf]. *)
Definition bare_any_of (v : pyval) : bool :=
  match v with
  | VDict [(k, VList _)] => String.eqb k "anyOf"
  | _ => false
  end.

(** A member that is a non-empty schema. *)
Definition is_schema (v : pyval) : bool :=
  match v with VDict (_ :: _) => true | _ => false end.

(** A buyer that is a described party ([sh:node]). *)
Definition buyer_graph : Graph :=
  mkGraph
    [ (BNode "buyer", sh "path", ex "buyer");
      (BNode "buyer", sh "description", plain_literal "Who buys");
      (BNode "buyer", sh "node", ex "PartyShape") ]
    [("ex", "http://example.org/")].

Definition buyer_schema : pydict :=
  Eval vm_compute in
    schema_or_empty
      (_convert_property_shape 1 (BNode "buyer") (converter_of buyer_graph "curie")).

(** A value that is a string, an IRI or a party. *)
Definition choice_graph : Graph :=
  mkGraph
    [ (BNode "v", sh "path", ex "value");
      (BNode "v", sh "or", BNode "o1");
      (BNode "o1", RDF_first, BNode "a1");
      (BNode "o1", RDF_rest, BNode "o2");
      (BNode "o2", RDF_first, BNode "a2");
      (BNode "o2", RDF_rest, BNode "o3");
      (BNode "o3", RDF_first, BNode "a3");
      (BNode "o3", RDF_rest, RDF_nil);
      (BNode "a1", sh "datatype", xsd "string");
      (BNode "a2", sh "nodeKind", sh "IRI");
      (BNode "a3", sh "node", ex "PartyShape") ]
    [("ex", "http://example.org/")].

(** The schema of the choice scenario after the type stage. *)
Definition choice_typed : pydict :=
  Eval vm_compute in
    match type_stage 4 (BNode "v") "ex:value" [] (converter_of choice_graph "curie") with
    | Done (d, _) => d
    | _ => []
    end.

(** [head] is the first cell of a well-formed RDF list with the members
    [members]: every cell has a member under [rdf:first] and a truthy
    next cell under [rdf:rest], down to [rdf:nil]. *)
Inductive rdf_list (g : Graph) : node -> list node -> Prop :=
  | rdf_list_nil : rdf_list g RDF_nil []
  | rdf_list_cons cell first rest members :
      cell <> RDF_nil ->
      graph_value g cell RDF_first = Some first ->
      graph_value g cell RDF_rest = Some rest ->
      truthy rest = true ->
      rdf_list g rest members ->
      rdf_list g cell (first :: members).

(** The values of a list of members, as [_extract_list_values] converts
    them one by one; [None] when a conversion raises. *)
Fixpoint values_of (members : list node) : option (list pyval) :=
  match members with
  | [] => Some []
  | first :: rest =>
      match list_value_of first, values_of rest with
      | Some vs, Some ws => Some (vs ++ ws)%list
      | _, _ => None
      end
  end.

(** The terms of a context that are not prefix declarations, each with
    the IRI its value expands to, in the order of the context. *)
Definition context_terms (ctx : pydict) : list (string * string) :=
  map (fun kv => (expand (context_prefixes ctx) (snd kv), fst kv))
      (filter (fun kv => negb (PyStr.ends_with_sep (snd kv))) (str_entries ctx)).

(** The first term of the context whose value expands to [iri]. *)
Definition first_term (ctx : pydict) (iri : string) : option string :=
  option_map snd (find (fun e => String.eqb (fst e) iri) (context_terms ctx)).

(** The context of the docstring of [_load_jsonld_context_inverse], with a
    second term for the same IRI. *)
Definition schema_org_context : pyval :=
  VDict [("@context",
          VDict [("schema", VStr "https://schema.org/");
                 ("name", VStr "schema:name");
                 ("label", VStr "https://schema.org/name");
                 ("version", VInt 1)])].

Definition schema_org_converter : Converter :=
  Eval vm_compute in
    match init (mkGraph [] []) "context" (Some (Some schema_org_context)) with
    | Done self => self
    | _ => converter_of (mkGraph [] []) "context"
    end.

(** A subschema of an inline node constraint: an object schema or a
    negation. *)
Definition constraint_form (schema : pydict) : Prop :=
  (exists rest, schema = ("type", VStr "object") :: rest)
  \/ (exists nested, schema = [("not", VDict nested)]).

(** The schema of an inline node constraint: nothing, one subschema, or
    an [allOf] of two subschemas or more. *)
Definition constraint_schema_form (schema : pydict) : Prop :=
  schema = []
  \/ constraint_form schema
  \/ (exists subschemas, schema = [("allOf", VList subschemas)]
                         /\ (2 <= length subschemas)%nat).

(** Coordinates that come both or not at all, on a shape with a typed
    latitude; the shape also extends a base shape and, in name, itself. *)
Definition geo_graph : Graph :=
  mkGraph
    [ (ex "GeoShape", RDF_type, sh "NodeShape");
      (ex "GeoShape", sh "property", BNode "lat");
      (BNode "lat", sh "path", ex "lat");
      (BNode "lat", sh "datatype", xsd "decimal");
      (ex "GeoShape", sh "or", BNode "o1");
      (BNode "o1", RDF_first, BNode "both");
      (BNode "o1", RDF_rest, BNode "o2");
      (BNode "o2", RDF_first, BNode "neither");
      (BNode "o2", RDF_rest, RDF_nil);
      (BNode "both", sh "property", BNode "lat1");
      (BNode "both", sh "property", BNode "lon1");
      (BNode "lat1", sh "path", ex "lat");
      (BNode "lat1", sh "minCount", xsd_integer_literal "1" 1);
      (BNode "lon1", sh "path", ex "lon");
      (BNode "lon1", sh "minCount", xsd_integer_literal "1" 1);
      (BNode "neither", sh "not", BNode "some");
      (BNode "some", sh "property", BNode "lat2");
      (BNode "lat2", sh "path", ex "lat");
      (BNode "lat2", sh "minCount", xsd_integer_literal "1" 1);
      (ex "GeoShape", sh "and", BNode "a1");
      (BNode "a1", RDF_first, ex "BaseShape");
      (BNode "a1", RDF_rest, BNode "a2");
      (BNode "a2", RDF_first, ex "GeoShape");
      (BNode "a2", RDF_rest, RDF_nil) ]
    [].

(** The definition and the properties of the geo shape after its
    node-level [sh:or], from the typed latitude. *)
Definition geo_merged : pydict * pydict :=
  Eval vm_compute in
    match node_or_stage 3 "GeoShape" (BNode "o1") []
            [("lat", VDict [("type", VStr "number")])] (converter_of geo_graph "local") with
    | Done (r, _) => r
    | _ => ([], [])
    end.

(** The converter after the geo shape is converted. *)
Definition geo_converted : Converter :=
  Eval vm_compute in
    converter_after (_convert_node_shape 4 (ex "GeoShape") (converter_of geo_graph "local"))
                    (converter_of geo_graph "local").

(** An owner that is an agent by class and a person by node; the class
    has a shape of its own. *)
Definition owner_graph : Graph :=
  mkGraph
    [ (ex "AgentShape", RDF_type, sh "NodeShape");
      (ex "AgentShape", sh "targetClass", ex "Agent");
      (BNode "owner", sh "path", ex "owner");
      (BNode "owner", sh "class", ex "Agent");
      (BNode "owner", sh "node", ex "PersonShape") ]
    [("ex", "http://example.org/")].

(** The converter of the owner scenario once the class map is built. *)
Definition owner_converter : Converter :=
  Eval vm_compute in
    converter_after
      (_build_class_to_shape_map [ex "AgentShape"] (converter_of owner_graph "curie"))
      (converter_of owner_graph "curie").

(** The JSON types a datatype can be given. *)
Definition json_types : list string := ["string"; "integer"; "number"; "boolean"].

(* ===================================================================== *)
(** * Properties                                                          *)
(* ===================================================================== *)

(** ** Python numbers *)

Example py_int_5 : PyNum.py_int "5" = Some 5.
Proof. reflexivity. Qed.

Example py_int_neg : PyNum.py_int " -1_000 " = Some (-1000).
Proof. reflexivity. Qed.

Example py_int_bad : PyNum.py_int "1.5" = None.
Proof. reflexivity. Qed.

Example py_float_tenth :
  PyNum.py_float "0.1" = Some (S754_finite false 7205759403792794 (-56)).
Proof. vm_compute. reflexivity. Qed.

Example py_float_five :
  PyNum.py_float "5" = Some (S754_finite false 5629499534213120 (-50)).
Proof. vm_compute. reflexivity. Qed.

Example py_float_exp :
  PyNum.py_float "-2.5e-1" = Some (S754_finite true 4503599627370496 (-54)).
Proof. vm_compute. reflexivity. Qed.

Example py_float_bad : PyNum.py_float "abc" = None.
Proof. reflexivity. Qed.

(** The Arabic-Indic digit one, U+0661, between a no-break space and an
    em space, is the integer one, as for CPython. *)
Example py_int_unicode :
  PyNum.py_int (String "194" (String "160" (String "217" (String "161"
                 (String "226" (String "128" (String "131" ""))))))) = Some 1.
Proof. reflexivity. Qed.

(** A superscript two is no decimal digit. *)
Example py_int_superscript : PyNum.py_int (String "194" (String "178" "")) = None.
Proof. reflexivity. Qed.

(** ** Dicts *)

Section DictFacts.
Context {V : Type}.
Implicit Types (d : dict V) (k : string) (v : V).

Lemma dict_get_set_same k v d : dict_get k (dict_set k v d) = Some v.
Proof.
  induction d as [|[k' v'] r IH]; simpl.
  - now rewrite String.eqb_refl.
  - destruct (String.eqb k' k) eqn:E; simpl; now rewrite E.
Qed.

Lemma dict_get_set_other k k' v d :
  k <> k' -> dict_get k (dict_set k' v d) = dict_get k d.
Proof.
  intros N. induction d as [|[k0 v0] r IH]; simpl.
  - destruct (String.eqb k' k) eqn:E; [apply String.eqb_eq in E; congruence | reflexivity].
  - destruct (String.eqb k0 k') eqn:E; simpl.
    + apply String.eqb_eq in E. subst k0.
      destruct (String.eqb k' k) eqn:E'; [apply String.eqb_eq in E'; congruence | reflexivity].
    + now rewrite IH.
Qed.

Lemma dict_has_set_same k v d : dict_has k (dict_set k v d) = true.
Proof. unfold dict_has. now rewrite dict_get_set_same. Qed.

Lemma dict_get_without_other k x d :
  k <> x -> dict_get k (dict_without x d) = dict_get k d.
Proof.
  intros N. induction d as [|[k0 v0] r IH]; simpl; [reflexivity|].
  destruct (String.eqb k0 x) eqn:E; simpl.
  - apply String.eqb_eq in E. subst k0.
    destruct (String.eqb x k) eqn:E'; [apply String.eqb_eq in E'; congruence | exact IH].
  - now rewrite IH.
Qed.
End DictFacts.

(** ** Graph lookups *)

Lemma graph_value_absent g s p : objects g s p = [] -> graph_value g s p = None.
Proof. unfold graph_value. now intros ->. Qed.

Lemma truthy_value_absent g s p : objects g s p = [] -> truthy_value g s p = None.
Proof. intros H. unfold truthy_value. now rewrite (graph_value_absent _ _ _ H). Qed.

Lemma literal_value_absent self s p :
  objects (graph self) s p = [] -> _get_literal_value self s p = None.
Proof. intros H. unfold _get_literal_value. now rewrite (graph_value_absent _ _ _ H). Qed.

Lemma only_predicates_absent g s preds p :
  only_predicates g s preds = true ->
  existsb (fun q => node_eqb q p) preds = false ->
  objects g s p = [].
Proof.
  unfold only_predicates, objects. intros Hall Hp.
  induction (triples g) as [|t r IH]; simpl in *; [reflexivity|].
  apply andb_true_iff in Hall as [Ht Hr].
  destruct (node_eqb (fst (fst t)) s) eqn:Es; simpl in *.
  - destruct (node_eqb (snd (fst t)) p) eqn:Ep; simpl; [|now apply IH].
    apply node_eqb_eq in Ep. subst p.
    assert (existsb (fun q => node_eqb q (snd (fst t))) preds = true) as Hc.
    { apply existsb_exists in Ht as [q [Hq Hq']]. apply existsb_exists.
      exists q. split; [assumption|]. apply node_eqb_eq in Hq'. subst q.
      apply node_eqb_refl. }
    congruence.
  - now apply IH.
Qed.

Ltac other_predicate H :=
  apply (only_predicates_absent _ _ _ _ H); reflexivity.

(** ** Stages that find nothing to do *)

Lemma bounds_on_absent self ps t :
  objects (graph self) ps (sh "minInclusive") = [] ->
  objects (graph self) ps (sh "maxInclusive") = [] ->
  objects (graph self) ps (sh "minExclusive") = [] ->
  objects (graph self) ps (sh "maxExclusive") = [] ->
  objects (graph self) ps (sh "minLength") = [] ->
  objects (graph self) ps (sh "maxLength") = [] ->
  objects (graph self) ps (sh "pattern") = [] ->
  bounds_on self ps t = Some t.
Proof.
  intros. unfold bounds_on. now rewrite !literal_value_absent by assumption.
Qed.

Lemma unconvertible_absent self ps name d :
  objects (graph self) ps (sh "xone") = [] ->
  objects (graph self) ps (sh "and") = [] ->
  objects (graph self) ps (sh "sparql") = [] ->
  unconvertible_stage ps name d self = Done (d, self).
Proof.
  intros Hx Ha Hs. unfold unconvertible_stage, bind, get_self. now rewrite Hx, Ha, Hs.
Qed.

(** ** The quantity scenario *)

(** C1.  A property shape with [sh:path], [sh:datatype xsd:integer],
    [sh:minCount 0] and [sh:maxCount 5], and nothing else, translates to
    exactly [{"type": "array", "items": {"type": "integer"}, "maxItems": 5}]:
    there is no [minItems] key, the property is not required, and no
    warning is recorded. *)
Theorem qty_scenario_schema (fuel : nat) (self : Converter) (prop_shape path : node) :
  let g := graph self in
  graph_value g prop_shape (sh "path") = Some path ->
  truthy path = true ->
  graph_value g prop_shape (sh "datatype") = Some (xsd "integer") ->
  graph_value g prop_shape (sh "minCount") = Some (xsd_integer_literal "0" 0) ->
  graph_value g prop_shape (sh "maxCount") = Some (xsd_integer_literal "5" 5) ->
  only_predicates g prop_shape
    [sh "path"; sh "datatype"; sh "minCount"; sh "maxCount"] = true ->
  _convert_property_shape fuel prop_shape self =
    Done ((Some (_get_property_name self path),
           [("type", VStr "array");
            ("items", VDict [("type", VStr "integer")]);
            ("maxItems", VInt 5)],
           false), self).
Proof.
  intros g Hpath Htr Hdt Hmin Hmax Hothers.
  assert (Hdesc : objects g prop_shape (sh "description") = []) by other_predicate Hothers.
  assert (Hmsg : objects g prop_shape (sh "message") = []) by other_predicate Hothers.
  assert (Hhv : objects g prop_shape (sh "hasValue") = []) by other_predicate Hothers.
  assert (Hor : objects g prop_shape (sh "or") = []) by other_predicate Hothers.
  assert (Hin : objects g prop_shape (sh "in") = []) by other_predicate Hothers.
  assert (H1 : objects g prop_shape (sh "minInclusive") = []) by other_predicate Hothers.
  assert (H2 : objects g prop_shape (sh "maxInclusive") = []) by other_predicate Hothers.
  assert (H3 : objects g prop_shape (sh "minExclusive") = []) by other_predicate Hothers.
  assert (H4 : objects g prop_shape (sh "maxExclusive") = []) by other_predicate Hothers.
  assert (H5 : objects g prop_shape (sh "minLength") = []) by other_predicate Hothers.
  assert (H6 : objects g prop_shape (sh "maxLength") = []) by other_predicate Hothers.
  assert (H7 : objects g prop_shape (sh "pattern") = []) by other_predicate Hothers.
  assert (H8 : objects g prop_shape (sh "xone") = []) by other_predicate Hothers.
  assert (H9 : objects g prop_shape (sh "and") = []) by other_predicate Hothers.
  assert (H10 : objects g prop_shape (sh "sparql") = []) by other_predicate Hothers.
  unfold _convert_property_shape, bind, get_self.
  unfold truthy_value at 1. fold g. rewrite Hpath, Htr.
  unfold constrained_schema, bind, get_self.
  unfold describe. rewrite !literal_value_absent by assumption. simpl truthy_str. cbv iota.
  unfold type_stage, bind, get_self. fold g.
  rewrite (graph_value_absent _ _ _ Hhv), (truthy_value_absent _ _ _ Hor).
  unfold truthy_value at 1. rewrite Hdt.
  change (truthy (xsd "integer")) with true. cbv iota.
  change (datatype_schema [] (xsd "integer")) with [("type", VStr "integer")].
  unfold ret at 1.
  change (ref_rewrite [("type", VStr "integer")]) with [("type", VStr "integer")].
  unfold cardinality, _get_literal_value. fold g. rewrite Hmin, Hmax.
  change (truthy (xsd_integer_literal "0" 0)) with false.
  change (truthy (xsd_integer_literal "5" 5)) with true.
  cbv iota.
  change (str (xsd_integer_literal "5" 5)) with "5".
  change (int_of None) with (Some (@None Z)). cbv iota.
  change (int_of (Some "5")) with (Some (Some 5)). cbv iota.
  change (gt_one (Some 5)) with true. cbv iota.
  change (wrap_array [("type", VStr "integer")] None (Some 5)) with
    [("type", VStr "array"); ("items", VDict [("type", VStr "integer")]);
     ("maxItems", VInt 5)].
  unfold or_value_error, ret at 1.
  unfold in_stage. fold g. rewrite Hin. unfold lift at 1.
  unfold bounds_stage, on_target, wrapped, bounds_target.
  cbn [get_is_str dict_get dict_has String.eqb Ascii.eqb Bool.eqb andb].
  rewrite bounds_on_absent by assumption.
  cbn [lift dict_set String.eqb Ascii.eqb Bool.eqb ret].
  rewrite unconvertible_absent by assumption.
  reflexivity.
Qed.

Lemma qty_scenario_schema_witness :
  _convert_property_shape 0 (BNode "qty") (converter_of qty_graph "curie") =
    Done ((Some "ex:qty",
           [("type", VStr "array");
            ("items", VDict [("type", VStr "integer")]);
            ("maxItems", VInt 5)],
           false), converter_of qty_graph "curie").
Proof.
  exact (qty_scenario_schema 0 (converter_of qty_graph "curie") (BNode "qty") (ex "qty")
           eq_refl eq_refl eq_refl eq_refl eq_refl eq_refl).
Defined.

(** ** Property shapes without a path *)

(** C10.  A property shape without [sh:path] yields no property: the
    translator returns no name and an empty schema, appends one warning
    and goes on; in the loop over the [sh:property] values of a node shape
    it leaves the properties map and the required list as they were. *)
Theorem pathless_shape_emits_nothing (fuel : nat) (self : Converter) (prop_shape : node)
  (properties : pydict) (required : list string) :
  graph_value (graph self) prop_shape (sh "path") = None ->
  let self' :=
    mkConverter (graph self) (naming self) (iri_to_term self) (definitions self)
      (warnings self
       ++ [("Property shape without sh:path found: " ++ str prop_shape)%string])%list
      (class_to_shape_map self) in
  _convert_property_shape fuel prop_shape self = Done ((None, [], false), self')
  /\ property_loop_body fuel prop_shape (properties, required) self
     = Done ((properties, required), self').
Proof.
  intros Hpath self'.
  assert (Hc : _convert_property_shape fuel prop_shape self = Done ((None, [], false), self')).
  { unfold _convert_property_shape, bind, get_self, truthy_value. now rewrite Hpath. }
  split; [exact Hc|].
  unfold property_loop_body, bind. now rewrite Hc.
Qed.

Lemma pathless_shape_emits_nothing_witness :
  _convert_property_shape 0 (BNode "p") (converter_of pathless_graph "curie")
  = Done ((None, [], false),
          mkConverter pathless_graph "curie" [] []
            ["Property shape without sh:path found: p"] [])
  /\ property_loop_body 0 (BNode "p") ([], []) (converter_of pathless_graph "curie")
     = Done (([], []),
             mkConverter pathless_graph "curie" [] []
               ["Property shape without sh:path found: p"] []).
Proof.
  exact (pathless_shape_emits_nothing 0 (converter_of pathless_graph "curie") (BNode "p")
           [] [] eq_refl).
Defined.

(** ** RDF list walks *)

Section ListWalk.
Variable g : Graph.

Lemma cell_at_succ n c :
cell_at g (S n) c =
  match cell_at g n c with Some x => next_cell g x | None => None end.
Proof.
revert c. induction n as [|n IH]; intros c.
- simpl. now destruct (next_cell g c).
- change (cell_at g (S (S n)) c) with
    (match next_cell g c with Some r => cell_at g (S n) r | None => None end).
  destruct (next_cell g c) as [r|] eqn:E.
  + rewrite IH. simpl. now rewrite E.
  + simpl. now rewrite E.
Qed.

Lemma objects_incl s p : incl (objects g s p) (map snd (triples g)).
Proof.
unfold objects. intros x Hx. apply in_map_iff in Hx as [t [<- Ht]].
apply filter_In in Ht as [Ht _]. now apply in_map.
Qed.

Lemma graph_value_in s p r : graph_value g s p = Some r -> In r (objects g s p).
Proof.
unfold graph_value. destruct (objects g s p); simpl; intros [= <-]. now left.
Qed.

Lemma next_cell_object c r : next_cell g c = Some r -> In r (map snd (triples g)).
Proof.
unfold next_cell, truthy_value. intros H.
destruct (node_eqb c RDF_nil); [discriminate H|].
destruct (graph_value g c RDF_rest) as [x|] eqn:E; [|discriminate H].
destruct (truthy x); [|discriminate H]. injection H as <-.
eapply objects_incl, graph_value_in, E.
Qed.

(** The loop returns as soon as the walk has come to an end. *)
Lemma list_nodes_loop_ends n : forall current nodes,
cell_at g n current = None ->
exists result, list_nodes_loop n g current nodes = Done result.
Proof.
induction n as [|n IH]; intros current nodes H; [discriminate|].
simpl in *. unfold next_cell, truthy_value in H.
destruct (node_eqb current RDF_nil); [eauto|].
destruct (graph_value g current RDF_rest) as [r|]; [|eauto].
destruct (truthy r); [|eauto]. now apply IH.
Qed.

Lemma list_values_loop_ends n : forall current values,
cell_at g n current = None ->
list_values_loop n g current values <> OutOfFuel.
Proof.
induction n as [|n IH]; intros current values H; [discriminate|].
simpl in *. unfold next_cell, truthy_value in H.
destruct (node_eqb current RDF_nil); [discriminate|].
destruct (match graph_value g current RDF_first with
          | Some first => match list_value_of first with
                          | Some vs => Some (values ++ vs)%list
                          | None => None
                          end
          | None => Some values
          end); [|discriminate].
destruct (graph_value g current RDF_rest) as [r|]; [|discriminate].
destruct (truthy r); [|discriminate]. now apply IH.
Qed.

(** Either the walk ends within [n] moves, or its first [n] moves go
  through [n] cells. *)
Lemma walk_ends_or_trail head n :
(exists k, (k <= n)%nat /\ cell_at g k head = None)
\/ (exists l, length l = n
              /\ forall i, (i < n)%nat -> nth_error l i = cell_at g (S i) head
                                         /\ cell_at g (S i) head <> None).
Proof.
induction n as [|n [[k [Hk Hn]]|[l [Hl Hc]]]].
- right. exists []. split; [reflexivity|]. intros i Hi. lia.
- left. exists k. split; [lia|assumption].
- destruct (cell_at g (S n) head) as [c|] eqn:E.
  + right. exists (l ++ [c])%list. split.
    * rewrite length_app. simpl. lia.
    * intros i Hi. destruct (Nat.eq_dec i n) as [->|Hne].
      -- rewrite nth_error_app2 by lia. rewrite Hl, Nat.sub_diag.
         cbn [nth_error]. rewrite E. split; [reflexivity|discriminate].
      -- rewrite nth_error_app1 by lia. apply Hc. lia.
  + left. exists (S n). split; [lia|assumption].
Qed.

Lemma acyclic_walk_ends head :
acyclic_from g head ->
exists n, (n <= S (length (triples g)))%nat /\ cell_at g n head = None.
Proof.
intros Hac.
destruct (walk_ends_or_trail head (S (length (triples g)))) as [H|[l [Hl Hc]]];
  [exact H|exfalso].
assert (NoDup l) as Hnd.
{ apply NoDup_nth_error. intros i j Hi Hij. rewrite Hl in Hi.
  destruct (Hc i Hi) as [Hci Hsi].
  assert (j < S (length (triples g)))%nat as Hj.
  { rewrite <- Hl. apply nth_error_Some. rewrite <- Hij, Hci. exact Hsi. }
  destruct (Hc j Hj) as [Hcj _].
  rewrite Hci, Hcj in Hij.
  destruct (cell_at g (S i) head) as [c|] eqn:Ei; [|congruence].
  destruct (Nat.lt_trichotomy i j) as [Hlt|[Heq|Hgt]]; [|assumption|].
  - exfalso. apply (Hac (S i) (S j) c); [lia|assumption|congruence].
  - exfalso. symmetry in Hij. apply (Hac (S j) (S i) c); [lia|assumption|congruence]. }
assert (incl l (map snd (triples g))) as Hincl.
{ intros c Hin. apply In_nth_error in Hin as [i Hi].
  assert (i < S (length (triples g)))%nat as Hlt.
  { rewrite <- Hl. apply nth_error_Some. congruence. }
  destruct (Hc i Hlt) as [Hci _]. rewrite Hci in Hi.
  rewrite cell_at_succ in Hi.
  destruct (cell_at g i head) as [x|]; [|discriminate].
  now apply next_cell_object in Hi. }
apply NoDup_incl_length in Hincl; [|assumption].
rewrite length_map, Hl in Hincl. exact (Nat.nle_succ_diag_l _ Hincl).
Qed.
(** A loop that returns has come to the end of the walk. *)
Lemma list_nodes_loop_ended n : forall current nodes result,
  list_nodes_loop n g current nodes = Done result -> cell_at g n current = None.
Proof.
  induction n as [|n IH]; intros current nodes result H; [discriminate|].
  simpl in *. unfold next_cell, truthy_value.
  destruct (node_eqb current RDF_nil); [reflexivity|].
  destruct (graph_value g current RDF_rest) as [r|]; [|reflexivity].
  destruct (truthy r); [|reflexivity]. eapply IH, H.
Qed.

Lemma list_values_loop_ended n : forall current values result,
  list_values_loop n g current values = Done result -> cell_at g n current = None.
Proof.
  induction n as [|n IH]; intros current values result H; [discriminate|].
  simpl in *. unfold next_cell, truthy_value.
  destruct (node_eqb current RDF_nil); [reflexivity|].
  destruct (match graph_value g current RDF_first with
            | Some first => match list_value_of first with
                            | Some vs => Some (values ++ vs)%list
                            | None => None
                            end
            | None => Some values
            end) as [values'|]; [|discriminate].
  destruct (graph_value g current RDF_rest) as [r|]; [|reflexivity].
  destruct (truthy r); [|reflexivity]. eapply IH, H.
Qed.

Lemma cell_at_add a : forall b c,
  cell_at g (a + b) c =
    match cell_at g a c with Some x => cell_at g b x | None => None end.
Proof.
  induction a as [|a IH]; intros b c; [reflexivity|].
  cbn [Nat.add cell_at]. destruct (next_cell g c); [apply IH|reflexivity].
Qed.

(** A walk that is back at a cell goes through it again and again. *)
Lemma cycle_goes_on p c : cell_at g p c = Some c -> forall k, cell_at g (k * p) c = Some c.
Proof.
  intros H k. induction k as [|k IH]; [reflexivity|].
  cbn [Nat.mul]. now rewrite cell_at_add, H.
Qed.

Lemma walk_that_ends_is_acyclic head n :
  cell_at g n head = None -> acyclic_from g head.
Proof.
  intros Hend i j c Hij Hi Hj.
  assert (cell_at g (j - i) c = Some c) as Hp.
  { replace j with (i + (j - i))%nat in Hj by lia.
    now rewrite cell_at_add, Hi in Hj. }
  assert (cell_at g (i + n * (j - i)) head = None) as Hnone.
  { replace (i + n * (j - i))%nat with (n + (i + n * (j - i) - n))%nat by nia.
    now rewrite cell_at_add, Hend. }
  rewrite cell_at_add, Hi, (cycle_goes_on _ _ Hp) in Hnone. discriminate.
Qed.
End ListWalk.

(** A translation that returns has walked its [sh:in] list to the end. *)
Lemma translated_in_list_ends fuel ps self path head rest r self' :
  truthy_value (graph self) ps (sh "path") = Some path ->
  objects (graph self) ps (sh "in") = head :: rest ->
  _convert_property_shape fuel ps self = Done (r, self') ->
  cell_at (graph self) fuel head = None.
Proof.
  intros Hp Hin H.
  unfold _convert_property_shape, bind at 1, get_self at 1 in H. rewrite Hp in H.
  unfold bind at 1 in H.
  destruct (constrained_schema fuel ps (_get_property_name self path) self)
    as [[[d req] s1]| |] eqn:Hc; try discriminate.
  clear H. unfold constrained_schema, bind at 1, get_self at 1 in Hc.
  unfold bind at 1 in Hc.
  destruct (type_stage fuel ps (_get_property_name self path) (describe self ps) self)
    as [[d0 s0]| |]; try discriminate.
  unfold bind at 1 in Hc.
  destruct (or_value_error (cardinality self ps (ref_rewrite d0)) s0)
    as [[[d1 req1] s2]| |]; try discriminate.
  unfold bind at 1, lift at 1 in Hc.
  destruct (in_stage fuel self ps d1) as [d2| |] eqn:Ei; try discriminate.
  unfold in_stage in Ei. rewrite Hin in Ei.
  destruct (_extract_list_values fuel self head) as [vs| |] eqn:Ev; try discriminate.
  now apply list_values_loop_ended in Ev.
Qed.

(** C3 (as amended).  The list walks have no cycle or length guard.  They
    return (or, for a [Decimal] that [float] rejects, raise) on every graph
    in which the [rdf:rest] chain from the list head never comes back to a
    cell it has been at, within one loop test more than the graph has
    triples; and a walk returns on such graphs only.  So the translation
    of a property shape with a path returns only when the chain of its
    first [sh:in] list never comes back to a cell: on a cyclic [sh:in]
    list it raises before the list is read, or does not return. *)
Theorem acyclic_list_walk_terminates (self : Converter) (list_node : node) :
  (acyclic_from (graph self) list_node ->
   exists fuel,
     (fuel <= S (length (triples (graph self))))%nat
     /\ (exists nodes, _extract_list_nodes fuel self list_node = Done nodes)
     /\ _extract_list_values fuel self list_node <> OutOfFuel)
  /\ ((exists fuel nodes, _extract_list_nodes fuel self list_node = Done nodes) ->
      acyclic_from (graph self) list_node)
  /\ ((exists fuel values, _extract_list_values fuel self list_node = Done values) ->
      acyclic_from (graph self) list_node)
  /\ ((exists fuel prop_shape path rest r self',
         truthy_value (graph self) prop_shape (sh "path") = Some path
         /\ objects (graph self) prop_shape (sh "in") = list_node :: rest
         /\ _convert_property_shape fuel prop_shape self = Done (r, self')) ->
      acyclic_from (graph self) list_node).
Proof.
  split; [|split; [|split]].
  - intros Hac. destruct (acyclic_walk_ends _ _ Hac) as [n [Hn Hend]].
    exists n. split; [exact Hn|]. split.
    + now apply list_nodes_loop_ends.
    + now apply list_values_loop_ends.
  - intros [fuel [nodes H]].
    apply (walk_that_ends_is_acyclic _ _ fuel), (list_nodes_loop_ended _ _ _ _ _ H).
  - intros [fuel [values H]].
    apply (walk_that_ends_is_acyclic _ _ fuel), (list_values_loop_ended _ _ _ _ _ H).
  - intros [fuel [ps [path [rest [r [self' [Hp [Hin H]]]]]]]].
    apply (walk_that_ends_is_acyclic _ _ fuel).
    exact (translated_in_list_ends _ _ _ _ _ _ _ _ Hp Hin H).
Qed.

Lemma cyclic_nodes_loop fuel : forall nodes,
  list_nodes_loop fuel cyclic_list_graph (BNode "c") nodes = OutOfFuel.
Proof.
  induction fuel as [|fuel IH]; intros nodes; [reflexivity|].
  change (list_nodes_loop (S fuel) cyclic_list_graph (BNode "c") nodes)
    with (list_nodes_loop fuel cyclic_list_graph (BNode "c")
            (nodes ++ [URIRef "http://example.org/A"])).
  apply IH.
Qed.

Lemma cyclic_values_loop fuel : forall values,
  list_values_loop fuel cyclic_list_graph (BNode "c") values = OutOfFuel.
Proof.
  induction fuel as [|fuel IH]; intros values; [reflexivity|].
  change (list_values_loop (S fuel) cyclic_list_graph (BNode "c") values)
    with (list_values_loop fuel cyclic_list_graph (BNode "c")
            (values ++ [VStr "http://example.org/A"])).
  apply IH.
Qed.

Lemma cyclic_property_shape fuel :
  _convert_property_shape fuel (BNode "p") (converter_of cyclic_list_graph "curie")
  = OutOfFuel.
Proof.
  set (self := converter_of cyclic_list_graph "curie").
  unfold _convert_property_shape, bind, get_self.
  change (truthy_value (graph self) (BNode "p") (sh "path")) with (Some (ex "status")).
  cbv iota. unfold constrained_schema, bind, get_self.
  change (type_stage fuel (BNode "p") (_get_property_name self (ex "status"))
            (describe self (BNode "p")) self)
    with (Done ([("$comment", VStr "No explicit sh:datatype or sh:class found")], self)).
  cbv iota beta.
  change (cardinality self (BNode "p")
            (ref_rewrite [("$comment", VStr "No explicit sh:datatype or sh:class found")]))
    with (Some ([("$comment", VStr "No explicit sh:datatype or sh:class found")], false)).
  unfold or_value_error, ret. cbv iota beta.
  unfold in_stage.
  change (objects (graph self) (BNode "p") (sh "in")) with [BNode "c"].
  cbv iota. unfold _extract_list_values.
  change (graph self) with cyclic_list_graph. rewrite cyclic_values_loop.
  reflexivity.
Qed.

(** C3, counterexample: on a list whose [rdf:rest] points back to its own
    cell, no amount of fuel lets either walk return, nor the translation
    of a property whose [sh:in] is that list. *)
Lemma cyclic_list_never_returns :
  ~ (exists fuel,
       _extract_list_nodes fuel (converter_of cyclic_list_graph "curie") (BNode "c")
       <> OutOfFuel)
  /\ ~ (exists fuel,
          _extract_list_values fuel (converter_of cyclic_list_graph "curie") (BNode "c")
          <> OutOfFuel)
  /\ ~ (exists fuel,
          _convert_property_shape fuel (BNode "p") (converter_of cyclic_list_graph "curie")
          <> OutOfFuel).
Proof.
  split; [|split]; intros [fuel H]; apply H.
  - apply cyclic_nodes_loop.
  - apply cyclic_values_loop.
  - apply cyclic_property_shape.
Qed.

Lemma two_cell_list_acyclic : acyclic_from two_cell_list_graph (BNode "l1").
Proof.
  intros i j c Hij Hi.
  destruct j as [|[|[|j]]]; [lia| | |discriminate];
    destruct i as [|[|[|i]]]; try lia; try discriminate Hi;
    injection Hi as <-; discriminate.
Defined.

Lemma acyclic_list_walk_terminates_witness :
  exists fuel,
    (fuel <= 5)%nat
    /\ (exists nodes,
          _extract_list_nodes fuel (converter_of two_cell_list_graph "curie") (BNode "l1")
          = Done nodes)
    /\ _extract_list_values fuel (converter_of two_cell_list_graph "curie") (BNode "l1")
       <> OutOfFuel.
Proof.
  exact (proj1 (acyclic_list_walk_terminates (converter_of two_cell_list_graph "curie")
                  (BNode "l1"))
               two_cell_list_acyclic).
Defined.

(** ** Names *)

Lemma append_colon_inj s1 : forall s2 t1 t2,
  PyStr.contains ":" s1 = false -> PyStr.contains ":" s2 = false ->
  s1 ++ ":" ++ t1 = s2 ++ ":" ++ t2 -> s1 = s2 /\ t1 = t2.
Proof.
  induction s1 as [|a s1 IH]; intros [|b s2] t1 t2 H1 H2 E; simpl in *.
  - injection E as ->. now split.
  - injection E as <- _. apply orb_false_iff in H2 as [H2 _].
    now rewrite Ascii.eqb_refl in H2.
  - injection E as -> _. apply orb_false_iff in H1 as [H1 _].
    now rewrite Ascii.eqb_refl in H1.
  - injection E as -> E. apply orb_false_iff in H1 as [_ H1].
    apply orb_false_iff in H2 as [_ H2].
    destruct (IH _ _ _ H1 H2 E) as [-> ->]. now split.
Qed.

Lemma unique_key_value {A B} (l : list (A * B)) k v v' :
  NoDup (map fst l) -> In (k, v) l -> In (k, v') l -> v = v'.
Proof.
  induction l as [|[k0 v0] l IH]; simpl; intros Hnd H1 H2; [contradiction|].
  inversion Hnd as [|x xs Hnot Hnd']; subst.
  destruct H1 as [H1|H1]; destruct H2 as [H2|H2].
  - congruence.
  - injection H1 as -> ->. exfalso. apply Hnot.
    change k with (fst (k, v')). now apply in_map.
  - injection H2 as -> ->. exfalso. apply Hnot.
    change k with (fst (k, v)). now apply in_map.
  - now apply IH.
Qed.

Lemma curie_term self path b :
  String.eqb (naming self) "local" = false ->
  String.eqb (naming self) "context" = false ->
  find (matching_namespace path) (namespaces (graph self)) = Some b ->
  _get_property_name self path = fst b ++ ":" ++ _get_local_name path.
Proof.
  intros Hl Hc Hf. unfold _get_property_name. rewrite Hl, Hc, Hf. now destruct b.
Qed.

(** C2 (as amended).  Terms are not disambiguated.  Under the [curie]
    strategy two IRIs get distinct terms when each is resolved by a
    declared namespace and is exactly that namespace followed by its local
    name, the prefixes being pairwise distinct and free of colons. *)
Theorem curie_terms_distinct (self : Converter) (p1 p2 : node) (b1 b2 : string * string) :
  naming self = "curie" ->
  NoDup (map fst (namespaces (graph self))) ->
  colon_free_prefixes self = true ->
  resolved_by self p1 b1 ->
  resolved_by self p2 b2 ->
  str p1 <> str p2 ->
  _get_property_name self p1 <> _get_property_name self p2.
Proof.
  intros Hn Hnd Hcf [Hf1 Hs1] [Hf2 Hs2] Hne Heq.
  rewrite (curie_term self p1 b1), (curie_term self p2 b2) in Heq;
    try assumption; try (rewrite Hn; reflexivity).
  apply find_some in Hf1 as [Hin1 _]. apply find_some in Hf2 as [Hin2 _].
  unfold colon_free_prefixes in Hcf. rewrite forallb_forall in Hcf.
  apply append_colon_inj in Heq as [Hp Hl].
  - apply Hne. rewrite Hs1, Hs2, Hl. f_equal.
    destruct b1 as [x n1], b2 as [y n2]. simpl in *. subst y.
    exact (unique_key_value _ _ _ _ Hnd Hin1 Hin2).
  - specialize (Hcf _ Hin1). now apply negb_true_iff in Hcf.
  - specialize (Hcf _ Hin2). now apply negb_true_iff in Hcf.
Qed.



(** ** More fuel changes nothing *)




















(** ** The names and the runs on the scenarios *)

Lemma curie_terms_distinct_witness :
  _get_property_name (converter_of code_graph "curie") one_code
  <> _get_property_name (converter_of code_graph "curie") two_code.
Proof.
  apply (curie_terms_distinct (converter_of code_graph "curie") one_code two_code
           ("ex1", "http://example.org/one#") ("ex2", "http://example.org/two#")).
  - reflexivity.
  - repeat constructor; simpl; intuition discriminate.
  - reflexivity.
  - split; reflexivity.
  - split; reflexivity.
  - discriminate.
Defined.

(** C2, counterexample: under [local] naming the two [code] paths of the
    scenario both get the term [code], and in the definition of the shape
    the second property takes the place of the first; the same two IRIs
    collide under [context] naming when the context maps neither; and two
    IRIs below one declared namespace collide under [curie] naming. *)
Lemma same_local_name_same_term :
  one_code <> two_code
  /\ _get_property_name (converter_of code_graph "local") one_code = "code"
  /\ _get_property_name (converter_of code_graph "local") two_code = "code"
  /\ definitions_after (_convert_node_shape 1 (ex "S") (converter_of code_graph "local"))
     = Some [("S", VDict [("type", VStr "object");
                          ("$comment", VStr "Generated from SHACL shape http://example.org/S");
                          ("title", VStr "S");
                          ("properties",
                           VDict [("code", VDict [("type", VStr "integer")])])])]
  /\ warnings_after (_convert_node_shape 1 (ex "S") (converter_of code_graph "local"))
     = Some []
  /\ _get_property_name (converter_of code_graph "context") one_code = "code"
  /\ _get_property_name (converter_of code_graph "context") two_code = "code"
  /\ _get_property_name (converter_of (mkGraph [] [("ex", "http://example.org/")]) "curie")
       one_code = "ex:code"
  /\ _get_property_name (converter_of (mkGraph [] [("ex", "http://example.org/")]) "curie")
       two_code = "ex:code".
Proof.
  split; [discriminate|]. repeat split; reflexivity.
Qed.

(** ** Two graphs with the same lookups *)





Section SameLookups.
Variables g1 g2 : Graph.
Hypothesis same_objects : forall s p, objects g2 s p = objects g1 s p.
Hypothesis same_shapes :
  subjects g2 RDF_type (sh "NodeShape") = subjects g1 RDF_type (sh "NodeShape").
Hypothesis same_namespaces : namespaces g2 = namespaces g1.












(** *** What is read of the graph *)

Lemma same_graph_value s p : graph_value g2 s p = graph_value g1 s p.
Proof. unfold graph_value. now rewrite same_objects. Qed.

Lemma same_truthy_value s p : truthy_value g2 s p = truthy_value g1 s p.
Proof. unfold truthy_value. now rewrite same_graph_value. Qed.

Lemma same_list_nodes fuel : forall current nodes,
  list_nodes_loop fuel g2 current nodes = list_nodes_loop fuel g1 current nodes.
Proof.
  induction fuel as [|fuel IH]; intros current nodes; [reflexivity|].
  cbn [list_nodes_loop]. rewrite !same_graph_value.
  destruct (node_eqb current RDF_nil); [reflexivity|].
  destruct (graph_value g1 current RDF_rest) as [r|]; [|reflexivity].
  destruct (truthy r); [apply IH|reflexivity].
Qed.

Lemma same_list_values fuel : forall current values,
  list_values_loop fuel g2 current values = list_values_loop fuel g1 current values.
Proof.
  induction fuel as [|fuel IH]; intros current values; [reflexivity|].
  cbn [list_values_loop]. rewrite !same_graph_value.
  destruct (node_eqb current RDF_nil); [reflexivity|].
  destruct (match graph_value g1 current RDF_first with
            | Some first => match list_value_of first with
                            | Some vs => Some (values ++ vs)%list
                            | None => None
                            end
            | None => Some values
            end); [|reflexivity].
  destruct (graph_value g1 current RDF_rest) as [r|]; [|reflexivity].
  destruct (truthy r); [apply IH|reflexivity].
Qed.

Section OneConverter.
Variable self : Converter.
Hypothesis on_g1 : graph self = g1.

Lemma same_literal_value s p :
  _get_literal_value (with_graph self g2) s p = _get_literal_value self s p.
Proof.
  unfold _get_literal_value. cbn [with_graph graph]. now rewrite on_g1, same_graph_value.
Qed.

Lemma same_property_name path :
  _get_property_name (with_graph self g2) path = _get_property_name self path.
Proof.
  unfold _get_property_name. cbn [with_graph graph naming iri_to_term].
  now rewrite on_g1, same_namespaces.
Qed.

Lemma same_extract_nodes fuel l :
  _extract_list_nodes fuel (with_graph self g2) l = _extract_list_nodes fuel self l.
Proof. unfold _extract_list_nodes. cbn [with_graph graph]. rewrite on_g1. apply same_list_nodes. Qed.

Lemma same_extract_values fuel l :
  _extract_list_values fuel (with_graph self g2) l = _extract_list_values fuel self l.
Proof.
  unfold _extract_list_values. cbn [with_graph graph]. rewrite on_g1. apply same_list_values.
Qed.

Lemma same_inline_constraint c :
  _convert_inline_constraint_to_schema (with_graph self g2) c
  = _convert_inline_constraint_to_schema self c.
Proof.
  unfold _convert_inline_constraint_to_schema, shape_of_class.
  cbn [with_graph graph class_to_shape_map]. now rewrite on_g1, !same_truthy_value.
Qed.

Lemma same_describe ps : describe (with_graph self g2) ps = describe self ps.
Proof. unfold describe. now rewrite !same_literal_value. Qed.

Lemma same_has_value hv d :
  has_value_schema (with_graph self g2) hv d = has_value_schema self hv d.
Proof. unfold has_value_schema. now rewrite same_property_name. Qed.

Lemma same_cardinality ps d : cardinality (with_graph self g2) ps d = cardinality self ps d.
Proof. unfold cardinality. now rewrite !same_literal_value. Qed.

Lemma same_in_stage fuel ps d :
  in_stage fuel (with_graph self g2) ps d = in_stage fuel self ps d.
Proof.
  unfold in_stage. cbn [with_graph graph]. rewrite on_g1, same_objects.
  destruct (objects g1 ps (sh "in")); [reflexivity|]. now rewrite same_extract_values.
Qed.

Lemma same_bounds_stage ps d :
  bounds_stage (with_graph self g2) ps d = bounds_stage self ps d.
Proof.
  unfold bounds_stage.
  assert (forall t, bounds_target (with_graph self g2) ps t = bounds_target self ps t) as E.
  { intros t. unfold bounds_target, bounds_on. now rewrite !same_literal_value. }
  unfold on_target. destruct (wrapped d); [|apply E].
  destruct (dict_get "items" d) as [[| | | | | | |items]|]; try reflexivity. now rewrite E.
Qed.

Lemma same_shape_header shape : shape_header (with_graph self g2) shape = shape_header self shape.
Proof. unfold shape_header. now rewrite !same_literal_value. Qed.

Lemma same_shape_of_class c : shape_of_class (with_graph self g2) c = shape_of_class self c.
Proof. reflexivity. Qed.
End OneConverter.

(** *** The methods *)


Ltac on_g1 H :=
  cbn [with_graph graph naming iri_to_term definitions warnings class_to_shape_map];
  rewrite ?H, ?same_truthy_value, ?same_graph_value, ?same_objects,
    ?(same_literal_value _ H), ?(same_property_name _ H), ?(same_extract_nodes _ H),
    ?(same_extract_values _ H), ?(same_inline_constraint _ H), ?(same_describe _ H),
    ?(same_has_value _ H), ?(same_cardinality _ H), ?(same_in_stage _ H),
    ?(same_bounds_stage _ H), ?(same_shape_header _ H), ?same_shape_of_class.













End SameLookups.



(** The reversed party graph gives the document of the party graph, and
    is another list of triples. *)
Example party_graph_reversed_document :
  triples party_graph_reversed <> triples party_graph
  /\ run 1 party_graph_reversed "local" None = Done party_document.
Proof. split; [discriminate|reflexivity]. Qed.

(** Below two declared namespaces an IRI is named by the first of them in
    the order of the bindings, as the specification has it: the same two
    bindings in the two orders give [http://example.org/vocab/name] two
    terms. *)
Lemma binding_order_changes_term :
  Permutation bindings_ex_first bindings_exv_first
  /\ _get_property_name (converter_of (mkGraph [] bindings_ex_first) "curie") vocab_name
     = "ex:name"
  /\ _get_property_name (converter_of (mkGraph [] bindings_exv_first) "curie") vocab_name
     = "exv:name".
Proof.
  split; [apply perm_swap|]. split; reflexivity.
Qed.

(** ** What each stage of the property translation changes *)

Lemma bind_done {A B} (c : M A) (k : A -> M B) self r :
  bind c k self = Done r ->
  exists a self1, c self = Done (a, self1) /\ k a self1 = Done r.
Proof.
  unfold bind. destruct (c self) as [[a s]| |]; try discriminate. eauto.
Qed.

Lemma lift_done {A} (o : outcome A) self r :
  lift o self = Done r -> exists a, o = Done a /\ r = (a, self).
Proof. unfold lift. destruct o; try discriminate. intros [= <-]. eauto. Qed.

Lemma get_is_str_set_other k k' v d s :
  k <> k' -> get_is_str k (dict_set k' v d) s = get_is_str k d s.
Proof. intros N. unfold get_is_str. now rewrite dict_get_set_other. Qed.

Lemma with_warnings_same self : with_warnings self (warnings self) = self.
Proof. now destruct self. Qed.

(** *** The target *)

Section OnTarget.
Variable f : pydict -> outcome pydict.
Variable ks : list string.
Hypothesis f_keeps :
  forall t t', f t = Done t' -> forall k, ~ In k ks -> dict_get k t' = dict_get k t.
Hypothesis type_kept : ~ In "type" ks.
Hypothesis items_kept : ~ In "items" ks.

Lemma wrapped_kept t t' : f t = Done t' -> wrapped t' = wrapped t.
Proof.
  intros H. unfold wrapped, get_is_str, dict_has.
  now rewrite (f_keeps _ _ H "type" type_kept), (f_keeps _ _ H "items" items_kept).
Qed.

Lemma on_target_effect d d' :
  on_target f d = Done d' ->
  wrapped d' = wrapped d
  /\ f (target_of d) = Done (target_of d')
  /\ (forall k, k <> "items" -> ~ In k ks -> dict_get k d' = dict_get k d)
  /\ (wrapped d = true -> forall k, k <> "items" -> dict_get k d' = dict_get k d).
Proof.
  unfold on_target, target_of. destruct (wrapped d) eqn:W.
  - destruct (dict_get "items" d) as [[| | | | | | |items]|] eqn:I; try discriminate.
    destruct (f items) as [items'| |] eqn:F; try discriminate.
    intros [= <-].
    assert (wrapped (dict_set "items" (VDict items') d) = true) as W'.
    { unfold wrapped in *. rewrite get_is_str_set_other by discriminate.
      rewrite dict_has_set_same. apply andb_true_iff in W as [-> _]. reflexivity. }
    rewrite W', dict_get_set_same.
    repeat split; try assumption.
    + intros k Hk _. now apply dict_get_set_other.
    + intros _ k Hk. now apply dict_get_set_other.
  - intros F. rewrite (wrapped_kept _ _ F), W.
    repeat split; try assumption.
    + intros k _ Hk. now apply (f_keeps _ _ F).
    + discriminate.
Qed.
End OnTarget.

(** *** Enumeration and bounds *)

Lemma place_enum_keeps vs t t' :
  place_enum vs t = Done t' -> forall k, ~ In k ["enum"] -> dict_get k t' = dict_get k t.
Proof.
  unfold place_enum. intros H k Hk.
  destruct (get_is_str "type" t "boolean" && is_true_false_set vs)%bool;
    injection H as <-; [reflexivity|].
  apply dict_get_set_other. intros ->. apply Hk. now left.
Qed.

Lemma set_converted_keeps key o conv t t' k :
  set_converted key o conv t = Some t' -> k <> key -> dict_get k t' = dict_get k t.
Proof.
  unfold set_converted. destruct o as [s|]; [|now intros [= <-]].
  destruct (conv s); [|discriminate]. intros [= <-] N. now apply dict_get_set_other.
Qed.

Lemma and_then_some {A B} (o : option A) (f : A -> option B) b :
  and_then o f = Some b -> exists a, o = Some a /\ f a = Some b.
Proof. destruct o; simpl; [eauto|discriminate]. Qed.

Lemma set_then_keeps key o conv (f : pydict -> option pydict) t t' k :
  and_then (set_converted key o conv t) f = Some t' ->
  k <> key ->
  (forall t1, f t1 = Some t' -> dict_get k t' = dict_get k t1) ->
  dict_get k t' = dict_get k t.
Proof.
  intros H N Hf. apply and_then_some in H as [t1 [H1 H2]].
  rewrite (Hf _ H2). now apply (set_converted_keeps _ _ _ _ _ _ H1).
Qed.

Lemma bounds_on_keeps self ps t t' :
  bounds_on self ps t = Some t' ->
  forall k, ~ In k bound_keys -> dict_get k t' = dict_get k t.
Proof.
  unfold bounds_on. intros H k Hk.
  assert (forall key, In key bound_keys -> k <> key) as N by (intros key Hin ->; auto).
  revert t H.
  repeat (let u := fresh "u" in let Hu := fresh "Hu" in
          intros u Hu; apply (set_then_keeps _ _ _ _ _ _ _ Hu); [apply N; simpl; tauto|]).
  intros w H. destruct (truthy_str _); injection H as <-; [|reflexivity].
  apply dict_get_set_other. apply N. simpl; tauto.
Qed.

Lemma bounds_target_keeps self ps t t' :
  bounds_target self ps t = Done t' ->
  forall k, ~ In k bound_keys -> dict_get k t' = dict_get k t.
Proof.
  unfold bounds_target. destruct (bounds_on self ps t) eqn:E; [|discriminate].
  intros [= <-]. now apply (bounds_on_keeps _ _ _ _ E).
Qed.

Lemma in_stage_cases fuel self ps d d' :
  in_stage fuel self ps d = Done d' ->
  d' = d
  \/ exists v rest vs,
       objects (graph self) ps (sh "in") = v :: rest
       /\ _extract_list_values fuel self v = Done vs
       /\ nonempty vs = true
       /\ on_target (place_enum vs) d = Done d'.
Proof.
  unfold in_stage.
  destruct (objects (graph self) ps (sh "in")) as [|v rest]; [intros [= <-]; now left|].
  destruct (_extract_list_values fuel self v) as [vs| |] eqn:E; try discriminate.
  destruct (nonempty vs) eqn:N; [|intros [= <-]; now left].
  intros H. right. exists v, rest, vs. auto.
Qed.

Lemma not_in_enum k : k <> "enum" -> ~ In k ["enum"].
Proof. intros N [H|[]]. congruence. Qed.

(** The enumeration stage leaves the wrapping and every other key alone. *)
Lemma in_stage_effect fuel self ps d d' :
  in_stage fuel self ps d = Done d' ->
  wrapped d' = wrapped d
  /\ (forall k, k <> "enum" -> dict_get k (target_of d') = dict_get k (target_of d))
  /\ (forall k, k <> "items" -> k <> "enum" -> dict_get k d' = dict_get k d).
Proof.
  intros H. apply in_stage_cases in H as [->|[v [rest [vs [_ [_ [_ H]]]]]]]; [auto|].
  apply (on_target_effect _ ["enum"] (place_enum_keeps vs)) in H as [W [F [T _]]];
    try (apply not_in_enum; discriminate).
  repeat split; [assumption| |].
  - intros k Hk. apply (place_enum_keeps _ _ _ F). now apply not_in_enum.
  - intros k Hi Hk. apply T; [assumption|now apply not_in_enum].
Qed.

Lemma not_bound_key k : existsb (String.eqb k) bound_keys = false -> ~ In k bound_keys.
Proof.
  intros H Hin. assert (existsb (String.eqb k) bound_keys = true) as C.
  { apply existsb_exists. exists k. split; [assumption|apply String.eqb_refl]. }
  congruence.
Qed.

(** The bounds stage leaves the wrapping and every key but the bounds
    alone. *)
Lemma bounds_stage_effect self ps d d' :
  bounds_stage self ps d = Done d' ->
  wrapped d' = wrapped d
  /\ (forall k, ~ In k bound_keys -> dict_get k (target_of d') = dict_get k (target_of d))
  /\ (forall k, k <> "items" -> ~ In k bound_keys -> dict_get k d' = dict_get k d).
Proof.
  unfold bounds_stage. intros H.
  apply (on_target_effect _ bound_keys (bounds_target_keeps self ps)) in H as [W [F [T _]]];
    try (apply not_bound_key; reflexivity).
  repeat split; [assumption| |assumption].
  intros k Hk. now apply (bounds_target_keeps _ _ _ _ F).
Qed.

(** *** Constructs without a JSON Schema counterpart *)

Lemma unconvertible_stage_eq ps name d self :
  unconvertible_stage ps name d self =
    let self' :=
      with_warnings self (warnings self ++ unconvertible_warnings (graph self) ps name) in
    if nonempty (objects (graph self) ps (sh "sparql")) then
      match sparql_comment d with
      | Some c => Done (dict_set "$comment" (VStr c) d, self')
      | None => Raised TypeError
      end
    else Done (d, self').
Proof.
  unfold unconvertible_stage, unconvertible_warnings, xone_warning, and_warning,
    sparql_warning, bind, get_self.
  destruct self as [g nm tbl defs ws cmap]. unfold with_warnings. simpl.
  destruct (nonempty (objects g ps (sh "xone")));
    destruct (nonempty (objects g ps (sh "and")));
    destruct (nonempty (objects g ps (sh "sparql")));
    simpl; try destruct (sparql_comment d);
    unfold ret, raise; rewrite <- ?app_assoc, ?app_nil_r; reflexivity.
Qed.

Lemma unconvertible_stage_effect ps name d self d' self' :
  unconvertible_stage ps name d self = Done (d', self') ->
  self' = with_warnings self (warnings self ++ unconvertible_warnings (graph self) ps name)
  /\ wrapped d' = wrapped d
  /\ (forall k, k <> "$comment" -> dict_get k d' = dict_get k d)
  /\ (forall k, k <> "$comment" -> dict_get k (target_of d') = dict_get k (target_of d)).
Proof.
  rewrite unconvertible_stage_eq. cbv zeta.
  destruct (nonempty (objects (graph self) ps (sh "sparql"))).
  - destruct (sparql_comment d) as [c|]; [|discriminate]. intros [= <- <-].
    assert (forall k, k <> "$comment" ->
                      dict_get k (dict_set "$comment" (VStr c) d) = dict_get k d) as K
        by (intros k Hk; now apply dict_get_set_other).
    assert (wrapped (dict_set "$comment" (VStr c) d) = wrapped d) as W.
    { unfold wrapped, get_is_str, dict_has. now rewrite !K by discriminate. }
    repeat split; try assumption.
    intros k Hk. unfold target_of. rewrite W, (K "items") by discriminate.
    destruct (wrapped d); [reflexivity|now apply K].
  - intros [= <- <-]. auto.
Qed.

(** *** Type, reference and cardinality *)

Lemma not_type_key k key : ~ In k type_keys -> In key type_keys -> k <> key.
Proof. intros H Hin ->. auto. Qed.

Lemma comment_ok_set k v d :
  comment_ok d -> (k = "$comment" -> exists c, v = VStr c) -> comment_ok (dict_set k v d).
Proof.
  intros H Hv. unfold comment_ok in *.
  destruct (string_dec k "$comment") as [->|N].
  - rewrite dict_get_set_same. destruct (Hv eq_refl) as [c ->]. exact I.
  - now rewrite dict_get_set_other by congruence.
Qed.

Lemma datatype_schema_keeps d dt k :
  ~ In k type_keys -> dict_get k (datatype_schema d dt) = dict_get k d.
Proof.
  intros Hk. unfold datatype_schema.
  assert (k <> "type") as N1 by (apply (not_type_key _ _ Hk); simpl; tauto).
  assert (k <> "format") as N2 by (apply (not_type_key _ _ Hk); simpl; tauto).
  destruct (node_assoc dt xsd_to_json_format) as [fmt|];
    [destruct (PyStr.truthy fmt)|]; now rewrite ?dict_get_set_other by assumption.
Qed.

Lemma datatype_schema_comment d dt : comment_ok d -> comment_ok (datatype_schema d dt).
Proof.
  intros H. unfold datatype_schema.
  destruct (node_assoc dt xsd_to_json_format) as [fmt|];
    [destruct (PyStr.truthy fmt)|]; repeat (apply comment_ok_set; [|discriminate]); exact H.
Qed.

(** A node kind contributes one key: [anyOf], [type] or [$comment]. *)
Lemma nodekind_schema_single nk :
  exists k v, _nodekind_to_schema nk = [(k, v)]
              /\ In k type_keys /\ (k = "$comment" -> exists c, v = VStr c).
Proof.
  unfold _nodekind_to_schema.
  repeat match goal with |- context [if ?b then _ else _] => destruct b end;
    eexists; eexists; (split; [reflexivity|]); (split; [simpl; tauto|]);
    try discriminate; eauto.
Qed.

Lemma has_value_schema_effect self hv d d0 :
  has_value_schema self hv d = Some d0 ->
  (forall k, ~ In k type_keys -> dict_get k d0 = dict_get k d)
  /\ (comment_ok d -> comment_ok d0).
Proof.
  unfold has_value_schema. intros H.
  assert (forall c ty, (forall k, ~ In k type_keys ->
            dict_get k (dict_set "type" (VStr ty) (dict_set "const" c d)) = dict_get k d)
          /\ (comment_ok d ->
              comment_ok (dict_set "type" (VStr ty) (dict_set "const" c d)))) as K.
  { intros c ty. split.
    - intros k Hk. rewrite !dict_get_set_other; [reflexivity| |];
        apply (not_type_key _ _ Hk); simpl; tauto.
    - intros Hc. repeat (apply comment_ok_set; [|discriminate]). exact Hc. }
  destruct hv as [iri|id|l].
  - injection H as <-. apply K.
  - injection H as <-. auto.
  - destruct (literal_const l) as [[c ty]|]; [|discriminate]. injection H as <-. apply K.
Qed.

(** The type stage sets keys of [type_keys] only, records warnings only,
    and writes string comments only. *)
Lemma type_stage_effect fuel ps name d self d0 self1 :
  type_stage fuel ps name d self = Done (d0, self1) ->
  (exists ws, self1 = with_warnings self (warnings self ++ ws))
  /\ (forall k, ~ In k type_keys -> dict_get k d0 = dict_get k d)
  /\ (comment_ok d -> comment_ok d0).
Proof.
  assert (exists ws, self = with_warnings self (warnings self ++ ws)) as Same.
  { exists []. now rewrite app_nil_r, with_warnings_same. }
  assert (forall key v, In key type_keys -> (key = "$comment" -> exists c, v = VStr c) ->
            (forall k, ~ In k type_keys -> dict_get k (dict_set key v d) = dict_get k d)
            /\ (comment_ok d -> comment_ok (dict_set key v d))) as One.
  { intros key v Hin Hv. split.
    - intros k Hk. apply dict_get_set_other. now apply (not_type_key _ _ Hk).
    - intros Hc. now apply comment_ok_set. }
  unfold type_stage, bind, get_self.
  destruct (graph_value (graph self) ps (sh "hasValue")) as [hv|].
  { unfold or_value_error.
    destruct (has_value_schema self hv d) as [d0'|] eqn:E; [|discriminate].
    intros [= <- <-]. split; [exact Same|]. now apply (has_value_schema_effect _ _ _ _ E). }
  destruct (truthy_value (graph self) ps (sh "or")) as [ol|].
  { destruct (lift (_extract_list_nodes fuel self ol) self) as [[alts s]| |] eqn:E;
      try discriminate.
    apply lift_done in E as [a [_ [= -> ->]]].
    destruct (nonempty _).
    - intros [= <- <-]. split; [exact Same|]. apply One; [simpl; tauto|discriminate].
    - intros [= <- <-]. split; [eexists; reflexivity|].
      apply One; [simpl; tauto|eauto]. }
  destruct (truthy_value (graph self) ps (sh "datatype")) as [dt|].
  { intros [= <- <-]. split; [exact Same|]. split.
    - intros k Hk. now apply datatype_schema_keeps.
    - apply datatype_schema_comment. }
  destruct (truthy_value (graph self) ps (sh "nodeKind")) as [nk|].
  { intros [= <- <-]. split; [exact Same|].
    destruct (nodekind_schema_single nk) as [key [v [-> [Hin Hv]]]].
    unfold dict_update. simpl. now apply One. }
  destruct (truthy_value (graph self) ps (sh "node")) as [n|].
  { intros [= <- <-]. split; [exact Same|]. apply One; [simpl; tauto|discriminate]. }
  destruct (truthy_value (graph self) ps (sh "class")) as [c|].
  { destruct (shape_of_class self c).
    - intros [= <- <-]. split; [exact Same|]. apply One; [simpl; tauto|discriminate].
    - intros [= <- <-]. split; [eexists; reflexivity|].
      apply One; [simpl; tauto|]. intros _. unfold no_shape_comment. eauto. }
  intros [= <- <-]. split; [exact Same|]. apply One; [simpl; tauto|eauto].
Qed.

Lemma describe_keys self ps k : k <> "description" -> dict_get k (describe self ps) = None.
Proof.
  intros N. unfold describe.
  destruct (truthy_str _); [|destruct (truthy_str _)]; cbn [dict_get]; try reflexivity;
    (destruct (String.eqb_spec "description" k); [congruence|reflexivity]).
Qed.

Lemma ref_rewrite_cases d :
  ref_rewrite d = d
  \/ exists ref desc,
       dict_get "$ref" d = Some ref
       /\ ref_rewrite d = [("description", desc); ("allOf", VList [VDict [("$ref", ref)]])].
Proof.
  unfold ref_rewrite.
  destruct (dict_get "$ref" d) as [ref|]; [|now left].
  destruct (dict_get "description" d) as [desc|]; [|now left].
  right. eauto.
Qed.

(** The array in one piece. *)
Lemma wrap_array_eq d mi ma :
  wrap_array d mi ma =
    ([("type", VStr "array")]
     ++ (if (dict_has "type" d || dict_has "$ref" d)%bool
         then [("items", VDict (dict_without "description" d))] else [])
     ++ optional_entry "description" (dict_get "description" d)
     ++ optional_int "minItems" mi
     ++ optional_int "maxItems" ma)%list.
Proof.
  unfold wrap_array.
  destruct (dict_has "type" d || dict_has "$ref" d)%bool;
    destruct (dict_get "description" d); destruct mi; destruct ma; reflexivity.
Qed.

Lemma wrap_array_lookups d mi ma :
  dict_get "type" (wrap_array d mi ma) = Some (VStr "array")
  /\ dict_get "enum" (wrap_array d mi ma) = None
  /\ dict_get "$comment" (wrap_array d mi ma) = None
  /\ dict_get "const" (wrap_array d mi ma) = None
  /\ dict_get "items" (wrap_array d mi ma) =
       (if (dict_has "type" d || dict_has "$ref" d)%bool
        then Some (VDict (dict_without "description" d)) else None).
Proof.
  rewrite wrap_array_eq.
  destruct (dict_has "type" d || dict_has "$ref" d)%bool;
    destruct (dict_get "description" d); destruct mi; destruct ma;
    repeat split; reflexivity.
Qed.

Lemma cardinality_cases self ps d d1 req :
  cardinality self ps d = Some (d1, req) ->
  d1 = d \/ exists mi ma, d1 = wrap_array d mi ma.
Proof.
  unfold cardinality.
  destruct (int_of (_get_literal_value self ps (sh "minCount"))) as [mi|]; [|discriminate].
  destruct (int_of (_get_literal_value self ps (sh "maxCount"))) as [ma|]; [|discriminate].
  destruct (gt_one ma).
  { intros [= <- _]. right. exists mi, ma. reflexivity. }
  destruct (gt_one mi); intros [= <- _].
  - right. exists mi, None. reflexivity.
  - now left.
Qed.

(** *** The whole translation, stage by stage *)

Lemma convert_property_shape_stages fuel ps self path r self' :
  truthy_value (graph self) ps (sh "path") = Some path ->
  _convert_property_shape fuel ps self = Done (r, self') ->
  let name := _get_property_name self path in
  exists d0 self1 d1 req d2 d3 d4,
    type_stage fuel ps name (describe self ps) self = Done (d0, self1)
    /\ cardinality self ps (ref_rewrite d0) = Some (d1, req)
    /\ in_stage fuel self ps d1 = Done d2
    /\ bounds_stage self ps d2 = Done d3
    /\ constrained_schema fuel ps name self = Done ((d3, req), self1)
    /\ unconvertible_stage ps name d3 self1 = Done (d4, self')
    /\ r = (Some name, d4, req).
Proof.
  intros Hp H name. unfold _convert_property_shape, bind at 1, get_self at 1 in H.
  rewrite Hp in H. fold name in H.
  apply bind_done in H as [[d3 req] [self1 [Hc H]]].
  apply bind_done in H as [d4 [self2 [Hu H]]].
  unfold ret in H. injection H as <- <-.
  pose proof Hc as Hc'.
  unfold constrained_schema, bind at 1, get_self at 1 in Hc.
  apply bind_done in Hc as [d0 [s1 [Ht Hc]]].
  apply bind_done in Hc as [[d1 req1] [s2 [Hcard Hc]]].
  unfold or_value_error in Hcard.
  destruct (cardinality self ps (ref_rewrite d0)) as [[d1' req1']|] eqn:Ecard;
    [|discriminate].
  unfold ret in Hcard. injection Hcard as E1 E2 E3. subst d1' req1' s2.
  apply bind_done in Hc as [d2 [s3 [Hin Hc]]].
  apply lift_done in Hin as [d2' [Hin E]]. injection E as E1 E2. subst d2' s3.
  apply bind_done in Hc as [d3' [s4 [Hb Hc]]].
  apply lift_done in Hb as [d3'' [Hb E]]. injection E as E1 E2. subst d3'' s4.
  unfold ret in Hc. injection Hc as E1 E2 E3. subst d3' req1 s1.
  exists d0, self1, d1, req, d2, d3, d4. repeat split; assumption.
Qed.

Lemma get_is_str_true k d s : get_is_str k d s = true -> dict_get k d = Some (VStr s).
Proof.
  unfold get_is_str. destruct (dict_get k d) as [[| | | |s'| | |]|]; try discriminate.
  intros H. apply String.eqb_eq in H. now subst.
Qed.

Lemma get_is_str_of k d s : dict_get k d = Some (VStr s) -> get_is_str k d s = true.
Proof. unfold get_is_str. intros ->. apply String.eqb_refl. Qed.

(** Where the keys of the target are in the schema itself: at the top when
    the schema is not an array with items, else in the items. *)
Lemma target_lookup d k v :
  dict_get k (target_of d) = Some v ->
  (wrapped d = false /\ dict_get k d = Some v)
  \/ (dict_get "type" d = Some (VStr "array")
      /\ exists items, dict_get "items" d = Some (VDict items) /\ dict_get k items = Some v).
Proof.
  unfold target_of. destruct (wrapped d) eqn:W; [|now left].
  intros H. right. unfold wrapped in W. apply andb_true_iff in W as [T _].
  split; [now apply get_is_str_true|].
  destruct (dict_get "items" d) as [[| | | | | | |items]|]; try discriminate. eauto.
Qed.

(** ** Stages that keep what is in the schema *)

(** After the cardinality stage nothing takes a key other than [enum],
    the bounds and [$comment] away from the target, nor changes whether
    the schema is an array with items. *)
Lemma later_stages_keep fuel self ps name d1 d2 d3 d4 self1 self' :
  in_stage fuel self ps d1 = Done d2 ->
  bounds_stage self ps d2 = Done d3 ->
  unconvertible_stage ps name d3 self1 = Done (d4, self') ->
  wrapped d4 = wrapped d1
  /\ (forall k, k <> "enum" -> ~ In k bound_keys -> k <> "$comment" ->
                dict_get k (target_of d4) = dict_get k (target_of d1))
  /\ (forall k, k <> "items" -> k <> "enum" -> ~ In k bound_keys -> k <> "$comment" ->
                dict_get k d4 = dict_get k d1).
Proof.
  intros Hin Hb Hu.
  apply in_stage_effect in Hin as [W1 [T1 K1]].
  apply bounds_stage_effect in Hb as [W2 [T2 K2]].
  apply unconvertible_stage_effect in Hu as [_ [W3 [K3 T3]]].
  repeat split.
  - congruence.
  - intros k He Hb Hc. now rewrite T3, T2, T1.
  - intros k Hi He Hb Hc. now rewrite K3, K2, K1.
Qed.

Ltac not_bound := apply not_bound_key; reflexivity.

(** ** Property shapes that translate *)

Lemma constrained_schema_stages fuel ps name self d3 req self1 :
  constrained_schema fuel ps name self = Done ((d3, req), self1) ->
  exists d0 d1 d2,
    type_stage fuel ps name (describe self ps) self = Done (d0, self1)
    /\ cardinality self ps (ref_rewrite d0) = Some (d1, req)
    /\ in_stage fuel self ps d1 = Done d2
    /\ bounds_stage self ps d2 = Done d3.
Proof.
  intros Hc. unfold constrained_schema, bind at 1, get_self at 1 in Hc.
  apply bind_done in Hc as [d0 [s1 [Ht Hc]]].
  apply bind_done in Hc as [[d1 req1] [s2 [Hcard Hc]]].
  unfold or_value_error in Hcard.
  destruct (cardinality self ps (ref_rewrite d0)) as [[d1' req1']|] eqn:Ecard;
    [|discriminate].
  unfold ret in Hcard. injection Hcard as E1 E2 E3. subst d1' req1' s2.
  apply bind_done in Hc as [d2 [s3 [Hin Hc]]].
  apply lift_done in Hin as [d2' [Hin E]]. injection E as E1 E2. subst d2' s3.
  apply bind_done in Hc as [d3' [s4 [Hb Hc]]].
  apply lift_done in Hb as [d3'' [Hb E]]. injection E as E1 E2. subst d3'' s4.
  unfold ret in Hc. injection Hc as E1 E2 E3. subst d3' req1 s1.
  exists d0, d1, d2. repeat split; assumption.
Qed.

Lemma comment_ok_eq d d' :
  dict_get "$comment" d' = dict_get "$comment" d -> comment_ok d -> comment_ok d'.
Proof. unfold comment_ok. now intros ->. Qed.

Lemma comment_ok_none d : dict_get "$comment" d = None -> comment_ok d.
Proof. unfold comment_ok. now intros ->. Qed.

(** The [$comment] the value constraints leave is a string. *)
Lemma constrained_schema_comment fuel ps name self d req self1 :
  constrained_schema fuel ps name self = Done ((d, req), self1) -> comment_ok d.
Proof.
  intros H. apply constrained_schema_stages in H as [d0 [d1 [d2 [Ht [Hc [Hin Hb]]]]]].
  apply type_stage_effect in Ht as [_ [_ C0]].
  assert (comment_ok d0) as H0.
  { apply C0. apply comment_ok_none. now apply describe_keys. }
  assert (comment_ok (ref_rewrite d0)) as Hr.
  { destruct (ref_rewrite_cases d0) as [->|[ref [desc [_ ->]]]]; [assumption|].
    now apply comment_ok_none. }
  assert (comment_ok d1) as H1.
  { apply cardinality_cases in Hc as [->|[mi [ma ->]]]; [assumption|].
    apply comment_ok_none. apply wrap_array_lookups. }
  apply in_stage_effect in Hin as [_ [_ K1]].
  apply bounds_stage_effect in Hb as [_ [_ K2]].
  apply (comment_ok_eq d1); [|assumption].
  rewrite K2, K1; (discriminate || not_bound || reflexivity).
Qed.

Lemma comment_ok_sparql d : comment_ok d -> exists c, sparql_comment d = Some c.
Proof.
  unfold comment_ok, sparql_comment.
  destruct (dict_get "$comment" d) as [[| | | |c| | |]|]; try contradiction; eauto.
Qed.

Lemma forallb_in {A} (f : A -> bool) (l : list A) (x : A) :
  forallb f l = true -> In x l -> f x = true.
Proof. intros H. now apply forallb_forall. Qed.

Lemma parses_some {A} (conv : string -> option A) s :
  parses conv (Some s) = true -> exists v, conv s = Some v.
Proof. unfold parses. destruct (conv s); [eauto|discriminate]. Qed.

(** A value read from the graph is one of its objects. *)
Lemma graph_value_converts g s p v :
  values_convert g = true -> graph_value g s p = Some v -> converts v = true.
Proof.
  intros H Hv. unfold values_convert in H. rewrite forallb_forall in H.
  apply graph_value_in in Hv. apply objects_incl in Hv.
  apply in_map_iff in Hv as [t [<- Ht]]. now apply H.
Qed.

Lemma converts_literal_const l :
  converts (Literal l) = true -> exists c ty, literal_const l = Some (c, ty).
Proof.
  unfold converts, list_value_of, literal_const.
  destruct (value l) as [[b|z|f|s|d|iso|o]|]; eauto.
  destruct (PyNum.float_of_decimal d); [eauto|discriminate].
Qed.

Lemma list_ends_some g fuel h : list_ends g fuel (Some h) = true -> cell_at g fuel h = None.
Proof. unfold list_ends. now destruct (cell_at g fuel h). Qed.

(** The walk over the values returns when the list ends and its members
    convert. *)
Lemma list_values_loop_returns g n : forall current values,
  values_convert g = true ->
  cell_at g n current = None ->
  exists result, list_values_loop n g current values = Done result.
Proof.
  induction n as [|n IH]; intros current values Hv H; [discriminate|].
  simpl in *. unfold next_cell, truthy_value in H.
  destruct (node_eqb current RDF_nil); [eauto|].
  destruct (graph_value g current RDF_first) as [first|] eqn:Ef.
  - apply (graph_value_converts _ _ _ _ Hv) in Ef. unfold converts in Ef.
    destruct (list_value_of first) as [vs|]; [|discriminate].
    destruct (graph_value g current RDF_rest) as [r|]; [|eauto].
    destruct (truthy r); [|eauto]. now apply IH.
  - destruct (graph_value g current RDF_rest) as [r|]; [|eauto].
    destruct (truthy r); [|eauto]. now apply IH.
Qed.

Lemma on_target_returns (f : pydict -> outcome pydict) d :
  (forall t, exists t', f t = Done t') -> items_ok d ->
  exists d', on_target f d = Done d'.
Proof.
  intros Hf Hi. unfold on_target. destruct (wrapped d) eqn:W; [|apply Hf].
  destruct (Hi W) as [items ->]. destruct (Hf items) as [t' ->]. eauto.
Qed.

Lemma on_target_items (f : pydict -> outcome pydict) d d' :
  on_target f d = Done d' -> items_ok d -> wrapped d = wrapped d' -> items_ok d'.
Proof.
  unfold on_target. intros H Hi W W'. rewrite <- W in W'. rewrite W' in H.
  destruct (Hi W') as [items E]. rewrite E in H.
  destruct (f items) as [items'| |]; try discriminate. injection H as <-.
  exists items'. apply dict_get_set_same.
Qed.

(** The type stage returns when the constant converts and the [sh:or]
    list ends. *)
Lemma type_stage_returns fuel ps name d self :
  values_convert (graph self) = true ->
  (graph_value (graph self) ps (sh "hasValue") = None ->
   list_ends (graph self) fuel (truthy_value (graph self) ps (sh "or")) = true) ->
  exists d0 self1, type_stage fuel ps name d self = Done (d0, self1).
Proof.
  intros Hv Hor. unfold type_stage, bind, get_self.
  destruct (graph_value (graph self) ps (sh "hasValue")) as [hv|] eqn:Ehv.
  { unfold or_value_error, has_value_schema.
    destruct hv as [iri|id|l]; try (eexists; eexists; reflexivity).
    apply (graph_value_converts _ _ _ _ Hv) in Ehv.
    destruct (converts_literal_const _ Ehv) as [c [ty ->]]. eexists; eexists; reflexivity. }
  specialize (Hor eq_refl).
  destruct (truthy_value (graph self) ps (sh "or")) as [ol|].
  { apply list_ends_some in Hor.
    destruct (list_nodes_loop_ends _ _ ol [] Hor) as [alts E].
    unfold _extract_list_nodes, lift. rewrite E.
    destruct (nonempty _); eexists; eexists; reflexivity. }
  destruct (truthy_value (graph self) ps (sh "datatype")); [eexists; eexists; reflexivity|].
  destruct (truthy_value (graph self) ps (sh "nodeKind")); [eexists; eexists; reflexivity|].
  destruct (truthy_value (graph self) ps (sh "node")); [eexists; eexists; reflexivity|].
  destruct (truthy_value (graph self) ps (sh "class")) as [c|]; [|eexists; eexists; reflexivity].
  destruct (shape_of_class self c); eexists; eexists; reflexivity.
Qed.

Lemma numerals_parse_int self ps p :
  numerals_parse self ps = true -> In p int_predicates ->
  exists o, int_of (_get_literal_value self ps p) = Some o.
Proof.
  unfold numerals_parse. intros H Hin. apply andb_true_iff in H as [H _].
  apply (forallb_in _ _ _ H) in Hin. unfold int_of.
  destruct (_get_literal_value self ps p) as [s|]; [|eauto].
  apply parses_some in Hin as [n ->]. eauto.
Qed.

Lemma numerals_parse_as_int self ps p :
  numerals_parse self ps = true -> In p int_predicates ->
  forall key t, exists t', set_converted key (_get_literal_value self ps p) as_int t = Some t'.
Proof.
  unfold numerals_parse. intros H Hin key t. apply andb_true_iff in H as [H _].
  apply (forallb_in _ _ _ H) in Hin. unfold set_converted, as_int.
  destruct (_get_literal_value self ps p) as [s|]; [|eauto].
  apply parses_some in Hin as [n ->]. eauto.
Qed.

Lemma numerals_parse_as_float self ps p :
  numerals_parse self ps = true -> In p float_predicates ->
  forall key t, exists t', set_converted key (_get_literal_value self ps p) as_float t = Some t'.
Proof.
  unfold numerals_parse. intros H Hin key t. apply andb_true_iff in H as [_ H].
  apply (forallb_in _ _ _ H) in Hin. unfold set_converted, as_float.
  destruct (_get_literal_value self ps p) as [s|]; [|eauto].
  apply parses_some in Hin as [n ->]. eauto.
Qed.

Lemma cardinality_returns self ps d :
  numerals_parse self ps = true ->
  exists min_items max_items d1 req,
    int_of (_get_literal_value self ps (sh "minCount")) = Some min_items
    /\ int_of (_get_literal_value self ps (sh "maxCount")) = Some max_items
    /\ cardinality self ps d = Some (d1, req).
Proof.
  intros H.
  destruct (numerals_parse_int self ps (sh "minCount") H) as [mi Hmi]; [simpl; tauto|].
  destruct (numerals_parse_int self ps (sh "maxCount") H) as [ma Hma]; [simpl; tauto|].
  exists mi, ma. unfold cardinality. rewrite Hmi, Hma.
  destruct (gt_one ma); [eauto|]. destruct (gt_one mi); eauto.
Qed.

Lemma bounds_target_returns self ps :
  numerals_parse self ps = true ->
  forall t, exists t', bounds_target self ps t = Done t'.
Proof.
  intros H t. unfold bounds_target, bounds_on.
  destruct (numerals_parse_as_float self ps (sh "minInclusive") H ltac:(simpl; tauto)
              "minimum" t) as [t1 ->]. cbn [and_then].
  destruct (numerals_parse_as_float self ps (sh "maxInclusive") H ltac:(simpl; tauto)
              "maximum" t1) as [t2 ->]. cbn [and_then].
  destruct (numerals_parse_as_float self ps (sh "minExclusive") H ltac:(simpl; tauto)
              "exclusiveMinimum" t2) as [t3 ->]. cbn [and_then].
  destruct (numerals_parse_as_float self ps (sh "maxExclusive") H ltac:(simpl; tauto)
              "exclusiveMaximum" t3) as [t4 ->]. cbn [and_then].
  destruct (numerals_parse_as_int self ps (sh "minLength") H ltac:(simpl; tauto)
              "minLength" t4) as [t5 ->]. cbn [and_then].
  destruct (numerals_parse_as_int self ps (sh "maxLength") H ltac:(simpl; tauto)
              "maxLength" t5) as [t6 ->]. cbn [and_then].
  destruct (truthy_str _); eauto.
Qed.

(** Before the enumeration stage an array that has items has a schema for
    items, and nothing else has items. *)
Lemma items_ok_after_cardinality fuel self ps name d0 self1 d1 req :
  type_stage fuel ps name (describe self ps) self = Done (d0, self1) ->
  cardinality self ps (ref_rewrite d0) = Some (d1, req) ->
  items_ok d1.
Proof.
  intros Ht Hc.
  apply type_stage_effect in Ht as [_ [K _]].
  assert (dict_get "items" (ref_rewrite d0) = None) as Ri.
  { destruct (ref_rewrite_cases d0) as [->|[ref [desc [_ ->]]]]; [|reflexivity].
    rewrite K by (simpl; intuition discriminate). now apply describe_keys. }
  apply cardinality_cases in Hc as [->|[mi [ma ->]]]; intros W.
  - unfold wrapped, dict_has in W. rewrite Ri in W. now rewrite andb_false_r in W.
  - destruct (wrap_array_lookups (ref_rewrite d0) mi ma) as [_ [_ [_ [_ Ti]]]].
    unfold wrapped, dict_has in W. rewrite Ti in *.
    destruct (dict_has "type" (ref_rewrite d0) || dict_has "$ref" (ref_rewrite d0))%bool;
      [eauto|]. now rewrite andb_false_r in W.
Qed.

Lemma in_stage_returns fuel self ps d :
  values_convert (graph self) = true ->
  list_ends (graph self) fuel (hd_error (objects (graph self) ps (sh "in"))) = true ->
  items_ok d ->
  exists d', in_stage fuel self ps d = Done d' /\ items_ok d'.
Proof.
  intros Hv He Hi. unfold in_stage.
  destruct (objects (graph self) ps (sh "in")) as [|v rest]; [eauto|].
  cbn [hd_error] in He. apply list_ends_some in He.
  destruct (list_values_loop_returns _ _ v [] Hv He) as [vs E].
  unfold _extract_list_values. rewrite E.
  destruct (nonempty vs); [|eauto].
  destruct (on_target_returns (place_enum vs) d) as [d' Hd]; [|assumption|].
  { intros t. unfold place_enum. destruct (_ && _)%bool; eauto. }
  exists d'. split; [exact Hd|].
  apply (on_target_items _ _ _ Hd Hi).
  symmetry.
  apply (on_target_effect _ ["enum"] (place_enum_keeps vs)) in Hd as [W _];
    [exact W| |]; apply not_in_enum; discriminate.
Qed.

(** The value constraints of a well-formed property shape translate. *)
Lemma constrained_schema_returns fuel ps name self :
  well_formed fuel self ps = true ->
  exists d req self1, constrained_schema fuel ps name self = Done ((d, req), self1).
Proof.
  unfold well_formed, lists_end. intros H.
  apply andb_true_iff in H as [H Hl]. apply andb_true_iff in H as [Hv Hn].
  apply andb_true_iff in Hl as [Hor Hin].
  destruct (type_stage_returns fuel ps name (describe self ps) self Hv) as [d0 [self1 Ht]].
  { intros E. now rewrite E in Hor. }
  destruct (cardinality_returns self ps (ref_rewrite d0) Hn) as [mi [ma [d1 [req [_ [_ Hc]]]]]].
  pose proof (items_ok_after_cardinality _ _ _ _ _ _ _ _ Ht Hc) as I1.
  destruct (in_stage_returns fuel self ps d1 Hv Hin I1) as [d2 [Hi I2]].
  destruct (on_target_returns (bounds_target self ps) d2 (bounds_target_returns self ps Hn) I2)
    as [d3 Hb].
  exists d3, req, self1.
  unfold constrained_schema, bind, get_self. rewrite Ht, Hc. cbn [or_value_error ret].
  unfold lift. rewrite Hi. fold (bounds_stage self ps d2). unfold bounds_stage. rewrite Hb.
  reflexivity.
Qed.

(** A well-formed property shape with a path translates: the value
    constraints return, and the last stage adds its warnings and the
    comment of [sh:sparql]. *)
Lemma convert_property_shape_returns fuel self ps path :
  truthy_value (graph self) ps (sh "path") = Some path ->
  well_formed fuel self ps = true ->
  let name := _get_property_name self path in
  exists d req self1 d',
    constrained_schema fuel ps name self = Done ((d, req), self1)
    /\ _convert_property_shape fuel ps self
       = Done ((Some name, d', req),
               with_warnings self1
                 (warnings self1 ++ unconvertible_warnings (graph self) ps name))
    /\ (objects (graph self) ps (sh "sparql") = [] -> d' = d)
    /\ (objects (graph self) ps (sh "sparql") <> [] ->
        exists comment,
          sparql_comment d = Some comment /\ d' = dict_set "$comment" (VStr comment) d).
Proof.
  intros Hp Hw name.
  destruct (constrained_schema_returns fuel ps name self Hw) as [d [req [self1 Hc]]].
  pose proof (constrained_schema_comment _ _ _ _ _ _ _ Hc) as Hok.
  destruct (comment_ok_sparql _ Hok) as [c Hcom].
  assert (graph self1 = graph self) as Hg.
  { apply constrained_schema_stages in Hc as [d0 [d1 [d2 [Ht _]]]].
    apply type_stage_effect in Ht as [[ws ->] _]. reflexivity. }
  exists d, req, self1.
  unfold _convert_property_shape, bind at 1, get_self at 1. rewrite Hp.
  fold name. unfold bind at 1. rewrite Hc.
  unfold bind. rewrite unconvertible_stage_eq. cbv zeta. rewrite Hg, Hcom.
  destruct (objects (graph self) ps (sh "sparql")) as [|q qs] eqn:Hs; cbn [nonempty].
  - exists d. split; [reflexivity|]. split; [reflexivity|]. split; [reflexivity|].
    intros C. now contradiction C.
  - exists (dict_set "$comment" (VStr c) d). split; [reflexivity|]. split; [reflexivity|].
    split; [discriminate|]. intros _. exists c. now split.
Qed.

(** ** Cardinality *)

Lemma cardinality_wraps self ps prior mi ma :
  int_of (_get_literal_value self ps (sh "minCount")) = Some mi ->
  int_of (_get_literal_value self ps (sh "maxCount")) = Some ma ->
  gt_one ma = true
  \/ (gt_one mi = true /\ _get_literal_value self ps (sh "maxCount") = None) ->
  exists req, cardinality self ps prior = Some (wrap_array prior mi ma, req).
Proof.
  intros Hmi Hma H. unfold cardinality. rewrite Hmi, Hma.
  destruct H as [H|[H Hnone]].
  - rewrite H. eauto.
  - rewrite Hnone in Hma. injection Hma as <-. simpl. rewrite H. eauto.
Qed.

Lemma wrap_array_entries d mi ma :
  dict_get "description" (wrap_array d mi ma) = dict_get "description" d
  /\ dict_get "minItems" (wrap_array d mi ma) = option_map VInt mi
  /\ dict_get "maxItems" (wrap_array d mi ma) = option_map VInt ma.
Proof.
  rewrite wrap_array_eq.
  destruct (dict_has "type" d || dict_has "$ref" d)%bool;
    destruct (dict_get "description" d); destruct mi; destruct ma;
    repeat split; reflexivity.
Qed.

Lemma dict_set_same_value {V} k (v : V) d : dict_get k d = Some v -> dict_set k v d = d.
Proof.
  induction d as [|[k' v'] r IH]; simpl; [discriminate|].
  destruct (String.eqb k' k); [now intros [= ->]|]. intros H. now rewrite IH.
Qed.

Lemma dict_get_without_same {V} k (d : dict V) : dict_get k (dict_without k d) = None.
Proof.
  induction d as [|[k' v'] r IH]; simpl; [reflexivity|].
  destruct (String.eqb k' k) eqn:E; simpl; [exact IH|]. now rewrite E.
Qed.

(** A stage that has nothing to write on its target leaves the schema as
    it is. *)
Lemma on_target_same (f : pydict -> outcome pydict) d :
  (forall t, f t = Done t) -> items_ok d -> on_target f d = Done d.
Proof.
  intros Hf Hi. unfold on_target. destruct (wrapped d) eqn:W; [|apply Hf].
  destruct (Hi W) as [items E]. rewrite E, Hf. now rewrite dict_set_same_value.
Qed.

Lemma no_value_constraints_bounds self ps :
  no_value_constraints self ps = true -> forall t, bounds_target self ps t = Done t.
Proof.
  unfold no_value_constraints. intros H t.
  apply andb_true_iff in H as [H _]. apply andb_true_iff in H as [_ H].
  assert (forall p, In p bound_predicates -> _get_literal_value self ps p = None) as N.
  { intros p Hin. apply (forallb_in _ _ _ H) in Hin.
    now destruct (_get_literal_value self ps p). }
  unfold bounds_target, bounds_on. now rewrite !N by (simpl; tauto).
Qed.

(** Without enumeration, bounds, pattern and [sh:sparql] the schema of the
    cardinality stage is the translated schema. *)
Lemma no_value_constraints_schema fuel self ps name d1 d2 d3 d4 self1 self' :
  no_value_constraints self ps = true ->
  graph self1 = graph self ->
  items_ok d1 ->
  in_stage fuel self ps d1 = Done d2 ->
  bounds_stage self ps d2 = Done d3 ->
  unconvertible_stage ps name d3 self1 = Done (d4, self') ->
  d4 = d1.
Proof.
  intros H Hg Hi Hin Hb Hu.
  pose proof (no_value_constraints_bounds _ _ H) as Hbounds.
  unfold no_value_constraints in H.
  apply andb_true_iff in H as [H Hs]. apply andb_true_iff in H as [Ho _].
  unfold in_stage in Hin.
  destruct (objects (graph self) ps (sh "in")); [|discriminate Ho]. injection Hin as <-.
  unfold bounds_stage in Hb. rewrite (on_target_same _ _ Hbounds Hi) in Hb. injection Hb as <-.
  rewrite unconvertible_stage_eq in Hu. cbv zeta in Hu. rewrite Hg in Hu.
  destruct (objects (graph self) ps (sh "sparql")); [|discriminate Hs].
  now injection Hu as <- _.
Qed.

(** What is not an array with items after the cardinality stage gets no
    items later. *)
Lemma later_stages_no_items fuel self ps name d1 d2 d3 d4 self1 self' :
  dict_get "items" d1 = None ->
  in_stage fuel self ps d1 = Done d2 ->
  bounds_stage self ps d2 = Done d3 ->
  unconvertible_stage ps name d3 self1 = Done (d4, self') ->
  dict_get "items" d4 = None.
Proof.
  intros Hn Hin Hb Hu.
  assert (forall d, dict_get "items" d = None -> wrapped d = false) as W.
  { intros d E. unfold wrapped, dict_has. rewrite E. apply andb_false_r. }
  assert (dict_get "items" d2 = None) as H2.
  { apply in_stage_cases in Hin as [->|[v [rest [vs [_ [_ [_ H]]]]]]]; [assumption|].
    unfold on_target in H. rewrite (W _ Hn) in H.
    rewrite (place_enum_keeps _ _ _ H) by (apply not_in_enum; discriminate). exact Hn. }
  assert (dict_get "items" d3 = None) as H3.
  { unfold bounds_stage, on_target in Hb. rewrite (W _ H2) in Hb.
    rewrite (bounds_target_keeps _ _ _ _ Hb) by not_bound. exact H2. }
  apply unconvertible_stage_effect in Hu as [_ [_ [K _]]].
  now rewrite K by discriminate.
Qed.

(** C6 (as amended).  A well-formed property shape with a path whose
    [sh:maxCount] is above one, or whose [sh:minCount] is above one while
    no [sh:maxCount] is read, translates to a schema of type [array].  The
    array has the description of the schema before the wrap (the typed
    schema, with a described [$ref] moved under [allOf]), [minItems] when a
    truthy (non-zero) [sh:minCount] is read and [maxItems] when a truthy
    [sh:maxCount] is read.  When the schema before the wrap carries a
    [type] or a [$ref], the array has items: that schema without its
    description, to which only an enumeration and bounds are added;
    otherwise it has no items.  The translated schema agrees with
    [{"type": "array", "items": ..., "description": ..., "minItems": ...,
    "maxItems": ...}] on every key but [items], [enum], the bounds and
    [$comment], and without [sh:in], bounds, pattern and [sh:sparql] it is
    exactly that dictionary. *)
Theorem array_wrap (fuel : nat) (self : Converter) (prop_shape path : node)
  (min_items max_items : option Z) :
  let name := _get_property_name self path in
  truthy_value (graph self) prop_shape (sh "path") = Some path ->
  well_formed fuel self prop_shape = true ->
  int_of (_get_literal_value self prop_shape (sh "minCount")) = Some min_items ->
  int_of (_get_literal_value self prop_shape (sh "maxCount")) = Some max_items ->
  gt_one max_items = true
  \/ (gt_one min_items = true
      /\ _get_literal_value self prop_shape (sh "maxCount") = None) ->
  exists typed self1 schema is_required self',
    let prior := ref_rewrite typed in
    type_stage fuel prop_shape name (describe self prop_shape) self = Done (typed, self1)
    /\ _convert_property_shape fuel prop_shape self
       = Done ((Some name, schema, is_required), self')
    /\ (forall k, k <> "items" -> k <> "enum" -> ~ In k bound_keys -> k <> "$comment" ->
                  dict_get k schema = dict_get k (array_of prior min_items max_items))
    /\ dict_get "type" schema = Some (VStr "array")
    /\ dict_get "description" schema = dict_get "description" prior
    /\ dict_get "minItems" schema = option_map VInt min_items
    /\ dict_get "maxItems" schema = option_map VInt max_items
    /\ (if (dict_has "type" prior || dict_has "$ref" prior)%bool
        then exists items,
               dict_get "items" schema = Some (VDict items)
               /\ forall k, k <> "enum" -> ~ In k bound_keys ->
                            dict_get k items = dict_get k (dict_without "description" prior)
        else dict_get "items" schema = None)
    /\ (no_value_constraints self prop_shape = true ->
        schema = array_of prior min_items max_items).
Proof.
  intros name Hp Hw Hmi Hma Hwrap.
  destruct (convert_property_shape_returns fuel self prop_shape path Hp Hw)
    as [d [req [self1 [d4 [_ [H _]]]]]]. fold name in H.
  destruct (convert_property_shape_stages _ _ _ _ _ _ Hp H)
    as [d0 [self1' [d1 [req' [d2 [d3 [d4' [Ht [Hc [Hin [Hb [_ [Hu Hr]]]]]]]]]]]]].
  fold name in Ht, Hu. injection Hr as <- <-.
  exists d0, self1', d4, req, (with_warnings self1
                                 (warnings self1
                                  ++ unconvertible_warnings (graph self) prop_shape name)).
  cbv zeta. set (prior := ref_rewrite d0) in *.
  split; [exact Ht|]. split; [exact H|].
  pose proof (items_ok_after_cardinality _ _ _ _ _ _ _ _ Ht Hc) as I1.
  destruct (cardinality_wraps self prop_shape prior _ _ Hmi Hma Hwrap) as [req'' E].
  rewrite E in Hc. injection Hc as <- _.
  destruct (later_stages_keep _ _ _ _ _ _ _ _ _ _ Hin Hb Hu) as [W [T K]].
  destruct (wrap_array_lookups prior min_items max_items) as [Ta [_ [_ [_ Ti]]]].
  destruct (wrap_array_entries prior min_items max_items) as [Ed [Emi Ema]].
  split; [intros k Hi He Hbk Hc; unfold array_of; rewrite <- wrap_array_eq; now apply K|].
  split; [rewrite K; (discriminate || not_bound || assumption)|].
  split; [rewrite K; (discriminate || not_bound || assumption)|].
  split; [rewrite K; (discriminate || not_bound || assumption)|].
  split; [rewrite K; (discriminate || not_bound || assumption)|].
  split.
  - destruct (dict_has "type" prior || dict_has "$ref" prior)%bool.
    + assert (wrapped (wrap_array prior min_items max_items) = true) as W1.
      { unfold wrapped, dict_has. now rewrite (get_is_str_of _ _ _ Ta), Ti. }
      pose proof (in_stage_effect _ _ _ _ _ Hin) as [W12 [T12 _]].
      pose proof (bounds_stage_effect _ _ _ _ Hb) as [W23 [T23 _]].
      pose proof (unconvertible_stage_effect _ _ _ _ _ _ Hu) as [_ [_ [K34 _]]].
      assert (wrapped d3 = true) as W3 by congruence.
      assert (exists items, dict_get "items" d3 = Some (VDict items)) as [items Ei].
      { unfold bounds_stage, on_target in Hb.
        assert (wrapped d2 = true) as W2 by congruence. rewrite W2 in Hb.
        destruct (dict_get "items" d2) as [[| | | | | | |i2]|]; try discriminate.
        destruct (bounds_target self prop_shape i2) as [i3| |]; try discriminate.
        injection Hb as <-. exists i3. apply dict_get_set_same. }
      exists items. split; [now rewrite K34 by discriminate|].
      intros k Hk Hbk.
      assert (target_of d3 = items) as E3 by (unfold target_of; now rewrite W3, Ei).
      assert (target_of (wrap_array prior min_items max_items)
              = dict_without "description" prior) as E1
          by (unfold target_of; now rewrite W1, Ti).
      now rewrite <- E3, T23, T12, E1.
    + now apply (later_stages_no_items _ _ _ _ _ _ _ _ _ _ Ti Hin Hb Hu).
  - intros Hn. unfold array_of. rewrite <- wrap_array_eq.
    eapply (no_value_constraints_schema fuel self prop_shape name _ d2 d3 d4 self1');
      try eassumption.
    apply type_stage_effect in Ht as [[ws ->] _]. reflexivity.
Qed.

(** ** Constants *)

Lemma has_value_case_schema self hv c ty d :
  has_value_case self hv c ty ->
  has_value_schema self hv d = Some (dict_set "type" (VStr ty) (dict_set "const" c d))
  /\ ty <> "array".
Proof.
  intros [iri|l b Hv]; split; try discriminate; try reflexivity.
  unfold has_value_schema, literal_const. now rewrite Hv.
Qed.

(** C7 (as amended).  [sh:hasValue] comes before every other source of the
    type: with an IRI the type stage yields [const] = the resolved name and
    [type] = [string], with a boolean literal [const] = the boolean and
    [type] = [boolean], whatever else the property shape carries.  A
    well-formed property shape with a path translates, and the pair is at
    the top of the translated schema when neither count is above one;
    when a count is above one the translated schema is an array without
    [const], whose [items] hold the pair. *)
Theorem has_value_const (fuel : nat) (self : Converter) (prop_shape path has_value : node)
  (const : pyval) (type : string) :
  has_value_case self has_value const type ->
  graph_value (graph self) prop_shape (sh "hasValue") = Some has_value ->
  (forall prop_name prop_def,
      type_stage fuel prop_shape prop_name prop_def self =
        Done (dict_set "type" (VStr type) (dict_set "const" const prop_def), self))
  /\ (truthy_value (graph self) prop_shape (sh "path") = Some path ->
      well_formed fuel self prop_shape = true ->
      exists min_items max_items schema is_required self',
        int_of (_get_literal_value self prop_shape (sh "minCount")) = Some min_items
        /\ int_of (_get_literal_value self prop_shape (sh "maxCount")) = Some max_items
        /\ _convert_property_shape fuel prop_shape self
           = Done ((Some (_get_property_name self path), schema, is_required), self')
        /\ if (gt_one max_items || gt_one min_items)%bool
           then dict_get "type" schema = Some (VStr "array")
                /\ dict_get "const" schema = None
                /\ exists items,
                     dict_get "items" schema = Some (VDict items)
                     /\ dict_get "const" items = Some const
                     /\ dict_get "type" items = Some (VStr type)
           else dict_get "const" schema = Some const
                /\ dict_get "type" schema = Some (VStr type)).
Proof.
  intros Hcase Hhv.
  assert (forall prop_name prop_def,
             type_stage fuel prop_shape prop_name prop_def self =
               Done (dict_set "type" (VStr type) (dict_set "const" const prop_def), self))
    as Hstage.
  { intros name d. unfold type_stage, bind, get_self. rewrite Hhv.
    destruct (has_value_case_schema self _ _ _ d Hcase) as [-> _]. reflexivity. }
  split; [exact Hstage|].
  intros Hp Hw.
  destruct (convert_property_shape_returns fuel self prop_shape path Hp Hw)
    as [d [req [self1 [d4 [_ [H _]]]]]].
  destruct (convert_property_shape_stages _ _ _ _ _ _ Hp H)
    as [d0 [self1' [d1 [req' [d2 [d3 [d4' [Ht [Hc [Hin [Hb [_ [Hu Hr]]]]]]]]]]]]].
  injection Hr as <- <-.
  rewrite Hstage in Ht. injection Ht as <- <-.
  set (d0 := dict_set "type" (VStr type) (dict_set "const" const (describe self prop_shape)))
    in *.
  assert (dict_get "const" d0 = Some const) as Hconst.
  { unfold d0. rewrite dict_get_set_other by discriminate. apply dict_get_set_same. }
  assert (dict_get "type" d0 = Some (VStr type)) as Htype by apply dict_get_set_same.
  assert (ref_rewrite d0 = d0) as Href.
  { unfold ref_rewrite, d0. rewrite !dict_get_set_other by discriminate.
    now rewrite describe_keys by discriminate. }
  rewrite Href in Hc.
  assert (wrapped d0 = false) as W0.
  { unfold wrapped, get_is_str. rewrite Htype.
    destruct (String.eqb_spec type "array") as [E|_]; [|reflexivity].
    exfalso. now apply (has_value_case_schema self _ _ _ [] Hcase). }
  destruct (later_stages_keep _ _ _ _ _ _ _ _ _ _ Hin Hb Hu) as [W [T K]].
  unfold cardinality in Hc.
  destruct (int_of (_get_literal_value self prop_shape (sh "minCount"))) as [mi|];
    [|discriminate].
  destruct (int_of (_get_literal_value self prop_shape (sh "maxCount"))) as [ma|];
    [|discriminate].
  exists mi, ma, d4, req, (with_warnings self1
                             (warnings self1
                              ++ unconvertible_warnings (graph self) prop_shape
                                   (_get_property_name self path))).
  split; [reflexivity|]. split; [reflexivity|]. split; [exact H|].
  assert (forall mi' ma', d1 = wrap_array d0 mi' ma' ->
            dict_get "type" d4 = Some (VStr "array")
            /\ dict_get "const" d4 = None
            /\ exists items,
                 dict_get "items" d4 = Some (VDict items)
                 /\ dict_get "const" items = Some const
                 /\ dict_get "type" items = Some (VStr type)) as Array.
  { intros mi' ma' ->.
    destruct (wrap_array_lookups d0 mi' ma') as [Ta [_ [_ [Tc Ti]]]].
    assert (dict_has "type" d0 = true) as Hhas by (unfold dict_has; now rewrite Htype).
    rewrite Hhas in Ti. cbn [orb] in Ti.
    assert (wrapped (wrap_array d0 mi' ma') = true) as W1.
    { unfold wrapped, dict_has. now rewrite (get_is_str_of _ _ _ Ta), Ti. }
    split; [rewrite K; (discriminate || not_bound || assumption)|].
    split; [rewrite K; (discriminate || not_bound || assumption)|].
    assert (dict_get "const" (target_of d4) = Some const) as Tc4.
    { rewrite T by (discriminate || not_bound). unfold target_of. rewrite W1, Ti.
      now rewrite dict_get_without_other by discriminate. }
    assert (dict_get "type" (target_of d4) = Some (VStr type)) as Tt4.
    { rewrite T by (discriminate || not_bound). unfold target_of. rewrite W1, Ti.
      now rewrite dict_get_without_other by discriminate. }
    rewrite W1 in W. unfold target_of in Tc4, Tt4. rewrite W in Tc4, Tt4.
    destruct (dict_get "items" d4) as [[| | | | | | |items]|]; try discriminate. eauto. }
  destruct (gt_one ma); cbn [orb].
  { injection Hc as <- _. now apply (Array mi ma). }
  destruct (gt_one mi).
  { injection Hc as <- _. now apply (Array mi None). }
  injection Hc as <- _. rewrite W0 in W.
  assert (target_of d4 = d4) as E4 by (unfold target_of; now rewrite W).
  assert (target_of d0 = d0) as E0 by (unfold target_of; now rewrite W0).
  rewrite E4, E0 in T.
  split; rewrite T; (discriminate || not_bound || assumption).
Qed.

(** ** Enumerations *)




(** Python takes the integers one and zero for [True] and [False]. *)
Example is_true_false_set_numbers : is_true_false_set [VInt 1; VInt 0] = true.
Proof. reflexivity. Qed.



(** ** Constructs without a counterpart *)


(** C9 (as amended).  A well-formed property shape with a path (its
    values convert, its counts and bounds are numerals, its lists end)
    translates.  The translation keeps the diagnostics there were, and
    appends, after those of the type stage, one warning for [sh:xone], one
    for [sh:and] and one for [sh:sparql], in that order, each when the
    property shape carries the construct; [sh:sparql] sets the [$comment]
    of the property schema to the comment it had, followed by the note,
    and nothing else changes the schema. *)
Theorem unconvertible_constructs_warn (fuel : nat) (self : Converter)
  (prop_shape path : node) :
  let g := graph self in
  let prop_name := _get_property_name self path in
  truthy_value g prop_shape (sh "path") = Some path ->
  well_formed fuel self prop_shape = true ->
  exists prop_def is_required self1 prop_def',
    constrained_schema fuel prop_shape prop_name self = Done ((prop_def, is_required), self1)
    /\ (exists ws, self1 = with_warnings self (warnings self ++ ws))
    /\ _convert_property_shape fuel prop_shape self =
         Done ((Some prop_name, prop_def', is_required),
               with_warnings self1
                 (warnings self1
                  ++ xone_warning g prop_shape prop_name
                  ++ and_warning g prop_shape prop_name
                  ++ sparql_warning g prop_shape prop_name))
    /\ (objects g prop_shape (sh "sparql") = [] -> prop_def' = prop_def)
    /\ (objects g prop_shape (sh "sparql") <> [] ->
        exists comment,
          sparql_comment prop_def = Some comment
          /\ prop_def' = dict_set "$comment" (VStr comment) prop_def).
Proof.
  intros g prop_name Hp Hw.
  destruct (convert_property_shape_returns fuel self prop_shape path Hp Hw)
    as [d [req [self1 [d' [Hc [H [Hnone Hsome]]]]]]].
  exists d, req, self1, d'. split; [exact Hc|]. split.
  - apply constrained_schema_stages in Hc as [d0 [d1 [d2 [Ht _]]]].
    now apply type_stage_effect in Ht as [Hws _].
  - split; [exact H|]. split; assumption.
Qed.

(** ** Required properties *)

(** The translation of a property shape changes the diagnostics only. *)
Lemma convert_property_shape_warns fuel ps self r self' :
  _convert_property_shape fuel ps self = Done (r, self') ->
  exists ws, self' = with_warnings self ws.
Proof.
  intros H.
  destruct (truthy_value (graph self) ps (sh "path")) as [path|] eqn:Hp.
  - destruct (convert_property_shape_stages _ _ _ _ _ _ Hp H)
      as [d0 [self1 [d1 [req [d2 [d3 [d4 [Ht [_ [_ [_ [_ [Hu _]]]]]]]]]]]]].
    apply type_stage_effect in Ht as [[ws ->] _].
    apply unconvertible_stage_effect in Hu as [-> _]. eexists. reflexivity.
  - unfold _convert_property_shape, bind, get_self in H. rewrite Hp in H.
    injection H as _ <-. eexists. reflexivity.
Qed.

Lemma cardinality_required self ps d d1 req n :
  cardinality self ps d = Some (d1, req) ->
  int_of (_get_literal_value self ps (sh "minCount")) = Some (Some n) ->
  req = (1 <=? n).
Proof.
  unfold cardinality. intros H Hmin. rewrite Hmin in H.
  destruct (int_of (_get_literal_value self ps (sh "maxCount"))) as [ma|]; [|discriminate].
  destruct (gt_one ma); [now injection H as _ <-|].
  destruct (gt_one (Some n)); now injection H as _ <-.
Qed.

Lemma property_loop_body_effect fuel ps properties required properties' required' self self' :
  property_loop_body fuel ps (properties, required) self
  = Done ((properties', required'), self') ->
  (exists ws, self' = with_warnings self ws)
  /\ incl required required'
  /\ (forall name, required_property self ps name -> In name required').
Proof.
  unfold property_loop_body. intros H.
  apply bind_done in H as [[[pn pd] rq] [s1 [Hc H]]].
  pose proof (convert_property_shape_warns _ _ _ _ _ Hc) as Hw.
  assert (self' = s1 /\ incl required required') as [-> Hincl].
  { destruct (truthy_str pn); injection H as _ <- <-; split; trivial;
      try apply incl_refl.
    destruct rq; [apply incl_appl|]; apply incl_refl. }
  repeat split; try assumption.
  intros name [path [s [n [Hp [-> [Hne [Hmin [Hint Hn]]]]]]]].
  destruct (convert_property_shape_stages _ _ _ _ _ _ Hp Hc)
    as [d0 [self1 [d1 [req [d2 [d3 [d4 [_ [Hcard [_ [_ [_ [_ Hr]]]]]]]]]]]]].
  injection Hr; intros; subst pn rq.
  assert (req = true) as ->.
  { rewrite (cardinality_required _ _ _ _ _ n Hcard).
    - now apply Z.leb_le.
    - unfold int_of. now rewrite Hmin, Hint. }
  unfold truthy_str in H.
  destruct (_get_property_name self path) as [|a nm] eqn:E; [congruence|].
  simpl in H. injection H as _ <-. apply in_or_app. right. now left.
Qed.

Lemma property_loop_effect fuel l : forall properties required properties' required' self self',
  for_each l (property_loop_body fuel) (properties, required) self
  = Done ((properties', required'), self') ->
  (exists ws, self' = with_warnings self ws)
  /\ incl required required'
  /\ (forall ps name, In ps l -> required_property self ps name -> In name required').
Proof.
  induction l as [|ps l IH]; intros properties required properties' required' self self' H.
  - injection H as _ <- <-. repeat split.
    + exists (warnings self). now rewrite with_warnings_same.
    + apply incl_refl.
    + intros ps name [].
  - cbn [for_each] in H. apply bind_done in H as [[p1 r1] [s1 [Hb H]]].
    apply property_loop_body_effect in Hb as [[ws ->] [I1 R1]].
    apply IH in H as [[ws' ->] [I2 R2]].
    repeat split.
    + eexists. reflexivity.
    + eapply incl_tran; eassumption.
    + intros ps' name [<-|Hin] Hreq.
      * apply I2. now apply R1.
      * apply (R2 ps'); [assumption|]. exact Hreq.
Qed.

Lemma node_and_stage_definition fuel name l d p self d' p' self' :
  node_and_stage fuel name l d p self = Done ((d', p'), self') ->
  forall k, k <> "allOf" -> dict_get k d' = dict_get k d.
Proof.
  unfold node_and_stage. intros H k Hk.
  apply bind_done in H as [s0 [s1 [_ H]]].
  apply bind_done in H as [members [s2 [_ H]]].
  apply bind_done in H as [[all_of props] [s3 [_ H]]].
  destruct (nonempty all_of).
  - injection H as <- _ _. now apply dict_get_set_other.
  - apply bind_done in H as [u [s4 [_ H]]]. now injection H as <- _ _.
Qed.

Lemma node_and_stage_definition_opt fuel name g shape d p self d' p' self' :
  match truthy_value g shape (sh "and") with
  | Some and_list => node_and_stage fuel name and_list d p
  | None => ret (d, p)
  end self = Done ((d', p'), self') ->
  forall k, k <> "allOf" -> dict_get k d' = dict_get k d.
Proof.
  destruct (truthy_value g shape (sh "and")).
  - apply node_and_stage_definition.
  - intros [= <- _ _]. reflexivity.
Qed.

(** C5 (as amended).  For every [sh:property] of a node shape that has a
    truthy [sh:path] whose resolved term is not empty and a [sh:minCount]
    of one or more, the resolved term is in the [required] list of the
    definition generated for the shape. *)
Theorem required_lists_property (fuel : nat) (self self' : Converter)
  (shape prop_shape path : node) (min_count : string) (n : Z) :
  In prop_shape (objects (graph self) shape (sh "property")) ->
  truthy_value (graph self) prop_shape (sh "path") = Some path ->
  _get_property_name self path <> "" ->
  _get_literal_value self prop_shape (sh "minCount") = Some min_count ->
  PyNum.py_int min_count = Some n ->
  1 <= n ->
  _convert_node_shape fuel shape self = Done (tt, self') ->
  exists definition required,
    dict_get (_get_local_name shape) (definitions self') = Some (VDict definition)
    /\ dict_get "required" definition = Some (VList (map VStr required))
    /\ In (_get_property_name self path) required.
Proof.
  intros Hin Hpath Hname Hmin Hint Hn H.
  assert (required_property self prop_shape (_get_property_name self path)) as Hreq.
  { exists path, min_count, n. repeat split; assumption. }
  unfold _convert_node_shape, bind at 1, get_self at 1 in H.
  set (g := graph self) in *.
  destruct (match truthy_value g shape (sh "targetClass") with
            | Some target_class =>
                ([("@type", type_property (_get_local_name target_class))], ["@type"])
            | None => ([], [])
            end) as [properties0 required0].
  apply bind_done in H as [[properties required] [s1 [Hloop H]]].
  apply property_loop_effect in Hloop as [_ [_ R]].
  specialize (R _ _ Hin Hreq).
  apply bind_done in H as [[definition1 properties1] [s2 [_ H]]].
  apply bind_done in H as [[definition2 properties2] [s3 [Hand H]]].
  pose proof (node_and_stage_definition_opt _ _ _ _ _ _ _ _ _ _ Hand "required"
                ltac:(discriminate)) as Hk.
  assert (nonempty required = true) as Hne by (destruct required; [contradiction|reflexivity]).
  rewrite Hne in Hk. rewrite dict_get_set_same in Hk.
  unfold store_definition in H. injection H as <-. cbn [definitions].
  rewrite dict_get_set_same.
  eexists. exists required. split; [reflexivity|]. split; [|assumption].
  destruct (truthy_str (_get_literal_value self shape (sh "closed"))) as [c|];
    [destruct (String.eqb (PyStr.lower c) "true")|];
    destruct (nonempty properties1);
    rewrite ?dict_get_set_other by discriminate; exact Hk.
Qed.

(** ** The property translation on the scenarios *)

Lemma required_lists_property_witness :
  exists definition required,
    dict_get "PartyShape" (definitions party_converted) = Some (VDict definition)
    /\ dict_get "required" definition = Some (VList (map VStr required))
    /\ In "name" required.
Proof.
  apply (required_lists_property 1 (converter_of party_graph "local") party_converted
           (ex "PartyShape") (BNode "name") (ex "name") "1" 1).
  - simpl. now left.
  - reflexivity.
  - discriminate.
  - reflexivity.
  - reflexivity.
  - lia.
  - reflexivity.
Defined.

(** C5, counterexample: under [local] naming the path
    [http://example.org/ns#] has a truthy value and the empty term; the
    property has [sh:minCount 1], and the definition of the shape has
    neither the property nor a [required] list, and no warning is
    recorded. *)
Lemma empty_name_not_required :
  truthy_value empty_name_graph (BNode "p") (sh "path")
  = Some (URIRef "http://example.org/ns#")
  /\ _get_property_name (converter_of empty_name_graph "local")
       (URIRef "http://example.org/ns#") = ""
  /\ _get_literal_value (converter_of empty_name_graph "local") (BNode "p") (sh "minCount")
     = Some "1"
  /\ definitions_after
       (_convert_node_shape 1 (ex "S") (converter_of empty_name_graph "local"))
     = Some [("S", VDict [("type", VStr "object");
                          ("$comment", VStr "Generated from SHACL shape http://example.org/S");
                          ("title", VStr "S")])]
  /\ warnings_after
       (_convert_node_shape 1 (ex "S") (converter_of empty_name_graph "local"))
     = Some [].
Proof. repeat split; reflexivity. Qed.

Lemma array_wrap_witness :
  exists typed self1 schema is_required self',
    let prior := ref_rewrite typed in
    type_stage 0 (BNode "tags") "tags"
      (describe (converter_of tags_graph "local") (BNode "tags"))
      (converter_of tags_graph "local")
    = Done (typed, self1)
    /\ _convert_property_shape 0 (BNode "tags") (converter_of tags_graph "local")
       = Done ((Some "tags", schema, is_required), self')
    /\ (forall k, k <> "items" -> k <> "enum" -> ~ In k bound_keys -> k <> "$comment" ->
                  dict_get k schema = dict_get k (array_of prior (Some 2) (Some 5)))
    /\ dict_get "type" schema = Some (VStr "array")
    /\ dict_get "description" schema = dict_get "description" prior
    /\ dict_get "minItems" schema = option_map VInt (Some 2)
    /\ dict_get "maxItems" schema = option_map VInt (Some 5)
    /\ (if (dict_has "type" prior || dict_has "$ref" prior)%bool
        then exists items,
               dict_get "items" schema = Some (VDict items)
               /\ forall k, k <> "enum" -> ~ In k bound_keys ->
                            dict_get k items = dict_get k (dict_without "description" prior)
        else dict_get "items" schema = None)
    /\ (no_value_constraints (converter_of tags_graph "local") (BNode "tags") = true ->
        schema = array_of prior (Some 2) (Some 5)).
Proof.
  apply (array_wrap 0 (converter_of tags_graph "local") (BNode "tags") (ex "tags")
           (Some 2) (Some 5)).
  - reflexivity.
  - reflexivity.
  - reflexivity.
  - reflexivity.
  - left. reflexivity.
Defined.

(** C6, counterexample: with [sh:nodeKind sh:IRI] and [sh:maxCount 3] the
    array has no [items], though the schema before the wrap was an
    [anyOf]; so has the array of a property without any type, and the
    array of a described reference, whose [$ref] went under [allOf] before
    the wrap and is in the array no more; with [sh:minCount 0] present the
    array of the quantity scenario has no [minItems].  The items of an
    array are more than the schema before the wrap when the property has
    a bound or an enumeration, the array has a [$comment] with
    [sh:sparql], and with a [sh:maxCount] that is not a number there is no
    schema at all. *)
Lemma array_without_items :
  schema_of (_convert_property_shape 0 (BNode "links") (converter_of links_graph "local"))
  = Some [("type", VStr "array"); ("maxItems", VInt 3)]
  /\ schema_of (_convert_property_shape 0 (BNode "any") (converter_of links_graph "local"))
     = Some [("type", VStr "array"); ("maxItems", VInt 2)]
  /\ (type_stage 0 (BNode "owners") "owners"
        (describe (converter_of wrap_graph "local") (BNode "owners"))
        (converter_of wrap_graph "local")
      = Done ([("description", VStr "The owners"); ("$ref", VStr "#/$defs/PersonShape")],
              converter_of wrap_graph "local")
      /\ ref_rewrite [("description", VStr "The owners");
                      ("$ref", VStr "#/$defs/PersonShape")]
         = [("description", VStr "The owners");
            ("allOf", VList [VDict [("$ref", VStr "#/$defs/PersonShape")]])]
      /\ schema_of (_convert_property_shape 0 (BNode "owners")
                      (converter_of wrap_graph "local"))
         = Some [("type", VStr "array"); ("description", VStr "The owners");
                 ("maxItems", VInt 2)])
  /\ (graph_value qty_graph (BNode "qty") (sh "minCount") = Some (xsd_integer_literal "0" 0)
      /\ schema_of (_convert_property_shape 0 (BNode "qty") (converter_of qty_graph "local"))
         = Some [("type", VStr "array"); ("items", VDict [("type", VStr "integer")]);
                 ("maxItems", VInt 5)])
  /\ schema_of (_convert_property_shape 0 (BNode "names") (converter_of wrap_graph "local"))
     = Some [("type", VStr "array");
             ("items", VDict [("type", VStr "string"); ("minLength", VInt 1)]);
             ("maxItems", VInt 3)]
  /\ schema_of (_convert_property_shape 2 (BNode "codes") (converter_of enum_graph "local"))
     = Some [("type", VStr "array");
             ("items", VDict [("type", VStr "string"); ("enum", VList [VStr "a"])]);
             ("maxItems", VInt 3)]
  /\ schema_of (_convert_property_shape 0 (BNode "rules") (converter_of wrap_graph "local"))
     = Some [("type", VStr "array"); ("items", VDict [("type", VStr "string")]);
             ("maxItems", VInt 2);
             ("$comment",
              VStr "Contains sh:sparql constraint not convertible to JSON Schema")]
  /\ (graph_value wrap_graph (BNode "sizes") (sh "maxCount") = Some (plain_literal "many")
      /\ _convert_property_shape 0 (BNode "sizes") (converter_of wrap_graph "local")
         = Raised ValueError).
Proof. repeat split; reflexivity. Qed.

Lemma has_value_const_witness :
  (forall prop_name prop_def,
      type_stage 0 (BNode "flag") prop_name prop_def (converter_of status_graph "local")
      = Done (dict_set "type" (VStr "boolean") (dict_set "const" (VBool true) prop_def),
              converter_of status_graph "local"))
  /\ exists min_items max_items schema is_required self',
       int_of (_get_literal_value (converter_of status_graph "local") (BNode "flag")
                 (sh "minCount")) = Some min_items
       /\ int_of (_get_literal_value (converter_of status_graph "local") (BNode "flag")
                    (sh "maxCount")) = Some max_items
       /\ _convert_property_shape 0 (BNode "flag") (converter_of status_graph "local")
          = Done ((Some "flag", schema, is_required), self')
       /\ if (gt_one max_items || gt_one min_items)%bool
          then dict_get "type" schema = Some (VStr "array")
               /\ dict_get "const" schema = None
               /\ exists items,
                    dict_get "items" schema = Some (VDict items)
                    /\ dict_get "const" items = Some (VBool true)
                    /\ dict_get "type" items = Some (VStr "boolean")
          else dict_get "const" schema = Some (VBool true)
               /\ dict_get "type" schema = Some (VStr "boolean").
Proof.
  destruct (has_value_const 0 (converter_of status_graph "local") (BNode "flag")
              (ex "flag") (xsd_boolean_literal true) (VBool true) "boolean"
              (HasValueBoolean _
                 (mkLiteral "true" (Some "http://www.w3.org/2001/XMLSchema#boolean") None
                            (Some (ABool true)))
                 true eq_refl)
              eq_refl) as [Hstage Hfinal].
  split.
  - exact Hstage.
  - exact (Hfinal eq_refl eq_refl).
Defined.

(** C7, counterexample: a property shape with [sh:hasValue] and no path
    translates to the empty schema; one with a path and a [sh:maxCount]
    that is not a number raises [ValueError]; and one with a path and
    [sh:maxCount 2] translates to an array, whose type is [array] and
    which has no [const]. *)
Lemma has_value_without_const :
  graph_value constant_graph (BNode "nopath") (sh "hasValue") = Some (ex "Active")
  /\ schema_of (_convert_property_shape 0 (BNode "nopath")
                  (converter_of constant_graph "local"))
     = Some []
  /\ graph_value constant_graph (BNode "count") (sh "hasValue") = Some (ex "Active")
  /\ _convert_property_shape 0 (BNode "count") (converter_of constant_graph "local")
     = Raised ValueError
  /\ graph_value constant_graph (BNode "flags") (sh "hasValue")
     = Some (xsd_boolean_literal true)
  /\ schema_of (_convert_property_shape 0 (BNode "flags")
                  (converter_of constant_graph "local"))
     = Some [("type", VStr "array");
             ("items", VDict [("const", VBool true); ("type", VStr "boolean")]);
             ("maxItems", VInt 2)].
Proof. repeat split; reflexivity. Qed.



Lemma unconvertible_constructs_warn_witness :
  exists prop_def is_required self1 prop_def',
    constrained_schema 0 (BNode "total") "total" (converter_of sparql_graph "local")
    = Done ((prop_def, is_required), self1)
    /\ (exists ws,
          self1 = with_warnings (converter_of sparql_graph "local")
                    (warnings (converter_of sparql_graph "local") ++ ws))
    /\ _convert_property_shape 0 (BNode "total") (converter_of sparql_graph "local")
       = Done ((Some "total", prop_def', is_required),
               with_warnings self1
                 (warnings self1
                  ++ xone_warning sparql_graph (BNode "total") "total"
                  ++ and_warning sparql_graph (BNode "total") "total"
                  ++ sparql_warning sparql_graph (BNode "total") "total"))
    /\ (objects sparql_graph (BNode "total") (sh "sparql") = [] -> prop_def' = prop_def)
    /\ (objects sparql_graph (BNode "total") (sh "sparql") <> [] ->
        exists comment,
          sparql_comment prop_def = Some comment
          /\ prop_def' = dict_set "$comment" (VStr comment) prop_def).
Proof.
  exact (unconvertible_constructs_warn 0 (converter_of sparql_graph "local") (BNode "total")
           (ex "total") eq_refl eq_refl).
Defined.

(** C9, counterexample: a property shape with a path, [sh:sparql] and a
    [sh:maxCount] that is not a number makes the translation raise
    [ValueError]: nothing is returned and no warning is recorded.  A
    property shape with [sh:sparql] and no path gets the warning about
    the path only, and an empty schema without [$comment]. *)
Lemma malformed_count_aborts :
  nonempty (objects sparql_graph (BNode "count") (sh "sparql")) = true
  /\ _get_literal_value (converter_of sparql_graph "local") (BNode "count") (sh "maxCount")
     = Some "many"
  /\ _convert_property_shape 0 (BNode "count") (converter_of sparql_graph "local")
     = Raised ValueError
  /\ nonempty (objects sparql_graph (BNode "nopath") (sh "sparql")) = true
  /\ schema_of (_convert_property_shape 0 (BNode "nopath") (converter_of sparql_graph "local"))
     = Some []
  /\ warnings_after
       (_convert_property_shape 0 (BNode "nopath") (converter_of sparql_graph "local"))
     = Some ["Property shape without sh:path found: nopath"].
Proof. repeat split; reflexivity. Qed.

(* ===================================================================== *)
(** * Further properties of the converter                                 *)
(* ===================================================================== *)

(** ** Methods that only append diagnostics *)

Lemma with_warnings_twice self ws ws' :
  with_warnings (with_warnings self ws) ws' = with_warnings self ws'.
Proof. reflexivity. Qed.

Lemma appends_nothing self : exists ws, self = with_warnings self (warnings self ++ ws).
Proof. exists []. now rewrite app_nil_r, with_warnings_same. Qed.

Lemma appends_ret {A} (a : A) : appends_warnings (ret a).
Proof. intros self a' self' [= _ <-]. apply appends_nothing. Qed.

Lemma appends_get_self : appends_warnings get_self.
Proof. intros self a' self' [= _ <-]. apply appends_nothing. Qed.

Lemma appends_warn w : appends_warnings (warn w).
Proof. intros self a' self' [= _ <-]. exists [w]. reflexivity. Qed.

Lemma appends_lift {A} (o : outcome A) : appends_warnings (lift o).
Proof.
  intros self a self' H. apply lift_done in H as [a' [_ [= _ <-]]]. apply appends_nothing.
Qed.

Lemma appends_or_value_error {A} (o : option A) : appends_warnings (or_value_error o).
Proof. destruct o; [apply appends_ret|]. intros self a self' H. discriminate H. Qed.

Lemma appends_bind {A B} (c : M A) (k : A -> M B) :
  appends_warnings c -> (forall a, appends_warnings (k a)) -> appends_warnings (bind c k).
Proof.
  intros Hc Hk self b self' H. apply bind_done in H as [a [s1 [H1 H2]]].
  apply Hc in H1 as [ws1 ->]. apply Hk in H2 as [ws2 ->].
  exists (ws1 ++ ws2)%list. cbn [warnings with_warnings]. now rewrite app_assoc.
Qed.

Lemma appends_for_each {A S} (l : list A) (body : A -> S -> M S) :
  (forall x acc, appends_warnings (body x acc)) ->
  forall acc, appends_warnings (for_each l body acc).
Proof.
  intros Hb. induction l as [|x l IH]; intros acc; cbn [for_each].
  - apply appends_ret.
  - apply appends_bind; [apply Hb|assumption].
Qed.

Lemma appends_type_stage fuel ps name d : appends_warnings (type_stage fuel ps name d).
Proof. intros self a self' H. now apply type_stage_effect in H as [H _]. Qed.

Lemma appends_unconvertible_stage ps name d :
  appends_warnings (unconvertible_stage ps name d).
Proof.
  intros self a self' H. apply unconvertible_stage_effect in H as [-> _]. eexists. reflexivity.
Qed.

Lemma appends_constrained_schema fuel ps name :
  appends_warnings (constrained_schema fuel ps name).
Proof.
  unfold constrained_schema.
  apply appends_bind; [apply appends_get_self|intros self].
  apply appends_bind; [apply appends_type_stage|intros d0].
  apply appends_bind; [apply appends_or_value_error|intros [d1 req]].
  apply appends_bind; [apply appends_lift|intros d2].
  apply appends_bind; [apply appends_lift|intros d3].
  apply appends_ret.
Qed.

Lemma appends_convert_property_shape fuel ps :
  appends_warnings (_convert_property_shape fuel ps).
Proof.
  unfold _convert_property_shape.
  apply appends_bind; [apply appends_get_self|intros self].
  destruct (truthy_value (graph self) ps (sh "path")) as [path|].
  - apply appends_bind; [apply appends_constrained_schema|intros [d req]].
    apply appends_bind; [apply appends_unconvertible_stage|intros d'].
    apply appends_ret.
  - apply appends_bind; [apply appends_warn|intros _]. apply appends_ret.
Qed.

Lemma appends_property_loop_body fuel ps acc :
  appends_warnings (property_loop_body fuel ps acc).
Proof.
  unfold property_loop_body. destruct acc as [properties required].
  apply appends_bind; [apply appends_convert_property_shape|intros [[pn pd] rq]].
  destruct (truthy_str pn); apply appends_ret.
Qed.

Lemma appends_constraint_node fuel : forall c,
  appends_warnings (_convert_node_constraint_node_to_schema fuel c).
Proof.
  induction fuel as [|fuel IH]; intros c; cbn [_convert_node_constraint_node_to_schema].
  - intros self a self' H. discriminate H.
  - apply appends_bind; [apply appends_get_self|intros self].
    apply appends_bind;
      [apply appends_for_each; intros; apply appends_property_loop_body|intros [props req]].
    apply appends_bind.
    + apply appends_for_each. intros not_node [subschemas discovered].
      apply appends_bind; [apply IH|intros [nested_schema nested_props]]. apply appends_ret.
    + intros [subschemas discovered]. destruct subschemas as [|only [|]]; apply appends_ret.
Qed.

Lemma appends_node_or_stage fuel name l d p :
  appends_warnings (node_or_stage fuel name l d p).
Proof.
  unfold node_or_stage.
  apply appends_bind; [apply appends_get_self|intros self].
  apply appends_bind; [apply appends_lift|intros alts].
  apply appends_bind.
  - apply appends_for_each. intros alt [any_of discovered].
    apply appends_bind; [apply appends_constraint_node|intros [s ps]]. apply appends_ret.
  - intros [any_of discovered]. destruct (nonempty any_of); [apply appends_ret|].
    apply appends_bind; [apply appends_warn|intros _]. apply appends_ret.
Qed.

Lemma appends_node_and_stage fuel name l d p :
  appends_warnings (node_and_stage fuel name l d p).
Proof.
  unfold node_and_stage.
  apply appends_bind; [apply appends_get_self|intros self].
  apply appends_bind; [apply appends_lift|intros members].
  apply appends_bind.
  - apply appends_for_each. intros and_node [all_of properties].
    destruct and_node as [iri|id|l'].
    + destruct (String.eqb _ _); apply appends_ret.
    + apply appends_bind; [apply appends_constraint_node|intros [s ps]]. apply appends_ret.
    + apply appends_bind; [apply appends_constraint_node|intros [s ps]]. apply appends_ret.
  - intros [all_of properties]. destruct (nonempty all_of); [apply appends_ret|].
    apply appends_bind; [apply appends_warn|intros _]. apply appends_ret.
Qed.

(** ** Node shapes, stage by stage *)

Lemma convert_node_shape_stages fuel shape self self' :
  _convert_node_shape fuel shape self = Done (tt, self') ->
  let g := graph self in
  let name := _get_local_name shape in
  exists properties required s1 definition1 properties1 s2 definition2 properties2 s3,
    for_each (objects g shape (sh "property")) (property_loop_body fuel) (type_entry g shape) self
    = Done ((properties, required), s1)
    /\ match truthy_value g shape (sh "or") with
       | Some shape_or_list =>
           node_or_stage fuel name shape_or_list (shape_header self shape) properties
       | None => ret (shape_header self shape, properties)
       end s1 = Done ((definition1, properties1), s2)
    /\ match truthy_value g shape (sh "and") with
       | Some and_list =>
           node_and_stage fuel name and_list
             (let d := if nonempty properties1
                       then dict_set "properties" (VDict properties1) definition1
                       else definition1 in
              if nonempty required then dict_set "required" (VList (map VStr required)) d
              else d)
             properties1
       | None =>
           ret (let d := if nonempty properties1
                         then dict_set "properties" (VDict properties1) definition1
                         else definition1 in
                if nonempty required then dict_set "required" (VList (map VStr required)) d
                else d, properties1)
       end s2 = Done ((definition2, properties2), s3)
    /\ self' =
       with_definition s3 name
         (let d := if nonempty properties1
                   then dict_set "properties" (VDict properties2) definition2
                   else definition2 in
          if is_closed self shape then dict_set "additionalProperties" (VBool false) d else d)
         (warnings s3).
Proof.
  intros H g name. unfold _convert_node_shape, bind at 1, get_self at 1 in H.
  fold g name in H. unfold type_entry.
  destruct (truthy_value g shape (sh "targetClass")) as [target_class|];
    cbv beta iota zeta in H |- *.
  all: apply bind_done in H as [[properties required] [s1 [Hloop H]]].
  all: apply bind_done in H as [[definition1 properties1] [s2 [Hor H]]].
  all: apply bind_done in H as [[definition2 properties2] [s3 [Hand H]]].
  all: exists properties, required, s1, definition1, properties1, s2, definition2,
         properties2, s3.
  all: (split; [exact Hloop|]); (split; [exact Hor|]); (split; [exact Hand|]).
  all: unfold store_definition in H; injection H as <-; unfold with_definition, is_closed.
  all: destruct (truthy_str (_get_literal_value self shape (sh "closed"))) as [c|];
    [destruct (String.eqb (PyStr.lower c) "true")|]; reflexivity.
Qed.

(** ** The definition of a node shape *)

Ltac split_ifs :=
  repeat match goal with |- context [if ?b then _ else _] => destruct b end.

Lemma dict_has_set_kept {V} k key (v : V) d :
  dict_has k d = true -> dict_has k (dict_set key v d) = true.
Proof.
  unfold dict_has. destruct (String.eqb_spec k key) as [->|N].
  - now rewrite dict_get_set_same.
  - now rewrite dict_get_set_other.
Qed.

Lemma node_or_stage_definition fuel name l d p self d' p' self' :
  node_or_stage fuel name l d p self = Done ((d', p'), self') ->
  forall k, k <> "anyOf" -> dict_get k d' = dict_get k d.
Proof.
  unfold node_or_stage. intros H k Hk.
  apply bind_done in H as [s0 [s1 [_ H]]].
  apply bind_done in H as [alts [s2 [_ H]]].
  apply bind_done in H as [[any_of discovered] [s3 [_ H]]].
  destruct (nonempty any_of).
  - injection H as <- _ _. now apply dict_get_set_other.
  - apply bind_done in H as [u [s4 [_ H]]]. now injection H as <- _ _.
Qed.

Lemma shape_header_lookups self shape :
  dict_get "type" (shape_header self shape) = Some (VStr "object")
  /\ dict_get "$comment" (shape_header self shape)
     = Some (VStr ("Generated from SHACL shape " ++ str shape))
  /\ dict_get "title" (shape_header self shape) = Some (VStr (_get_local_name shape))
  /\ dict_get "description" (shape_header self shape)
     = option_map VStr (shape_description self shape)
  /\ (forall k, In k body_keys -> dict_get k (shape_header self shape) = None).
Proof.
  unfold shape_header, shape_description.
  destruct (truthy_str (_get_literal_value self shape (sh "description"))) as [d|];
    [|destruct (truthy_str (_get_literal_value self shape (sh "name"))) as [n|]];
    repeat split; try reflexivity;
    intros k Hk; cbn in Hk; decompose [or] Hk; subst; try reflexivity; contradiction.
Qed.

(** The definition a node shape leaves behind: the header, and then the
    keys of [body_keys] only.  The conversion stores it under the local
    name of the shape and appends diagnostics; nothing else changes. *)
Lemma node_shape_effect fuel shape self self' :
  _convert_node_shape fuel shape self = Done (tt, self') ->
  exists definition ws,
    self' = with_definition self (_get_local_name shape) definition (warnings self ++ ws)
    /\ (forall k, ~ In k body_keys ->
                  dict_get k definition = dict_get k (shape_header self shape))
    /\ dict_get "additionalProperties" definition
       = (if is_closed self shape then Some (VBool false) else None).
Proof.
  intros H. apply convert_node_shape_stages in H.
  destruct H as (properties & required & s1 & definition1 & properties1 & s2 & definition2
                 & properties2 & s3 & Hloop & Hor & Hand & ->).
  apply (appends_for_each _ _ (appends_property_loop_body fuel)) in Hloop as [ws1 ->].
  assert (exists ws2, s2 = with_warnings self (warnings self ++ ws2)
          /\ forall k, k <> "anyOf" ->
                       dict_get k definition1 = dict_get k (shape_header self shape))
    as [ws2 [-> K1]].
  { destruct (truthy_value (graph self) shape (sh "or")) as [ol|].
    - pose proof (node_or_stage_definition _ _ _ _ _ _ _ _ _ Hor) as K.
      apply appends_node_or_stage in Hor as [ws ->].
      exists (ws1 ++ ws)%list. cbn [warnings with_warnings]. now rewrite app_assoc.
    - injection Hor as <- _ <-. exists ws1. split; reflexivity. }
  assert (exists ws3, s3 = with_warnings self (warnings self ++ ws3)
          /\ forall k, k <> "allOf" -> k <> "properties" -> k <> "required" ->
                       dict_get k definition2 = dict_get k definition1)
    as [ws3 [-> K2]].
  { destruct (truthy_value (graph self) shape (sh "and")) as [al|].
    - pose proof (node_and_stage_definition _ _ _ _ _ _ _ _ _ Hand) as K.
      apply appends_node_and_stage in Hand as [ws ->].
      exists (ws2 ++ ws)%list. cbn [warnings with_warnings]. rewrite app_assoc.
      split; [reflexivity|]. intros k Ha Hp Hr. rewrite (K k Ha). cbv zeta.
      split_ifs; now rewrite ?dict_get_set_other.
    - injection Hand as <- _ <-. exists ws2. split; [reflexivity|].
      intros k Ha Hp Hr. cbv zeta. split_ifs; now rewrite ?dict_get_set_other. }
  pose proof (shape_header_lookups self shape) as (_ & _ & _ & _ & Hbody).
  eexists. exists ws3. split; [reflexivity|]. split.
  - intros k Hk. cbv zeta.
    assert (forall key, In key body_keys -> k <> key) as N by (intros key Hin ->; auto).
    assert (dict_get k definition2 = dict_get k (shape_header self shape)) as E
        by (rewrite K2, K1 by (apply N; simpl; tauto); reflexivity).
    split_ifs; rewrite ?dict_get_set_other by (apply N; simpl; tauto); exact E.
  - cbv zeta. destruct (is_closed self shape); [apply dict_get_set_same|].
    assert (dict_get "additionalProperties" definition2 = None) as E
        by (rewrite K2, K1 by discriminate; apply Hbody; simpl; tauto).
    split_ifs; rewrite ?dict_get_set_other by discriminate; exact E.
Qed.

(** ** The properties and the required list of a node shape *)

Lemma cardinality_required_only self ps d d1 :
  cardinality self ps d = Some (d1, true) ->
  exists s n,
    _get_literal_value self ps (sh "minCount") = Some s
    /\ PyNum.py_int s = Some n /\ 1 <= n.
Proof.
  unfold cardinality.
  destruct (_get_literal_value self ps (sh "minCount")) as [s|]; cbn [int_of].
  - destruct (PyNum.py_int s) as [n|] eqn:E; [|discriminate].
    destruct (int_of (_get_literal_value self ps (sh "maxCount"))) as [ma|]; [|discriminate].
    intros H. exists s, n. split; [reflexivity|]. split; [exact E|].
    apply Z.leb_le.
    destruct (gt_one ma); [|destruct (gt_one (Some n))]; now injection H as _ ->.
  - destruct (int_of (_get_literal_value self ps (sh "maxCount"))) as [ma|]; [|discriminate].
    destruct (gt_one ma); cbn [gt_one]; discriminate.
Qed.

(** One round of the loop over [sh:property]: the property is entered
    under its name or nothing is; a name is appended to [required] only for
    a property with a minimum count of one or more. *)
Lemma property_loop_body_cases fuel ps properties required properties' required' self self' :
  property_loop_body fuel ps (properties, required) self
  = Done ((properties', required'), self') ->
  (properties' = properties
   \/ exists path d, truthy_value (graph self) ps (sh "path") = Some path
                     /\ properties' = dict_set (_get_property_name self path) (VDict d) properties)
  /\ (required' = required
      \/ exists name, required' = (required ++ [name])%list /\ required_property self ps name).
Proof.
  unfold property_loop_body. intros H.
  apply bind_done in H as [[[pn pd] rq] [s1 [Hc H]]].
  destruct (truthy_value (graph self) ps (sh "path")) as [path|] eqn:Hp.
  - destruct (convert_property_shape_stages _ _ _ _ _ _ Hp Hc)
      as [d0 [self1 [d1 [req [d2 [d3 [d4 [_ [Hcard [_ [_ [_ [_ Hr]]]]]]]]]]]]].
    injection Hr; intros; subst pn pd rq. unfold truthy_str in H.
    destruct (PyStr.truthy (_get_property_name self path)) eqn:T.
    + injection H as <- <- _. split; [right; eauto|].
      destruct req; [right|now left].
      exists (_get_property_name self path). split; [reflexivity|].
      destruct (cardinality_required_only _ _ _ _ Hcard) as [s [n [Hmin [Hint Hn]]]].
      exists path, s, n. repeat split; try assumption.
      intros E. rewrite E in T. discriminate T.
    + injection H as <- <- _. split; now left.
  - unfold _convert_property_shape, bind, get_self in Hc. rewrite Hp in Hc.
    injection Hc as <- _ _ _. injection H as <- <- _. split; now left.
Qed.

Lemma property_loop_cases fuel l : forall properties required properties' required' self self',
  for_each l (property_loop_body fuel) (properties, required) self
  = Done ((properties', required'), self') ->
  (forall k, dict_has k properties = true -> dict_has k properties' = true)
  /\ exists more,
       required' = (required ++ more)%list
       /\ forall name, In name more -> exists ps, In ps l /\ required_property self ps name.
Proof.
  induction l as [|ps l IH]; intros properties required properties' required' self self' H.
  - injection H as <- <- _. split; [auto|]. exists []. split; [now rewrite app_nil_r|].
    intros name [].
  - cbn [for_each] in H. apply bind_done in H as [[p1 r1] [s1 [Hb H]]].
    pose proof (appends_property_loop_body _ _ _ _ _ _ Hb) as [ws ->].
    apply property_loop_body_cases in Hb as [Hp Hr].
    apply IH in H as [Hk [more [-> Hmore]]].
    split.
    + intros k Hin. apply Hk.
      destruct Hp as [->|[path [d [_ ->]]]]; [assumption|now apply dict_has_set_kept].
    + destruct Hr as [->|[name [-> Hreq]]].
      * exists more. split; [reflexivity|].
        intros name Hin. destruct (Hmore name Hin) as [ps' [Hin' Hreq']].
        exists ps'. split; [now right|exact Hreq'].
      * exists (name :: more). split; [now rewrite <- app_assoc|].
        intros name' [<-|Hin].
        -- exists ps. split; [now left|assumption].
        -- destruct (Hmore name' Hin) as [ps' [Hin' Hreq']].
           exists ps'. split; [now right|exact Hreq'].
Qed.

(** *** Merging discovered properties *)

Lemma merge_property_cases props entry :
  merge_property props entry = props
  \/ merge_property props entry = dict_set (fst entry) (snd entry) props
     /\ match dict_get (fst entry) props with
        | Some existing => _is_informative_property_schema existing = false
        | None => True
        end.
Proof.
  unfold merge_property. destruct entry as [name schema]. cbn [fst snd].
  destruct (dict_get name props) as [existing|]; [|now right].
  destruct (_is_informative_property_schema existing); cbn [negb andb]; [now left|].
  destruct (_is_informative_property_schema schema); [now right|now left].
Qed.

Lemma merge_property_keeps props entry k e :
  dict_get k props = Some e -> _is_informative_property_schema e = true ->
  dict_get k (merge_property props entry) = Some e.
Proof.
  intros Hk He. destruct (merge_property_cases props entry) as [->|[-> Hn]]; [assumption|].
  destruct (String.eqb_spec k (fst entry)) as [E|N].
  - subst k. rewrite Hk in Hn. congruence.
  - now rewrite dict_get_set_other.
Qed.

Lemma merge_property_has props entry k :
  dict_has k props = true -> dict_has k (merge_property props entry) = true.
Proof.
  intros H. destruct (merge_property_cases props entry) as [->|[-> _]]; [assumption|].
  now apply dict_has_set_kept.
Qed.

Lemma merge_all_keeps l : forall props k e,
  dict_get k props = Some e -> _is_informative_property_schema e = true ->
  dict_get k (fold_left merge_property l props) = Some e.
Proof.
  induction l as [|entry l IH]; intros props k e Hk He; [assumption|].
  cbn [fold_left]. apply IH; [|assumption]. now apply merge_property_keeps.
Qed.

Lemma merge_all_has l : forall props k,
  dict_has k props = true -> dict_has k (fold_left merge_property l props) = true.
Proof.
  induction l as [|entry l IH]; intros props k H; [assumption|].
  cbn [fold_left]. apply IH. now apply merge_property_has.
Qed.

(** The node-level [sh:or] merges a list of discovered properties into
    the properties of the shape. *)
Lemma node_or_stage_properties fuel name l d p self d' p' self' :
  node_or_stage fuel name l d p self = Done ((d', p'), self') ->
  exists discovered, p' = fold_left merge_property discovered p.
Proof.
  unfold node_or_stage. intros H.
  apply bind_done in H as [s0 [s1 [_ H]]].
  apply bind_done in H as [alts [s2 [_ H]]].
  apply bind_done in H as [[any_of discovered] [s3 [_ H]]].
  exists discovered. destruct (nonempty any_of).
  - now injection H as _ <- _.
  - apply bind_done in H as [u [s4 [_ H]]]. now injection H as _ <- _.
Qed.

Lemma for_each_merges {A B} (l : list A) (body : A -> B * pydict -> M (B * pydict)) :
  (forall x b p s b' p' s',
      body x (b, p) s = Done ((b', p'), s') ->
      exists found, p' = fold_left merge_property found p) ->
  forall b p s b' p' s',
    for_each l body (b, p) s = Done ((b', p'), s') ->
    exists discovered, p' = fold_left merge_property discovered p.
Proof.
  intros Hbody. induction l as [|x l IH]; intros b p s b' p' s' H.
  - injection H as _ <- _. now exists [].
  - cbn [for_each] in H. apply bind_done in H as [[b1 p1] [s1 [Hx H]]].
    apply Hbody in Hx as [found ->]. apply IH in H as [discovered ->].
    exists (found ++ discovered)%list. now rewrite fold_left_app.
Qed.

(** So does the node-level [sh:and], member by member. *)
Lemma node_and_stage_properties fuel name l d p self d' p' self' :
  node_and_stage fuel name l d p self = Done ((d', p'), self') ->
  exists discovered, p' = fold_left merge_property discovered p.
Proof.
  unfold node_and_stage. intros H.
  apply bind_done in H as [s0 [s1 [_ H]]].
  apply bind_done in H as [members [s2 [_ H]]].
  apply bind_done in H as [[all_of props] [s3 [Hloop H]]].
  assert (p' = props) as ->.
  { destruct (nonempty all_of).
    - now injection H as _ <- _.
    - apply bind_done in H as [u [s4 [_ H]]]. now injection H as _ <- _. }
  apply for_each_merges in Hloop; [assumption|].
  intros m a q s a' q' s' Hm.
  destruct m as [iri|id|lit].
  - destruct (String.eqb _ _); injection Hm as _ <- _; now exists [].
  - apply bind_done in Hm as [[sc ps] [s'' [_ Hm]]]. injection Hm as _ <- _. now exists ps.
  - apply bind_done in Hm as [[sc ps] [s'' [_ Hm]]]. injection Hm as _ <- _. now exists ps.
Qed.

Lemma dict_keys_set {V} k (v : V) d :
  dict_keys (dict_set k v d) = if dict_has k d then dict_keys d else (dict_keys d ++ [k])%list.
Proof.
  unfold dict_keys, dict_has. induction d as [|[k' v'] d IH]; [reflexivity|].
  cbn [dict_set dict_get map]. destruct (String.eqb k' k); [reflexivity|].
  cbn [map]. rewrite IH. now destruct (dict_get k d).
Qed.

(** X1.  Converting a node shape writes one definition, under the local
    name of the shape: in place when that name is defined already, else
    after the definitions there are.  Every other definition is kept, the
    diagnostics recorded before are kept and new ones come after them, and
    the graph, the naming strategy, the context terms and the class map are
    not touched. *)
Theorem node_shape_writes_one_definition (fuel : nat) (shape : node)
  (self self' : Converter) :
  _convert_node_shape fuel shape self = Done (tt, self') ->
  let name := _get_local_name shape in
  graph self' = graph self
  /\ naming self' = naming self
  /\ iri_to_term self' = iri_to_term self
  /\ class_to_shape_map self' = class_to_shape_map self
  /\ (exists ws, warnings self' = warnings self ++ ws)%list
  /\ (exists definition, dict_get name (definitions self') = Some (VDict definition))
  /\ (forall k, k <> name -> dict_get k (definitions self') = dict_get k (definitions self))
  /\ dict_keys (definitions self')
     = (if dict_has name (definitions self) then dict_keys (definitions self)
        else dict_keys (definitions self) ++ [name])%list.
Proof.
  intros H name. apply node_shape_effect in H as [definition [ws [-> _]]].
  fold name. cbn [with_definition graph naming iri_to_term class_to_shape_map warnings
                  definitions].
  repeat split.
  - now exists ws.
  - exists definition. apply dict_get_set_same.
  - intros k Hk. now apply dict_get_set_other.
  - apply dict_keys_set.
Qed.

Lemma node_shape_writes_one_definition_witness :
  let self := converter_of party_graph "local" in
  let self' := party_converted in
  let name := _get_local_name (ex "PartyShape") in
  graph self' = graph self
  /\ naming self' = naming self
  /\ iri_to_term self' = iri_to_term self
  /\ class_to_shape_map self' = class_to_shape_map self
  /\ (exists ws, warnings self' = warnings self ++ ws)%list
  /\ (exists definition, dict_get name (definitions self') = Some (VDict definition))
  /\ (forall k, k <> name -> dict_get k (definitions self') = dict_get k (definitions self))
  /\ dict_keys (definitions self')
     = (if dict_has name (definitions self) then dict_keys (definitions self)
        else dict_keys (definitions self) ++ [name])%list.
Proof.
  apply (node_shape_writes_one_definition 1 (ex "PartyShape")). reflexivity.
Defined.

(** X2.  The definition of a node shape is an object titled with the
    local name of the shape, never with its [sh:name]; its [$comment]
    names the IRI of the shape; its description is the [sh:description]
    of the shape, else its [sh:name], and is absent when neither is there
    (or truthy). *)
Theorem node_shape_definition_header (fuel : nat) (shape : node) (self self' : Converter) :
  _convert_node_shape fuel shape self = Done (tt, self') ->
  exists definition,
    dict_get (_get_local_name shape) (definitions self') = Some (VDict definition)
    /\ dict_get "type" definition = Some (VStr "object")
    /\ dict_get "title" definition = Some (VStr (_get_local_name shape))
    /\ dict_get "$comment" definition
       = Some (VStr ("Generated from SHACL shape " ++ str shape))
    /\ dict_get "description" definition
       = option_map VStr (shape_description self shape).
Proof.
  intros H. apply node_shape_effect in H as [definition [ws [-> [K _]]]].
  pose proof (shape_header_lookups self shape) as (Ht & Hc & Hti & Hd & _).
  exists definition. cbn [with_definition definitions]. rewrite dict_get_set_same.
  assert (forall k, existsb (String.eqb k) body_keys = false -> ~ In k body_keys) as N.
  { intros k Hk Hin.
    assert (existsb (String.eqb k) body_keys = true) as C; [|congruence].
    apply existsb_exists. exists k. split; [assumption|apply String.eqb_refl]. }
  repeat split; rewrite K by (apply N; reflexivity); assumption.
Qed.

Lemma node_shape_definition_header_witness :
  exists definition,
    dict_get "PartyShape" (definitions party_converted) = Some (VDict definition)
    /\ dict_get "type" definition = Some (VStr "object")
    /\ dict_get "title" definition = Some (VStr "PartyShape")
    /\ dict_get "$comment" definition
       = Some (VStr "Generated from SHACL shape http://example.org/PartyShape")
    /\ dict_get "description" definition = None.
Proof.
  apply (node_shape_definition_header 1 (ex "PartyShape") (converter_of party_graph "local")).
  reflexivity.
Defined.

(** X3.  A definition says [additionalProperties: false] exactly when the
    shape has a truthy [sh:closed] whose string is [true] in any letter
    case; otherwise it has no [additionalProperties] key at all. *)
Theorem closed_shape_forbids_additional_properties (fuel : nat) (shape : node)
  (self self' : Converter) :
  _convert_node_shape fuel shape self = Done (tt, self') ->
  exists definition,
    dict_get (_get_local_name shape) (definitions self') = Some (VDict definition)
    /\ dict_get "additionalProperties" definition
       = (if is_closed self shape then Some (VBool false) else None).
Proof.
  intros H. apply node_shape_effect in H as [definition [ws [-> [_ K]]]].
  exists definition. cbn [with_definition definitions]. now rewrite dict_get_set_same.
Qed.

Lemma closed_shape_forbids_additional_properties_witness :
  exists definition,
    dict_get "AddressShape" (definitions address_converted) = Some (VDict definition)
    /\ dict_get "additionalProperties" definition = Some (VBool false).
Proof.
  apply (closed_shape_forbids_additional_properties 1 (ex "AddressShape")
           (converter_of address_graph "curie")).
  reflexivity.
Defined.

Lemma property_loop_keeps_key fuel k l : forall properties required properties' required' self self',
  (forall ps path, In ps l -> truthy_value (graph self) ps (sh "path") = Some path ->
                   _get_property_name self path <> k) ->
  for_each l (property_loop_body fuel) (properties, required) self
  = Done ((properties', required'), self') ->
  dict_get k properties' = dict_get k properties.
Proof.
  induction l as [|ps l IH]; intros properties required properties' required' self self' Hn H.
  - now injection H as <- _ _.
  - cbn [for_each] in H. apply bind_done in H as [[p1 r1] [s1 [Hb H]]].
    pose proof (appends_property_loop_body _ _ _ _ _ _ Hb) as [ws ->].
    apply property_loop_body_cases in Hb as [Hp _].
    apply IH in H.
    + rewrite H. destruct Hp as [->|[path [d [Hpath ->]]]]; [reflexivity|].
      apply dict_get_set_other. intros E. symmetry in E. revert E.
      apply (Hn ps path); [now left|assumption].
    + intros ps' path Hin. apply (Hn ps' path). now right.
Qed.

(** X4.  A node shape with a truthy [sh:targetClass] has an [@type]
    property, and [@type] is the first name of its [required] list.
    Unless a property of the shape resolves to the name [@type] itself, the
    property is the constant string that is the local name of the class. *)
Theorem target_class_gives_type_property (fuel : nat) (shape target_class : node)
  (self self' : Converter) :
  truthy_value (graph self) shape (sh "targetClass") = Some target_class ->
  _convert_node_shape fuel shape self = Done (tt, self') ->
  exists definition properties others,
    dict_get (_get_local_name shape) (definitions self') = Some (VDict definition)
    /\ dict_get "properties" definition = Some (VDict properties)
    /\ dict_has "@type" properties = true
    /\ ((forall ps path,
            In ps (objects (graph self) shape (sh "property")) ->
            truthy_value (graph self) ps (sh "path") = Some path ->
            _get_property_name self path <> "@type") ->
        dict_get "@type" properties
        = Some (VDict [("type", VStr "string");
                       ("const", VStr (_get_local_name target_class));
                       ("description",
                        VStr ("Type identifier for " ++ _get_local_name target_class))]))
    /\ dict_get "required" definition = Some (VList (VStr "@type" :: map VStr others)).
Proof.
  intros Ht H. apply convert_node_shape_stages in H.
  destruct H as (properties & required & s1 & definition1 & properties1 & s2 & definition2
                 & properties2 & s3 & Hloop & Hor & Hand & ->).
  unfold type_entry in Hloop. rewrite Ht in Hloop.
  pose proof (fun Hn => property_loop_keeps_key _ "@type" _ _ _ _ _ _ _ Hn Hloop) as Keep.
  apply property_loop_cases in Hloop as [Has [more [-> _]]].
  specialize (Has "@type" eq_refl).
  assert (exists found, properties1 = fold_left merge_property found properties) as [found1 ->].
  { destruct (truthy_value (graph self) shape (sh "or")).
    - now apply node_or_stage_properties in Hor.
    - injection Hor as _ <- _. now exists []. }
  set (properties1 := fold_left merge_property found1 properties) in *.
  assert (dict_has "@type" properties1 = true) as Has1 by now apply merge_all_has.
  assert (nonempty properties1 = true) as Hne.
  { destruct properties1; [discriminate Has1|reflexivity]. }
  rewrite Hne in *. cbn [nonempty app] in Hand.
  assert ((exists found, properties2 = fold_left merge_property found properties1)
          /\ dict_get "required" definition2
             = Some (VList (map VStr ("@type" :: more)))) as [[found2 ->] Hreq].
  { destruct (truthy_value (graph self) shape (sh "and")).
    - split; [now apply node_and_stage_properties in Hand|].
      rewrite (node_and_stage_definition _ _ _ _ _ _ _ _ _ Hand) by discriminate.
      apply dict_get_set_same.
    - injection Hand as <- <- _. split; [now exists []|]. apply dict_get_set_same. }
  eexists. exists (fold_left merge_property found2 properties1), more.
  cbn [with_definition definitions]. rewrite dict_get_set_same.
  split; [reflexivity|]. split; [|split; [|split]].
  - destruct (is_closed self shape);
      rewrite ?dict_get_set_other by discriminate; apply dict_get_set_same.
  - now apply merge_all_has.
  - intros Hn. specialize (Keep Hn). apply merge_all_keeps; [|reflexivity].
    subst properties1. apply merge_all_keeps; [|reflexivity]. exact Keep.
  - destruct (is_closed self shape);
      rewrite ?dict_get_set_other by discriminate; exact Hreq.
Qed.

Lemma target_class_gives_type_property_witness :
  exists definition properties others,
    dict_get "PartyShape" (definitions party_converted) = Some (VDict definition)
    /\ dict_get "properties" definition = Some (VDict properties)
    /\ dict_has "@type" properties = true
    /\ ((forall ps path,
            In ps (objects party_graph (ex "PartyShape") (sh "property")) ->
            truthy_value party_graph ps (sh "path") = Some path ->
            _get_property_name (converter_of party_graph "local") path <> "@type") ->
        dict_get "@type" properties
        = Some (VDict [("type", VStr "string");
                       ("const", VStr "Party");
                       ("description", VStr "Type identifier for Party")]))
    /\ dict_get "required" definition = Some (VList (VStr "@type" :: map VStr others)).
Proof.
  apply (target_class_gives_type_property 1 (ex "PartyShape") (ex "Party")
           (converter_of party_graph "local") party_converted); reflexivity.
Defined.

(** X5.  The [required] list of a definition names only [@type], for a
    shape with a target class, and properties whose [sh:minCount] reads as
    an integer of one or more: an optional property is never required. *)
Theorem required_only_with_min_count (fuel : nat) (shape : node) (self self' : Converter)
  (definition : pydict) (required : list pyval) (name : string) :
  _convert_node_shape fuel shape self = Done (tt, self') ->
  dict_get (_get_local_name shape) (definitions self') = Some (VDict definition) ->
  dict_get "required" definition = Some (VList required) ->
  In (VStr name) required ->
  (name = "@type" /\ truthy_value (graph self) shape (sh "targetClass") <> None)
  \/ exists prop_shape,
       In prop_shape (objects (graph self) shape (sh "property"))
       /\ required_property self prop_shape name.
Proof.
  intros H Hdef Hreq Hin. apply convert_node_shape_stages in H.
  destruct H as (properties & required0 & s1 & definition1 & properties1 & s2 & definition2
                 & properties2 & s3 & Hloop & Hor & Hand & ->).
  cbn [with_definition definitions] in Hdef. rewrite dict_get_set_same in Hdef.
  injection Hdef as <-.
  destruct (type_entry (graph self) shape) as [p0 r0] eqn:Et.
  apply property_loop_cases in Hloop as [_ [more [-> Hmore]]].
  assert (dict_get "required" definition1 = None) as Hnone.
  { pose proof (shape_header_lookups self shape) as (_ & _ & _ & _ & Hbody).
    destruct (truthy_value (graph self) shape (sh "or")).
    - rewrite (node_or_stage_definition _ _ _ _ _ _ _ _ _ Hor) by discriminate.
      apply Hbody. simpl; tauto.
    - injection Hor as <- _ _. apply Hbody. simpl; tauto. }
  set (required0 := (r0 ++ more)%list) in *.
  assert (dict_get "required" definition2
          = if nonempty required0 then Some (VList (map VStr required0)) else None) as Hd.
  { destruct (truthy_value (graph self) shape (sh "and")).
    - rewrite (node_and_stage_definition _ _ _ _ _ _ _ _ _ Hand) by discriminate.
      destruct (nonempty required0); [apply dict_get_set_same|].
      now destruct (nonempty properties1); rewrite ?dict_get_set_other by discriminate.
    - injection Hand as <- _ _.
      destruct (nonempty required0); [apply dict_get_set_same|].
      now destruct (nonempty properties1); rewrite ?dict_get_set_other by discriminate. }
  assert (required = map VStr required0) as ->.
  { cbv zeta in Hreq.
    destruct (is_closed self shape); destruct (nonempty properties1);
      rewrite ?dict_get_set_other in Hreq by discriminate;
      rewrite Hd in Hreq; destruct (nonempty required0); congruence. }
  apply in_map_iff in Hin as [n [[= ->] Hin]].
  subst required0. apply in_app_or in Hin as [Hin|Hin].
  - left. unfold type_entry in Et.
    destruct (truthy_value (graph self) shape (sh "targetClass"));
      injection Et as <- <-; [|destruct Hin].
    destruct Hin as [<-|[]]. split; [reflexivity|discriminate].
  - right. now apply Hmore.
Qed.

Lemma required_only_with_min_count_witness :
  ("name" = "@type"
   /\ truthy_value party_graph (ex "PartyShape") (sh "targetClass") <> None)
  \/ exists prop_shape,
       In prop_shape (objects party_graph (ex "PartyShape") (sh "property"))
       /\ required_property (converter_of party_graph "local") prop_shape "name".
Proof.
  apply (required_only_with_min_count 1 (ex "PartyShape") (converter_of party_graph "local")
           party_converted
           [("type", VStr "object");
            ("$comment", VStr "Generated from SHACL shape http://example.org/PartyShape");
            ("title", VStr "PartyShape");
            ("properties",
             VDict [("@type", VDict [("type", VStr "string"); ("const", VStr "Party");
                                     ("description", VStr "Type identifier for Party")]);
                    ("name", VDict [("type", VStr "string")])]);
            ("required", VList [VStr "@type"; VStr "name"])]
           [VStr "@type"; VStr "name"] "name").
  - reflexivity.
  - reflexivity.
  - reflexivity.
  - simpl. tauto.
Defined.

(** X6.  A property schema that carries typing or constraints is never
    replaced by a schema discovered inside the alternatives of a node-level
    [sh:or] or the inline members of a node-level [sh:and]; and no property
    is ever removed by them. *)
Theorem informative_property_survives_merging (fuel : nat) (shape_name : string)
  (list_node : node) (definition properties : pydict) (self : Converter)
  (definition' properties' : pydict) (self' : Converter) :
  node_or_stage fuel shape_name list_node definition properties self
  = Done ((definition', properties'), self')
  \/ node_and_stage fuel shape_name list_node definition properties self
     = Done ((definition', properties'), self') ->
  (forall name schema,
      dict_get name properties = Some schema ->
      _is_informative_property_schema schema = true ->
      dict_get name properties' = Some schema)
  /\ (forall name, dict_has name properties = true -> dict_has name properties' = true).
Proof.
  intros H.
  assert (exists discovered, properties' = fold_left merge_property discovered properties)
    as [discovered ->].
  { destruct H as [H|H].
    - now apply node_or_stage_properties in H.
    - now apply node_and_stage_properties in H. }
  split.
  - intros name schema. apply merge_all_keeps.
  - intros name. apply merge_all_has.
Qed.

(** ** The class map *)

Lemma find_first_app {A} (f : A -> bool) (l1 l2 : list A) :
  find f (l1 ++ l2) = match find f l1 with Some x => Some x | None => find f l2 end.
Proof.
  induction l1 as [|x l1 IH]; [reflexivity|]. cbn [app find]. now destruct (f x).
Qed.

(** What [_build_class_to_shape_map] does to the converter. *)
Lemma build_class_map_effect (node_shapes : list node) (self : Converter) :
  exists self',
    _build_class_to_shape_map node_shapes self = Done (tt, self')
    /\ graph self' = graph self
    /\ definitions self' = definitions self
    /\ warnings self' = warnings self
    /\ forall c,
         dict_get c (class_to_shape_map self')
         = match find (targets (graph self) c) (rev node_shapes) with
           | Some shape => Some (_get_local_name shape)
           | None => dict_get c (class_to_shape_map self)
           end.
Proof.
  unfold _build_class_to_shape_map. revert self.
  induction node_shapes as [|shape l IH]; intros self.
  - exists self. repeat split; reflexivity.
  - cbn [for_each]. unfold bind at 1. unfold bind at 1, get_self at 1.
    assert (exists s1,
      match truthy_value (graph self) shape (sh "targetClass") with
      | Some target_class => map_class (str target_class) (_get_local_name shape)
      | None => ret tt
      end self = Done (tt, s1)
      /\ graph s1 = graph self /\ definitions s1 = definitions self
      /\ warnings s1 = warnings self
      /\ forall c, dict_get c (class_to_shape_map s1)
                   = if targets (graph self) c shape then Some (_get_local_name shape)
                     else dict_get c (class_to_shape_map self)) as [s1 (E & Hg & Hd & Hw & Hc)].
    { unfold targets.
      destruct (truthy_value (graph self) shape (sh "targetClass")) as [tc|].
      - eexists. split; [reflexivity|]. cbn [graph definitions warnings class_to_shape_map].
        repeat split. intros c. destruct (String.eqb_spec (str tc) c) as [->|N].
        + apply dict_get_set_same.
        + apply dict_get_set_other. congruence.
      - exists self. repeat split; reflexivity. }
    rewrite E. destruct (IH s1) as [self' (E' & Hg' & Hd' & Hw' & Hc')].
    exists self'. split; [exact E'|]. repeat split; try congruence.
    intros c. rewrite Hc', Hg. cbn [rev]. rewrite find_first_app. cbn [find].
    destruct (find (targets (graph self) c) (rev l)); [reflexivity|].
    rewrite Hc. now destruct (targets (graph self) c shape).
Qed.

(** X7.  [_build_class_to_shape_map] always returns.  It maps the string
    of a class to the local name of the last node shape, in the order of
    the list, whose first [sh:targetClass] is truthy and has that string;
    a class no shape of the list targets keeps the entry it had.  The
    graph, the definitions and the diagnostics are not touched. *)
Theorem class_map_last_shape_wins (node_shapes : list node) (self : Converter) :
  exists self',
    _build_class_to_shape_map node_shapes self = Done (tt, self')
    /\ graph self' = graph self
    /\ definitions self' = definitions self
    /\ warnings self' = warnings self
    /\ forall c,
         dict_get c (class_to_shape_map self')
         = match find (targets (graph self) c) (rev node_shapes) with
           | Some shape => Some (_get_local_name shape)
           | None => dict_get c (class_to_shape_map self)
           end.
Proof. apply build_class_map_effect. Qed.

(** ** The document *)

(** A loop over shapes keeps what each round keeps. *)
Lemma for_each_unit_invariant {A} (P : Converter -> Prop) (body : A -> M unit) (l : list A) :
  (forall x s s', In x l -> P s -> body x s = Done (tt, s') -> P s') ->
  forall s s', P s -> for_each l (fun x (_ : unit) => body x) tt s = Done (tt, s') -> P s'.
Proof.
  induction l as [|x l IH]; intros Hb s s' Hs H.
  - injection H as <-. exact Hs.
  - cbn [for_each] in H. apply bind_done in H as [[] [s1 [Hx H]]].
    apply IH with (s := s1); [| |exact H].
    + intros y t t' Hin. apply Hb. now right.
    + apply (Hb x s s1); [now left|exact Hs|exact Hx].
Qed.

Lemma convert_stages fuel self schema self' first rest :
  node_shapes_of (graph self) = first :: rest ->
  convert fuel self = Done (schema, self') ->
  exists s1,
    _build_class_to_shape_map (first :: rest) self = Done (tt, s1)
    /\ for_each (first :: rest) (fun shape (_ : unit) => _convert_node_shape fuel shape) tt s1
       = Done (tt, self')
    /\ _create_main_schema self' = Done schema.
Proof.
  unfold node_shapes_of, convert, bind at 1, get_self at 1. intros -> H.
  cbn [nonempty] in H.
  apply bind_done in H as [[] [s1 [Hb H]]].
  apply bind_done in H as [[] [s2 [Hl H]]].
  apply bind_done in H as [s3 [s4 [[= <- <-] H]]].
  apply lift_done in H as [a [Hs [= <- <-]]].
  exists s1. repeat split; assumption.
Qed.

Lemma node_shape_keeps_titled fuel shape s s' :
  titled_definitions (definitions s) ->
  _convert_node_shape fuel shape s = Done (tt, s') ->
  titled_definitions (definitions s').
Proof.
  intros Ht H. apply node_shape_effect in H as [definition [ws [-> [K _]]]].
  pose proof (shape_header_lookups s shape) as (Hty & _ & Htitle & _ & _).
  cbn [with_definition definitions]. intros k v.
  destruct (String.eqb_spec k (_get_local_name shape)) as [->|N].
  - rewrite dict_get_set_same. intros [= <-]. exists definition.
    split; [reflexivity|].
    assert (forall key, existsb (String.eqb key) body_keys = false -> ~ In key body_keys) as Nb.
    { intros key Hk Hin.
      assert (existsb (String.eqb key) body_keys = true) as C; [|congruence].
      apply existsb_exists. exists key. split; [assumption|apply String.eqb_refl]. }
    repeat split; rewrite K by (apply Nb; reflexivity); try assumption;
      unfold shape_header;
      (destruct (truthy_str (_get_literal_value s shape (sh "description")));
       [|destruct (truthy_str (_get_literal_value s shape (sh "name")))]); reflexivity.
  - rewrite dict_get_set_other by assumption. apply Ht.
Qed.

Lemma node_shape_keeps_defined fuel shape k s s' :
  dict_has k (definitions s) = true ->
  _convert_node_shape fuel shape s = Done (tt, s') ->
  dict_has k (definitions s') = true.
Proof.
  intros Hk H. apply node_shape_effect in H as [definition [ws [-> _]]].
  cbn [with_definition definitions]. now apply dict_has_set_kept.
Qed.

Lemma node_shape_keeps_first fuel shape k s s' :
  (exists d tl, definitions s = (k, VDict d) :: tl) ->
  _convert_node_shape fuel shape s = Done (tt, s') ->
  exists d tl, definitions s' = (k, VDict d) :: tl.
Proof.
  intros [d [tl E]] H. apply node_shape_effect in H as [definition [ws [-> _]]].
  cbn [with_definition definitions]. rewrite E. cbn [dict_set].
  destruct (String.eqb k (_get_local_name shape)); eauto.
Qed.

Lemma node_shape_keeps_graph fuel shape s s' :
  _convert_node_shape fuel shape s = Done (tt, s') -> graph s' = graph s.
Proof. intros H. now apply node_shape_effect in H as [definition [ws [-> _]]]. Qed.

(** After the loop over the shapes every shape has a definition. *)
Lemma shapes_loop_defines fuel l : forall s s',
  for_each l (fun shape (_ : unit) => _convert_node_shape fuel shape) tt s = Done (tt, s') ->
  forall shape, In shape l -> dict_has (_get_local_name shape) (definitions s') = true.
Proof.
  induction l as [|x l IH]; intros s s' H shape Hin; [destruct Hin|].
  cbn [for_each] in H. apply bind_done in H as [[] [s1 [Hx H]]].
  destruct Hin as [<-|Hin]; [|now apply (IH s1 s')].
  apply (for_each_unit_invariant
           (fun t => dict_has (_get_local_name x) (definitions t) = true)
           (_convert_node_shape fuel) l) with (s := s1); [| |exact H].
  - intros y t t' _. apply node_shape_keeps_defined.
  - apply node_shape_effect in Hx as [definition [ws [-> _]]].
    cbn [with_definition definitions]. unfold dict_has. now rewrite dict_get_set_same.
Qed.

Lemma copy_key_get fs s key k :
  dict_get k (copy_key fs s key)
  = match (if String.eqb k key then dict_get key fs else None) with
    | Some v => Some v
    | None => dict_get k s
    end.
Proof.
  unfold copy_key. destruct (String.eqb_spec k key) as [->|N].
  - destruct (dict_get key fs); [apply dict_get_set_same|reflexivity].
  - destruct (dict_get key fs); [now apply dict_get_set_other|reflexivity].
Qed.

(** The root [_create_main_schema] builds from a first definition. *)
Lemma create_main_schema_root self k1 fs tl :
  definitions self = (k1, VDict fs) :: tl ->
  exists schema,
    _create_main_schema self = Done schema
    /\ dict_get "$schema" schema = Some (VStr "http://json-schema.org/draft-07/schema#")
    /\ dict_get "$comment" schema = Some generated_comment
    /\ dict_get "$defs" schema = Some (VDict (definitions self))
    /\ dict_get "type" schema = Some (get_default "type" fs (VStr "object"))
    /\ dict_get "title" schema
       = Some (get_default "title" fs (VStr "Generated JSON Schema from SHACL"))
    /\ dict_get "description" schema
       = Some (get_default "description" fs generated_description)
    /\ dict_get "properties" schema = Some (get_default "properties" fs (VDict []))
    /\ dict_get "required" schema = Some (get_default "required" fs (VList []))
    /\ (forall k, In k copied_keys -> dict_get k schema = dict_get k fs).
Proof.
  intros E. unfold _create_main_schema. rewrite E. eexists. split; [reflexivity|].
  cbn [fold_left]. unfold dict_update. cbn [fold_left fst snd].
  repeat split.
  1-8: rewrite !copy_key_get; cbn; unfold get_default, generated_description;
       repeat match goal with
              | |- context [dict_get ?k ?d] => is_var d; destruct (dict_get k d)
              end;
       reflexivity.
  intros k Hk. cbn in Hk. decompose [or] Hk; subst; try contradiction;
    rewrite !copy_key_get; cbn;
    repeat match goal with
              | |- context [dict_get ?k ?d] => is_var d; destruct (dict_get k d)
              end;
    reflexivity.
Qed.

Lemma init_fresh g naming context self :
  init g naming context = Done self ->
  graph self = g /\ definitions self = [] /\ warnings self = [].
Proof.
  unfold init. destruct (String.eqb naming "context").
  - destruct context as [doc|]; [|discriminate].
    destruct (_load_jsonld_context_inverse doc); try discriminate.
    intros [= <-]. repeat split.
  - intros [= <-]. repeat split.
Qed.

Lemma run_stages fuel g naming context schema ws first rest :
  node_shapes_of g = first :: rest ->
  run fuel g naming context = Done (schema, ws) ->
  exists s1 self',
    graph s1 = g /\ definitions s1 = []
    /\ for_each (first :: rest) (fun shape (_ : unit) => _convert_node_shape fuel shape) tt s1
       = Done (tt, self')
    /\ _create_main_schema self' = Done schema.
Proof.
  intros Hs H. unfold run in H.
  destruct (init g naming context) as [self| |] eqn:Hi; try discriminate.
  apply init_fresh in Hi as (Hg & Hd & _).
  destruct (convert fuel self) as [[schema' self']| |] eqn:Hc; try discriminate.
  injection H as -> _. rewrite <- Hg in Hs.
  apply (convert_stages _ _ _ _ _ _ Hs) in Hc as [s1 (Hb & Hl & Hm)].
  destruct (build_class_map_effect (first :: rest) self) as [s1' (Hb' & Hg' & Hd' & _)].
  rewrite Hb in Hb'. injection Hb' as <-.
  exists s1, self'. repeat split; try assumption; congruence.
Qed.

(** X8.  The document of a graph with node shapes has, under [$defs], a
    definition for every node shape of the graph, under the local name of
    the shape; each is an object titled with that name. *)
Theorem document_defines_every_shape (fuel : nat) (g : Graph) (naming : string)
  (context : option (option pyval)) (schema : pydict) (ws : list string) :
  node_shapes_of g <> [] ->
  run fuel g naming context = Done (schema, ws) ->
  exists defs,
    dict_get "$defs" schema = Some (VDict defs)
    /\ forall shape, In shape (node_shapes_of g) ->
         exists definition,
           dict_get (_get_local_name shape) defs = Some (VDict definition)
           /\ dict_get "title" definition = Some (VStr (_get_local_name shape))
           /\ dict_get "type" definition = Some (VStr "object").
Proof.
  intros Hne H. destruct (node_shapes_of g) as [|first rest] eqn:Hs; [congruence|].
  destruct (run_stages _ _ _ _ _ _ _ _ Hs H) as [s1 [self' (Hg & Hd & Hl & Hm)]].
  pose proof (shapes_loop_defines _ _ _ _ Hl) as Hall.
  assert (titled_definitions (definitions self')) as Ht.
  { apply (for_each_unit_invariant (fun t => titled_definitions (definitions t))
             (_convert_node_shape fuel) (first :: rest)) with (s := s1); [| |exact Hl].
    - intros x t t' _. apply node_shape_keeps_titled.
    - rewrite Hd. intros k v Hk. discriminate Hk. }
  assert (exists d tl, definitions self' = (_get_local_name first, VDict d) :: tl)
    as [d [tl E]].
  { cbn [for_each] in Hl. apply bind_done in Hl as [[] [s2 [Hx Hl]]].
    apply (for_each_unit_invariant
             (fun t => exists d tl, definitions t = (_get_local_name first, VDict d) :: tl)
             (_convert_node_shape fuel) rest) with (s := s2); [| |exact Hl].
    - intros x t t' _. apply node_shape_keeps_first.
    - apply node_shape_effect in Hx as [definition [ws' [-> _]]].
      cbn [with_definition definitions]. rewrite Hd. cbn [dict_set]. eauto. }
  destruct (create_main_schema_root _ _ _ _ E) as [schema' (Hm' & _ & _ & Hdefs & _)].
  rewrite Hm in Hm'. injection Hm' as <-.
  exists (definitions self'). split; [exact Hdefs|].
  intros shape Hin. specialize (Hall shape Hin). unfold dict_has in Hall.
  destruct (dict_get (_get_local_name shape) (definitions self')) as [v|] eqn:Ev;
    [|discriminate].
  destruct (Ht _ _ Ev) as [definition (-> & Hti & Hty & _)].
  exists definition. repeat split; assumption.
Qed.

Lemma document_defines_every_shape_witness :
  exists defs,
    dict_get "$defs" (fst two_shapes_document) = Some (VDict defs)
    /\ forall shape, In shape (node_shapes_of two_shapes_graph) ->
         exists definition,
           dict_get (_get_local_name shape) defs = Some (VDict definition)
           /\ dict_get "title" definition = Some (VStr (_get_local_name shape))
           /\ dict_get "type" definition = Some (VStr "object").
Proof.
  apply (document_defines_every_shape 1 two_shapes_graph "curie" None
           (fst two_shapes_document) (snd two_shapes_document)).
  - discriminate.
  - reflexivity.
Defined.

(** X9.  The root of the document of a graph with node shapes mirrors the
    definition stored under the local name of the first node shape: it is
    an object with that title, with the description, the properties
    (default [{}]), the required list (default [[]]), [additionalProperties],
    [allOf] and [anyOf] of that definition; it never carries [oneOf] or
    [not]; its [$schema] is draft-07 and its [$comment] the generated
    note. *)
Theorem document_root_mirrors_first_shape (fuel : nat) (g : Graph) (naming : string)
  (context : option (option pyval)) (schema : pydict) (ws : list string)
  (first : node) (rest : list node) :
  node_shapes_of g = first :: rest ->
  run fuel g naming context = Done (schema, ws) ->
  exists defs first_definition,
    dict_get "$defs" schema = Some (VDict defs)
    /\ dict_get (_get_local_name first) defs = Some (VDict first_definition)
    /\ dict_get "$schema" schema = Some (VStr "http://json-schema.org/draft-07/schema#")
    /\ dict_get "$comment" schema = Some generated_comment
    /\ dict_get "type" schema = Some (VStr "object")
    /\ dict_get "title" schema = Some (VStr (_get_local_name first))
    /\ dict_get "description" schema
       = Some (get_default "description" first_definition generated_description)
    /\ dict_get "properties" schema
       = Some (get_default "properties" first_definition (VDict []))
    /\ dict_get "required" schema = Some (get_default "required" first_definition (VList []))
    /\ (forall k, In k ["additionalProperties"; "allOf"; "anyOf"] ->
                  dict_get k schema = dict_get k first_definition)
    /\ dict_get "oneOf" schema = None
    /\ dict_get "not" schema = None.
Proof.
  intros Hs H.
  destruct (run_stages _ _ _ _ _ _ _ _ Hs H) as [s1 [self' (Hg & Hd & Hl & Hm)]].
  assert (titled_definitions (definitions self')) as Ht.
  { apply (for_each_unit_invariant (fun t => titled_definitions (definitions t))
             (_convert_node_shape fuel) (first :: rest)) with (s := s1); [| |exact Hl].
    - intros x t t' _. apply node_shape_keeps_titled.
    - rewrite Hd. intros k v Hk. discriminate Hk. }
  assert (exists d tl, definitions self' = (_get_local_name first, VDict d) :: tl)
    as [d [tl E]].
  { cbn [for_each] in Hl. apply bind_done in Hl as [[] [s2 [Hx Hl]]].
    apply (for_each_unit_invariant
             (fun t => exists d tl, definitions t = (_get_local_name first, VDict d) :: tl)
             (_convert_node_shape fuel) rest) with (s := s2); [| |exact Hl].
    - intros x t t' _. apply node_shape_keeps_first.
    - apply node_shape_effect in Hx as [definition [ws' [-> _]]].
      cbn [with_definition definitions]. rewrite Hd. cbn [dict_set]. eauto. }
  destruct (create_main_schema_root _ _ _ _ E)
    as [schema' (Hm' & Hsch & Hcom & Hdefs & Hty & Hti & Hde & Hp & Hr & Hk)].
  rewrite Hm in Hm'. injection Hm' as <-.
  assert (dict_get (_get_local_name first) (definitions self') = Some (VDict d)) as Hfirst.
  { rewrite E. cbn [dict_get]. now rewrite String.eqb_refl. }
  destruct (Ht _ _ Hfirst) as [d' ([= <-] & Htitle & Htype & Hone & Hnot)].
  exists (definitions self'), d.
  unfold get_default in Hty, Hti. rewrite Htype in Hty. rewrite Htitle in Hti.
  repeat split; try assumption.
  - intros k Hin. apply Hk. cbn in *. tauto.
  - rewrite Hk by (cbn; tauto). exact Hone.
  - rewrite Hk by (cbn; tauto). exact Hnot.
Qed.

Lemma document_root_mirrors_first_shape_witness :
  exists defs first_definition,
    dict_get "$defs" (fst two_shapes_document) = Some (VDict defs)
    /\ dict_get "PersonShape" defs = Some (VDict first_definition)
    /\ dict_get "$schema" (fst two_shapes_document)
       = Some (VStr "http://json-schema.org/draft-07/schema#")
    /\ dict_get "$comment" (fst two_shapes_document) = Some generated_comment
    /\ dict_get "type" (fst two_shapes_document) = Some (VStr "object")
    /\ dict_get "title" (fst two_shapes_document) = Some (VStr "PersonShape")
    /\ dict_get "description" (fst two_shapes_document)
       = Some (get_default "description" first_definition generated_description)
    /\ dict_get "properties" (fst two_shapes_document)
       = Some (get_default "properties" first_definition (VDict []))
    /\ dict_get "required" (fst two_shapes_document)
       = Some (get_default "required" first_definition (VList []))
    /\ (forall k, In k ["additionalProperties"; "allOf"; "anyOf"] ->
                  dict_get k (fst two_shapes_document) = dict_get k first_definition)
    /\ dict_get "oneOf" (fst two_shapes_document) = None
    /\ dict_get "not" (fst two_shapes_document) = None.
Proof.
  apply (document_root_mirrors_first_shape 1 two_shapes_graph "curie" None
           (fst two_shapes_document) (snd two_shapes_document)
           (ex "PersonShape") [ex "CompanyShape"; ex "OrderShape"]); reflexivity.
Defined.

(** ** A numeral that does not parse *)

(** When a loop returns, every round of it returned. *)
Lemma for_each_done_each {A S} (P : Converter -> Prop) (body : A -> S -> M S) :
  (forall x acc s r s', P s -> body x acc s = Done (r, s') -> P s') ->
  forall l acc s r s',
    P s -> for_each l body acc s = Done (r, s') ->
    forall x, In x l ->
      exists acc_x s_x r_x s_x', P s_x /\ body x acc_x s_x = Done (r_x, s_x').
Proof.
  intros Hb. induction l as [|y l IH]; intros acc s r s' Hs H x Hin; [destruct Hin|].
  cbn [for_each] in H. apply bind_done in H as [acc1 [s1 [Hy H]]].
  destruct Hin as [<-|Hin].
  - exists acc, s, acc1, s1. now split.
  - apply (IH acc1 s1 r s'); [|assumption|assumption].
    now apply (Hb y acc s acc1 s1).
Qed.

Lemma literal_value_graph s1 s2 ps p :
  graph s1 = graph s2 -> _get_literal_value s1 ps p = _get_literal_value s2 ps p.
Proof. unfold _get_literal_value. now intros ->. Qed.

Lemma cardinality_parses self ps d r p s :
  cardinality self ps d = Some r ->
  p = sh "minCount" \/ p = sh "maxCount" ->
  _get_literal_value self ps p = Some s ->
  PyNum.py_int s <> None.
Proof.
  unfold cardinality. intros H Hp Hs.
  destruct (int_of (_get_literal_value self ps (sh "minCount"))) as [mi|] eqn:Emi;
    [|discriminate].
  destruct (int_of (_get_literal_value self ps (sh "maxCount"))) as [ma|] eqn:Ema;
    [|discriminate].
  destruct Hp as [-> | ->]; rewrite Hs in *; cbn [int_of] in *;
    destruct (PyNum.py_int s); congruence.
Qed.

Lemma set_converted_parses key o conv t t' s :
  set_converted key o conv t = Some t' -> o = Some s -> conv s <> None.
Proof. intros H ->. cbn [set_converted] in H. destruct (conv s); congruence. Qed.

Lemma as_int_parses s : as_int s <> None -> PyNum.py_int s <> None.
Proof. unfold as_int. destruct (PyNum.py_int s); congruence. Qed.

Lemma as_float_parses s : as_float s <> None -> PyNum.py_float s <> None.
Proof. unfold as_float. destruct (PyNum.py_float s); congruence. Qed.

Lemma bounds_on_parses self ps t t' p s :
  bounds_on self ps t = Some t' ->
  _get_literal_value self ps p = Some s ->
  (p = sh "minLength" \/ p = sh "maxLength" -> PyNum.py_int s <> None)
  /\ (In p float_predicates -> PyNum.py_float s <> None).
Proof.
  unfold bounds_on. intros H Hs.
  apply and_then_some in H as [t1 [H1 H]].
  apply and_then_some in H as [t2 [H2 H]].
  apply and_then_some in H as [t3 [H3 H]].
  apply and_then_some in H as [t4 [H4 H]].
  apply and_then_some in H as [t5 [H5 H]].
  apply and_then_some in H as [t6 [H6 _]].
  split.
  - intros [-> | ->]; apply as_int_parses;
      eauto using set_converted_parses.
  - intros Hin. cbn in Hin. decompose [or] Hin; subst; try contradiction;
      apply as_float_parses; eauto using set_converted_parses.
Qed.

(** A property shape with a path whose translation returns has numerals
    that parse. *)
Lemma translated_property_parses fuel ps self path r self' :
  truthy_value (graph self) ps (sh "path") = Some path ->
  _convert_property_shape fuel ps self = Done (r, self') ->
  ~ malformed_numeral self ps.
Proof.
  intros Hp H [p [s [Hs Hbad]]].
  destruct (convert_property_shape_stages _ _ _ _ _ _ Hp H)
    as [d0 [self1 [d1 [req [d2 [d3 [d4 [_ [Hcard [_ [Hb _]]]]]]]]]]].
  unfold bounds_stage in Hb.
  apply (on_target_effect _ bound_keys (bounds_target_keeps self ps)) in Hb as [_ [F _]];
    try (apply not_bound_key; reflexivity).
  unfold bounds_target in F.
  destruct (bounds_on self ps (target_of d2)) as [t'|] eqn:Eb; [|discriminate].
  destruct (bounds_on_parses _ _ _ _ _ _ Eb Hs) as [Hi Hf].
  destruct Hbad as [[Hin Hnone]|[Hin Hnone]].
  - cbn in Hin. decompose [or] Hin; subst; try contradiction.
    + now apply (cardinality_parses _ _ _ _ (sh "minCount") s Hcard); auto.
    + now apply (cardinality_parses _ _ _ _ (sh "maxCount") s Hcard); auto.
    + now apply Hi; auto.
    + now apply Hi; auto.
  - now apply Hf.
Qed.

Lemma malformed_numeral_graph s1 s2 ps :
  graph s1 = graph s2 -> malformed_numeral s1 ps -> malformed_numeral s2 ps.
Proof.
  intros Hg [p [s [Hs Hbad]]]. exists p, s. split; [|exact Hbad].
  now rewrite <- (literal_value_graph s1 s2).
Qed.

(** X10.  One numeral that [int] or [float] rejects, in a cardinality or a
    bound of one property shape with a path, of one node shape, and the
    conversion of the graph does not return: there is no document. *)
Theorem malformed_numeral_fails_conversion (fuel : nat) (self : Converter)
  (shape prop_shape path : node) :
  In shape (node_shapes_of (graph self)) ->
  In prop_shape (objects (graph self) shape (sh "property")) ->
  truthy_value (graph self) prop_shape (sh "path") = Some path ->
  malformed_numeral self prop_shape ->
  returns (convert fuel self) = false.
Proof.
  intros Hshape Hprop Hpath Hbad.
  destruct (convert fuel self) as [[schema self']| |] eqn:Hc; try reflexivity.
  exfalso.
  destruct (node_shapes_of (graph self)) as [|first rest] eqn:Hs; [destruct Hshape|].
  apply (convert_stages _ _ _ _ _ _ Hs) in Hc as [s1 (Hb & Hl & _)].
  destruct (build_class_map_effect (first :: rest) self) as [s1' (Hb' & Hg1 & _)].
  rewrite Hb in Hb'. injection Hb' as <-.
  destruct (for_each_done_each (fun t => graph t = graph self)
              (fun shape (_ : unit) => _convert_node_shape fuel shape)) with
    (l := first :: rest) (acc := tt) (s := s1) (r := tt) (s' := self') (x := shape)
    as [[] [s2 [[] [s2' [Hg2 Hshape2]]]]]; try assumption.
  { intros x [] s [] s' Hg Hx. rewrite <- Hg. now apply node_shape_keeps_graph in Hx. }
  apply convert_node_shape_stages in Hshape2.
  destruct Hshape2 as (properties & required & s3 & _ & _ & _ & _ & _ & _ & Hloop & _).
  rewrite Hg2 in Hloop.
  destruct (type_entry (graph self) shape) as [p0 r0].
  destruct (for_each_done_each (fun t => graph t = graph self) (property_loop_body fuel)) with
    (l := objects (graph self) shape (sh "property")) (acc := (p0, r0)) (s := s2)
    (r := (properties, required)) (s' := s3) (x := prop_shape)
    as [[pa ra] [s4 [[pb rb] [s4' [Hg4 Hbody]]]]]; try assumption.
  { intros x acc s r s' Hg Hx. apply appends_property_loop_body in Hx as [ws ->].
    exact Hg. }
  unfold property_loop_body in Hbody.
  apply bind_done in Hbody as [[[pn pd] rq] [s5 [Hconv _]]].
  rewrite <- Hg4 in Hpath.
  apply (translated_property_parses _ _ _ _ _ _ Hpath Hconv).
  apply (malformed_numeral_graph self); [now symmetry|assumption].
Qed.

Lemma malformed_numeral_fails_conversion_witness :
  returns (convert 3 (converter_of bad_count_graph "curie")) = false.
Proof.
  apply (malformed_numeral_fails_conversion 3 (converter_of bad_count_graph "curie")
           (ex "ItemShape") (BNode "size") (ex "size")).
  - simpl. now left.
  - simpl. tauto.
  - reflexivity.
  - exists (sh "minCount"), "one". split; [reflexivity|].
    left. split; [simpl; tauto|reflexivity].
Defined.

(** X11.  A graph without a subject of type [sh:NodeShape] converts to the
    empty schema, with no diagnostic, whatever else the graph holds and
    for every fuel (no list is walked), whenever the constructor
    returns. *)
Theorem no_node_shape_gives_empty_schema (fuel : nat) (g : Graph) (naming : string)
  (context : option (option pyval)) (self : Converter) :
  node_shapes_of g = [] ->
  init g naming context = Done self ->
  run fuel g naming context = Done (_create_empty_schema, []).
Proof.
  intros Hs Hi. unfold run. rewrite Hi. apply init_fresh in Hi as (Hg & _ & Hw).
  unfold convert, bind, get_self. unfold node_shapes_of in Hs. rewrite Hg, Hs.
  cbn [nonempty ret]. now rewrite Hw.
Qed.

Lemma no_node_shape_gives_empty_schema_witness :
  run 0 qty_graph "curie" None = Done (_create_empty_schema, []).
Proof.
  apply (no_node_shape_gives_empty_schema 0 qty_graph "curie" None
           (converter_of qty_graph "curie")); reflexivity.
Defined.

(** ** The schema before and after the array wrap *)

Lemma in_keys_dec (k : string) (ks : list string) :
  existsb (String.eqb k) ks = false -> ~ In k ks.
Proof.
  intros H Hin. assert (existsb (String.eqb k) ks = true) as C; [|congruence].
  apply existsb_exists. exists k. split; [assumption|apply String.eqb_refl].
Qed.

Ltac not_key := apply in_keys_dec; reflexivity.

(** Before the cardinality stage a schema has keys of [prior_keys]
    only. *)
Lemma prior_schema_keys fuel ps name self d0 self1 k :
  type_stage fuel ps name (describe self ps) self = Done (d0, self1) ->
  ~ In k prior_keys ->
  dict_get k (ref_rewrite d0) = None.
Proof.
  intros Ht Hk.
  assert (k <> "description") as N1 by (intros ->; apply Hk; simpl; tauto).
  assert (k <> "allOf") as N2 by (intros ->; apply Hk; simpl; tauto).
  assert (~ In k type_keys) as N3 by (intros Hin; apply Hk; simpl; tauto).
  destruct (ref_rewrite_cases d0) as [->|[ref [desc [_ ->]]]].
  - apply type_stage_effect in Ht as [_ [K _]]. rewrite K by assumption.
    now apply describe_keys.
  - cbn [dict_get]. destruct (String.eqb_spec "description" k); [congruence|].
    destruct (String.eqb_spec "allOf" k); [congruence|reflexivity].
Qed.

Lemma ref_rewrite_no_siblings d :
  dict_get "$ref" (ref_rewrite d) = None \/ dict_get "description" (ref_rewrite d) = None.
Proof.
  unfold ref_rewrite.
  destruct (dict_get "$ref" d) eqn:R; [|now left].
  destruct (dict_get "description" d) eqn:D; [|now right].
  now left.
Qed.

(** What the cardinality stage leaves: the schema as it was, an array
    whose items are the schema without its description, or an array
    without items. *)
Lemma cardinality_target self ps prior d1 req :
  dict_get "items" prior = None ->
  cardinality self ps prior = Some (d1, req) ->
  (d1 = prior /\ wrapped d1 = false)
  \/ (wrapped d1 = true
      /\ target_of d1 = dict_without "description" prior
      /\ dict_get "$ref" d1 = None)
  \/ (wrapped d1 = false
      /\ dict_get "items" d1 = None
      /\ dict_get "$ref" d1 = None
      /\ forall k, ~ In k ["type"; "description"; "minItems"; "maxItems"] ->
                   dict_get k d1 = None).
Proof.
  intros Hi H. apply cardinality_cases in H as [->|[mi [ma ->]]].
  - left. split; [reflexivity|]. unfold wrapped, dict_has. rewrite Hi. apply andb_false_r.
  - right. rewrite wrap_array_eq.
    destruct (dict_has "type" prior || dict_has "$ref" prior)%bool.
    + left. unfold target_of, wrapped, get_is_str, dict_has.
      destruct (dict_get "description" prior); destruct mi; destruct ma; repeat split.
    + right.
      assert (forall k, ~ In k ["type"; "description"; "minItems"; "maxItems"] ->
                dict_get k ([("type", VStr "array")] ++ []
                            ++ optional_entry "description" (dict_get "description" prior)
                            ++ optional_int "minItems" mi
                            ++ optional_int "maxItems" ma)%list = None) as Kd.
      { intros k Hk.
        assert (forall key, In key ["type"; "description"; "minItems"; "maxItems"] ->
                            String.eqb key k = false) as N.
        { intros key Hin. apply String.eqb_neq. intros ->. auto. }
        destruct (dict_get "description" prior); destruct mi; destruct ma;
          cbn [app optional_entry optional_int dict_get];
          rewrite ?N by (simpl; tauto); reflexivity. }
      assert (dict_get "items" ([("type", VStr "array")] ++ []
                            ++ optional_entry "description" (dict_get "description" prior)
                            ++ optional_int "minItems" mi
                            ++ optional_int "maxItems" ma)%list = None) as Ki
        by (apply Kd; not_key).
      split; [|split; [exact Ki|split; [apply Kd; not_key|exact Kd]]].
      unfold wrapped, dict_has. rewrite Ki. apply andb_false_r.
Qed.

(** The stages of a translation with a path, with what the target is at
    each. *)
Lemma target_before_bounds fuel ps self path r self' :
  truthy_value (graph self) ps (sh "path") = Some path ->
  _convert_property_shape fuel ps self = Done (r, self') ->
  exists d2 d3 d4 req,
    r = (Some (_get_property_name self path), d4, req)
    /\ bounds_on self ps (target_of d2) = Some (target_of d3)
    /\ (forall k, In k bound_keys -> dict_get k (target_of d2) = None)
    /\ (forall k, k <> "$comment" -> dict_get k (target_of d4) = dict_get k (target_of d3))
    /\ wrapped d4 = wrapped d2
    /\ (wrapped d2 = true -> forall k, In k bound_keys -> dict_get k d4 = None).
Proof.
  intros Hp H.
  destruct (convert_property_shape_stages _ _ _ _ _ _ Hp H)
    as [d0 [self1 [d1 [req [d2 [d3 [d4 [Ht [Hcard [Hin [Hb [_ [Hu Hr]]]]]]]]]]]]].
  exists d2, d3, d4, req. split; [exact Hr|].
  assert (forall k, In k bound_keys -> ~ In k prior_keys) as Hprior.
  { intros k Hk. cbn in Hk. decompose [or] Hk; subst; try contradiction; not_key. }
  assert (forall k, In k bound_keys -> dict_get k (ref_rewrite d0) = None) as Hnone.
  { intros k Hk. apply (prior_schema_keys _ _ _ _ _ _ _ Ht). now apply Hprior. }
  assert (dict_get "items" (ref_rewrite d0) = None) as Hitems.
  { apply (prior_schema_keys _ _ _ _ _ _ _ Ht). not_key. }
  assert (forall k, In k bound_keys -> k <> "enum" /\ k <> "description" /\ k <> "items"
                                       /\ k <> "$comment"
                                       /\ ~ In k ["type"; "description"; "minItems"; "maxItems"])
    as Hne.
  { intros k Hk. cbn in Hk. decompose [or] Hk; subst; try contradiction;
      repeat split; try discriminate; not_key. }
  pose proof (in_stage_effect _ _ _ _ _ Hin) as [W1 [T1 K1]].
  assert (on_target (bounds_target self ps) d2 = Done d3) as Hb' by exact Hb.
  apply (on_target_effect _ bound_keys (bounds_target_keeps self ps)) in Hb'
    as [W2 [F [_ Kw]]]; try (apply not_bound_key; reflexivity).
  apply unconvertible_stage_effect in Hu as [_ [W3 [K3 T3]]].
  unfold bounds_target in F.
  destruct (bounds_on self ps (target_of d2)) as [t'|] eqn:Eb; [|discriminate].
  injection F as ->.
  split; [reflexivity|]. split; [|split; [exact T3|split; [congruence|]]].
  - intros k Hk. destruct (Hne k Hk) as (Ne & Nd & Ni & Nc & Nw).
    rewrite T1 by assumption.
    destruct (cardinality_target _ _ _ _ _ Hitems Hcard)
      as [[-> _]|[(_ & -> & _)|(W & _ & _ & Kd)]].
    + unfold target_of.
      assert (wrapped (ref_rewrite d0) = false) as ->.
      { unfold wrapped, dict_has. rewrite Hitems. apply andb_false_r. }
      now apply Hnone.
    + rewrite dict_get_without_other by assumption. now apply Hnone.
    + unfold target_of. rewrite W. now apply Kd.
  - intros W k Hk. destruct (Hne k Hk) as (Ne & Nd & Ni & Nc & Nw).
    rewrite K3 by assumption. rewrite Kw by assumption.
    rewrite K1 by assumption.
    destruct (cardinality_target _ _ _ _ _ Hitems Hcard)
      as [[_ W']|[(W' & _ & _)|(W' & _ & _ & _)]]; try congruence.
    apply cardinality_cases in Hcard as [->|[mi [ma ->]]].
    + now apply Hnone.
    + rewrite wrap_array_eq.
      destruct (dict_has "type" (ref_rewrite d0) || dict_has "$ref" (ref_rewrite d0))%bool;
        destruct (dict_get "description" (ref_rewrite d0)); destruct mi; destruct ma;
        cbn [app optional_entry optional_int dict_get];
        cbn in Hk; decompose [or] Hk; subst; try contradiction; reflexivity.
Qed.

Lemma set_converted_get key o conv t t' :
  set_converted key o conv t = Some t' ->
  dict_get key t' = match o with Some s => conv s | None => dict_get key t end.
Proof.
  unfold set_converted. destruct o as [s|]; [|now intros [= <-]].
  destruct (conv s); [|discriminate]. intros [= <-]. apply dict_get_set_same.
Qed.

(** What [bounds_on] writes under each keyword. *)
Lemma bounds_on_written self ps t t' p key conv :
  bounds_on self ps t = Some t' ->
  In (p, key, conv) bound_keywords ->
  dict_get key t'
  = match and_then (_get_literal_value self ps p) conv with
    | Some v => Some v
    | None => dict_get key t
    end.
Proof.
  unfold bounds_on. intros H Hin.
  apply and_then_some in H as [t1 [H1 H]].
  apply and_then_some in H as [t2 [H2 H]].
  apply and_then_some in H as [t3 [H3 H]].
  apply and_then_some in H as [t4 [H4 H]].
  apply and_then_some in H as [t5 [H5 H]].
  apply and_then_some in H as [t6 [H6 H]].
  assert (forall k, k <> "pattern" -> dict_get k t' = dict_get k t6) as K7.
  { intros k Hk. destruct (truthy_str _); injection H as <-; [|reflexivity].
    now apply dict_get_set_other. }
  pose proof (fun k => set_converted_keeps _ _ _ _ _ k H1) as K1.
  pose proof (fun k => set_converted_keeps _ _ _ _ _ k H2) as K2.
  pose proof (fun k => set_converted_keeps _ _ _ _ _ k H3) as K3.
  pose proof (fun k => set_converted_keeps _ _ _ _ _ k H4) as K4.
  pose proof (fun k => set_converted_keeps _ _ _ _ _ k H5) as K5.
  pose proof (fun k => set_converted_keeps _ _ _ _ _ k H6) as K6.
  assert (forall key0 o (c : string -> option pyval) u u',
            set_converted key0 o c u = Some u' ->
            dict_get key0 u'
            = match and_then o c with Some v => Some v | None => dict_get key0 u end) as Get.
  { intros key0 o c u u' Hset. unfold set_converted in Hset.
    destruct o as [s|]; cbn [and_then]; [|now injection Hset as <-].
    destruct (c s); [|discriminate]. injection Hset as <-. apply dict_get_set_same. }
  apply Get in H1, H2, H3, H4, H5, H6.
  cbn in Hin. decompose [or] Hin; try contradiction;
    match goal with E : (_, _, _) = (_, _, _) |- _ => injection E as <- <- <- end.
  - rewrite K7, K6, K5, K4, K3, K2 by discriminate. exact H1.
  - rewrite K7, K6, K5, K4, K3 by discriminate. rewrite H2, K1 by discriminate. reflexivity.
  - rewrite K7, K6, K5, K4 by discriminate. rewrite H3, K2, K1 by discriminate. reflexivity.
  - rewrite K7, K6, K5 by discriminate. rewrite H4, K3, K2, K1 by discriminate. reflexivity.
  - rewrite K7, K6 by discriminate. rewrite H5, K4, K3, K2, K1 by discriminate. reflexivity.
  - rewrite K7 by discriminate. rewrite H6, K5, K4, K3, K2, K1 by discriminate. reflexivity.
  - assert (dict_get "pattern" t6 = dict_get "pattern" t) as E
        by (rewrite K6, K5, K4, K3, K2, K1 by discriminate; reflexivity).
    unfold truthy_str in H.
    destruct (_get_literal_value self ps (sh "pattern")) as [s|]; cbn [and_then].
    + destruct (PyStr.truthy s); injection H as <-; [apply dict_get_set_same|exact E].
    + injection H as <-. exact E.
Qed.

(** X12.  The bounds of a property land on its target, the items of an
    array that has them and the property schema itself otherwise: under
    each keyword of [bound_keywords] the target holds what the conversion
    of the string of the predicate gives ([float] for the numeric bounds, so
    a float even on an integer property; [int] for the lengths), and
    nothing when the predicate is absent or its value falsy.  An array
    with items carries no bound itself. *)
Theorem bounds_land_on_target (fuel : nat) (prop_shape path : node) (self self' : Converter)
  (name : option string) (schema : pydict) (is_required : bool)
  (p : node) (key : string) (conv : string -> option pyval) :
  truthy_value (graph self) prop_shape (sh "path") = Some path ->
  _convert_property_shape fuel prop_shape self = Done ((name, schema, is_required), self') ->
  In (p, key, conv) bound_keywords ->
  dict_get key (target_of schema) = and_then (_get_literal_value self prop_shape p) conv
  /\ (wrapped schema = true -> dict_get key schema = None).
Proof.
  intros Hp H Hin.
  destruct (target_before_bounds _ _ _ _ _ _ Hp H)
    as (d2 & d3 & d4 & req & [= _ <- _] & Hb & Hnone & T & W & Ktop).
  assert (In key bound_keys) as Hk.
  { cbn in Hin. decompose [or] Hin; try contradiction;
      match goal with E : (_, _, _) = (_, _, _) |- _ => injection E as _ <- _ end;
      simpl; tauto. }
  split.
  - rewrite T by (intros ->; revert Hk; not_key).
    rewrite (bounds_on_written _ _ _ _ _ _ _ Hb Hin), (Hnone key Hk).
    now destruct (and_then _ _).
  - intros Hw. apply Ktop; [congruence|assumption].
Qed.

(** X13.  A bound whose value is falsy (the integer [0], the float [0.0],
    [false], the empty string) leaves no keyword: [sh:minInclusive 0] gives
    no [minimum]. *)
Theorem falsy_bound_is_dropped (fuel : nat) (prop_shape path bound : node)
  (self self' : Converter) (name : option string) (schema : pydict) (is_required : bool)
  (p : node) (key : string) (conv : string -> option pyval) :
  truthy_value (graph self) prop_shape (sh "path") = Some path ->
  _convert_property_shape fuel prop_shape self = Done ((name, schema, is_required), self') ->
  In (p, key, conv) bound_keywords ->
  graph_value (graph self) prop_shape p = Some bound ->
  truthy bound = false ->
  dict_get key (target_of schema) = None /\ dict_get key schema = None.
Proof.
  intros Hp H Hin Hv Hf.
  destruct (target_before_bounds _ _ _ _ _ _ Hp H)
    as (d2 & d3 & d4 & req & [= _ <- _] & Hb & Hnone & T & W & Ktop).
  assert (In key bound_keys) as Hk.
  { cbn in Hin. decompose [or] Hin; try contradiction;
      match goal with E : (_, _, _) = (_, _, _) |- _ => injection E as _ <- _ end;
      simpl; tauto. }
  assert (dict_get key (target_of schema) = None) as Ht.
  { rewrite T by (intros ->; revert Hk; not_key).
    rewrite (bounds_on_written _ _ _ _ _ _ _ Hb Hin), (Hnone key Hk).
    unfold _get_literal_value. now rewrite Hv, Hf. }
  split; [exact Ht|].
  destruct (wrapped schema) eqn:Hw.
  - apply Ktop; [congruence|assumption].
  - unfold target_of in Ht. now rewrite Hw in Ht.
Qed.

Lemma bounds_land_on_target_witness :
  dict_get "minimum" (target_of sizes_schema)
  = and_then (_get_literal_value (converter_of bounds_graph "curie") (BNode "sizes")
                (sh "minInclusive")) as_float
  /\ (wrapped sizes_schema = true -> dict_get "minimum" sizes_schema = None).
Proof.
  apply (bounds_land_on_target 1 (BNode "sizes") (ex "sizes")
           (converter_of bounds_graph "curie") (converter_of bounds_graph "curie")
           (Some "ex:sizes") sizes_schema false).
  - reflexivity.
  - reflexivity.
  - simpl. tauto.
Defined.

Lemma falsy_bound_is_dropped_witness :
  dict_get "minimum" (target_of age_schema) = None /\ dict_get "minimum" age_schema = None.
Proof.
  apply (falsy_bound_is_dropped 1 (BNode "age") (ex "age") (xsd_integer_literal "0" 0)
           (converter_of bounds_graph "curie") (converter_of bounds_graph "curie")
           (Some "ex:age") age_schema false (sh "minInclusive") "minimum" as_float).
  - reflexivity.
  - reflexivity.
  - simpl. tauto.
  - reflexivity.
  - reflexivity.
Defined.

(** ** References and descriptions *)

(** X14.  In the schema of a property a [$ref] never stands beside a
    [description]: the reference moves under [allOf] when the property is
    described; and the items of an array never carry a description, which
    stays on the array. *)
Theorem ref_never_beside_description (fuel : nat) (prop_shape : node)
  (self self' : Converter) (name : option string) (schema : pydict) (is_required : bool) :
  _convert_property_shape fuel prop_shape self = Done ((name, schema, is_required), self') ->
  (dict_get "$ref" schema = None \/ dict_get "description" schema = None)
  /\ forall items,
       dict_get "items" schema = Some (VDict items) -> dict_get "description" items = None.
Proof.
  intros H.
  destruct (truthy_value (graph self) prop_shape (sh "path")) as [path|] eqn:Hp.
  2:{ unfold _convert_property_shape, bind, get_self in H. rewrite Hp in H.
      injection H as _ <- _ _. split; [now left|]. intros items Hi. discriminate Hi. }
  destruct (convert_property_shape_stages _ _ _ _ _ _ Hp H)
    as [d0 [self1 [d1 [req [d2 [d3 [d4 [Ht [Hcard [Hin [Hb [_ [Hu Hr]]]]]]]]]]]]].
  injection Hr as _ <- _.
  assert (dict_get "items" (ref_rewrite d0) = None) as Hitems.
  { apply (prior_schema_keys _ _ _ _ _ _ _ Ht). not_key. }
  destruct (later_stages_keep _ _ _ _ _ _ _ _ _ _ Hin Hb Hu) as [W [T K]].
  assert (forall k, k <> "enum" -> ~ In k bound_keys -> k <> "$comment" ->
                    wrapped d1 = false -> dict_get k schema = dict_get k d1) as Kflat.
  { intros k He Hk Hc Hw. specialize (T k He Hk Hc). unfold target_of in T.
    now rewrite W, Hw in T. }
  destruct (cardinality_target _ _ _ _ _ Hitems Hcard)
    as [[-> Hw]|[(Hw & Ht1 & Hr1)|(Hw & Hi1 & Hr1 & _)]].
  - split.
    + rewrite !Kflat by (assumption || discriminate || not_key).
      apply ref_rewrite_no_siblings.
    + intros items Hi. rewrite Kflat in Hi by (assumption || discriminate || not_key).
      congruence.
  - split.
    + left. rewrite K by (discriminate || not_key). exact Hr1.
    + intros items Hi.
      assert (target_of schema = items) as <-.
      { unfold target_of. now rewrite W, Hw, Hi. }
      rewrite T by (discriminate || not_key). rewrite Ht1.
      apply dict_get_without_same.
  - split.
    + left. rewrite K by (discriminate || not_key). exact Hr1.
    + intros items Hi. rewrite Kflat in Hi by (assumption || discriminate || not_key).
      congruence.
Qed.

Lemma ref_never_beside_description_witness :
  (dict_get "$ref" buyer_schema = None \/ dict_get "description" buyer_schema = None)
  /\ forall items,
       dict_get "items" buyer_schema = Some (VDict items) ->
       dict_get "description" items = None.
Proof.
  apply (ref_never_beside_description 1 (BNode "buyer")
           (converter_of buyer_graph "curie") (converter_of buyer_graph "curie")
           (Some "ex:buyer") buyer_schema false).
  reflexivity.
Defined.

(** ** Alternatives *)

Lemma inline_schema_shapes self c :
  let s := _convert_inline_constraint_to_schema self c in
  s = []
  \/ (exists alts, s = [("anyOf", VList alts)] /\ alts <> []
                   /\ forallb (fun v => is_schema v && negb (bare_any_of v)) alts = true)
  \/ (is_schema (VDict s) = true /\ bare_any_of (VDict s) = false).
Proof.
  cbv zeta. unfold _convert_inline_constraint_to_schema.
  destruct (truthy_value (graph self) c (sh "datatype")) as [dt|].
  { right. right. unfold datatype_schema.
    destruct (node_assoc dt xsd_to_json_format) as [f|]; [destruct (PyStr.truthy f)|];
      split; reflexivity. }
  destruct (truthy_value (graph self) c (sh "nodeKind")) as [nk|].
  { unfold _nodekind_to_schema.
    repeat match goal with |- context [if ?b then _ else _] => destruct b end;
      try (right; right; split; reflexivity);
      right; left; eexists; (split; [reflexivity|]); split; (discriminate || reflexivity). }
  destruct (truthy_value (graph self) c (sh "class")) as [cl|].
  { right. right. destruct (shape_of_class self cl); split; reflexivity. }
  destruct (truthy_value (graph self) c (sh "node")) as [n|].
  { right. right. split; reflexivity. }
  now left.
Qed.

Lemma add_alternative_flat self any_of c :
  forallb (fun v => is_schema v && negb (bare_any_of v)) any_of = true ->
  forallb (fun v => is_schema v && negb (bare_any_of v))
          (add_alternative any_of (_convert_inline_constraint_to_schema self c)) = true.
Proof.
  intros H.
  destruct (inline_schema_shapes self c) as [->|[[alts [-> [_ Ha]]]|[Hs Hb]]].
  - exact H.
  - cbn [add_alternative String.eqb Ascii.eqb Bool.eqb]. rewrite forallb_app. now rewrite H, Ha.
  - assert (add_alternative any_of (_convert_inline_constraint_to_schema self c)
            = (any_of ++ [VDict (_convert_inline_constraint_to_schema self c)])%list) as ->.
    { unfold add_alternative. unfold bare_any_of in Hb. unfold is_schema in Hs.
      destruct (_convert_inline_constraint_to_schema self c) as [|[k v] [|e r]];
        try discriminate; destruct v; try reflexivity.
      now rewrite Hb. }
    rewrite forallb_app. cbn [forallb]. now rewrite H, Hs, Hb.
Qed.

Lemma alternatives_flat self alts : forall acc,
  forallb (fun v => is_schema v && negb (bare_any_of v)) acc = true ->
  forallb (fun v => is_schema v && negb (bare_any_of v))
          (fold_left (fun acc alt_node =>
                        add_alternative acc (_convert_inline_constraint_to_schema self alt_node))
                     alts acc) = true.
Proof.
  induction alts as [|a alts IH]; intros acc Hacc; [exact Hacc|].
  cbn [fold_left]. apply IH. now apply add_alternative_flat.
Qed.

(** X15.  A property-level [sh:or] gives a flat, non-empty [anyOf]: every
    member is a non-empty schema, and none is itself nothing but an [anyOf]
    (the alternatives of a node kind are spliced in).  When no alternative
    converts there is no [anyOf] at all, but a [$comment] and a warning. *)
Theorem or_alternatives_are_flat (fuel : nat) (prop_shape or_list : node)
  (prop_name : string) (prop_def : pydict) (self : Converter)
  (prop_def' : pydict) (self' : Converter) :
  graph_value (graph self) prop_shape (sh "hasValue") = None ->
  truthy_value (graph self) prop_shape (sh "or") = Some or_list ->
  type_stage fuel prop_shape prop_name prop_def self = Done (prop_def', self') ->
  (exists any_of,
      prop_def' = dict_set "anyOf" (VList any_of) prop_def
      /\ self' = self
      /\ any_of <> []
      /\ forallb (fun v => is_schema v && negb (bare_any_of v)) any_of = true)
  \/ (prop_def' = dict_set "$comment" (VStr "sh:or present but could not be converted")
                           prop_def
      /\ self' = with_warnings self
                   (warnings self
                    ++ ["sh:or found in " ++ prop_name
                        ++ " but no convertible alternatives were found"])).
Proof.
  intros Hv Hor H. unfold type_stage, bind at 1, get_self at 1 in H. rewrite Hv, Hor in H.
  apply bind_done in H as [alts [s1 [Hl H]]].
  apply lift_done in Hl as [alts' [_ [= <- <-]]].
  pose proof (alternatives_flat s1 alts [] eq_refl) as Hflat.
  set (any_of := fold_left _ alts []) in *.
  destruct (nonempty any_of) eqn:Hne.
  - injection H as <- <-. left. exists any_of. repeat split; try assumption.
    intros E. rewrite E in Hne. discriminate Hne.
  - right. unfold bind, warn, ret in H. injection H as <- <-. split; reflexivity.
Qed.

Lemma or_alternatives_are_flat_witness :
  (exists any_of,
      choice_typed = dict_set "anyOf" (VList any_of) []
      /\ converter_of choice_graph "curie" = converter_of choice_graph "curie"
      /\ any_of <> []
      /\ forallb (fun v => is_schema v && negb (bare_any_of v)) any_of = true)
  \/ (choice_typed = dict_set "$comment" (VStr "sh:or present but could not be converted") []
      /\ converter_of choice_graph "curie"
         = with_warnings (converter_of choice_graph "curie")
             (warnings (converter_of choice_graph "curie")
              ++ ["sh:or found in " ++ "ex:value"
                  ++ " but no convertible alternatives were found"])).
Proof.
  apply (or_alternatives_are_flat 4 (BNode "v") (BNode "o1") "ex:value" []
           (converter_of choice_graph "curie")); reflexivity.
Defined.

(** ** Reading an RDF list back *)

Lemma list_nodes_loop_reads g head members :
  rdf_list g head members ->
  forall fuel nodes,
    (length members < fuel)%nat ->
    list_nodes_loop fuel g head nodes = Done (nodes ++ members)%list.
Proof.
  induction 1 as [|cell first rest members Hn Hf Hr Ht Hl IH]; intros fuel nodes Hfuel.
  - destruct fuel as [|fuel]; [inversion Hfuel|].
    cbn [list_nodes_loop]. rewrite node_eqb_refl. now rewrite app_nil_r.
  - destruct fuel as [|fuel]; [inversion Hfuel|].
    cbn [list_nodes_loop].
    destruct (node_eqb cell RDF_nil) eqn:E; [apply node_eqb_eq in E; contradiction|].
    rewrite Hf, Hr, Ht. rewrite IH by (cbn [length] in Hfuel; lia).
    now rewrite <- app_assoc.
Qed.

Lemma list_nodes_loop_short g head members :
  rdf_list g head members ->
  forall fuel nodes,
    (fuel <= length members)%nat ->
    list_nodes_loop fuel g head nodes = OutOfFuel.
Proof.
  induction 1 as [|cell first rest members Hn Hf Hr Ht Hl IH]; intros fuel nodes Hfuel.
  - cbn [length] in Hfuel. now replace fuel with O by lia.
  - destruct fuel as [|fuel]; [reflexivity|].
    cbn [list_nodes_loop].
    destruct (node_eqb cell RDF_nil) eqn:E; [apply node_eqb_eq in E; contradiction|].
    rewrite Hf, Hr, Ht. apply IH. cbn [length] in Hfuel. lia.
Qed.

(** X16.  Reading a well-formed RDF list gives its members, in order:
    the walk returns them after one loop test per cell and one for
    [rdf:nil], and not before. *)
Theorem list_walk_reads_members (self : Converter) (head : node) (members : list node)
  (fuel : nat) :
  rdf_list (graph self) head members ->
  _extract_list_nodes fuel self head
  = if (length members <? fuel)%nat then Done members else OutOfFuel.
Proof.
  intros H. unfold _extract_list_nodes.
  destruct (Nat.ltb_spec (length members) fuel) as [Hlt|Hge].
  - now rewrite (list_nodes_loop_reads _ _ _ H).
  - now apply (list_nodes_loop_short _ _ _ H).
Qed.

Lemma two_cell_list_is_list :
  rdf_list two_cell_list_graph (BNode "l1")
    [URIRef "http://example.org/A"; URIRef "http://example.org/B"].
Proof.
  apply (rdf_list_cons _ _ _ (BNode "l2")); try reflexivity; [discriminate|].
  apply (rdf_list_cons _ _ _ RDF_nil); try reflexivity; [discriminate|].
  apply rdf_list_nil.
Qed.

Lemma list_walk_reads_members_witness :
  _extract_list_nodes 3 (converter_of two_cell_list_graph "curie") (BNode "l1")
  = if (length [URIRef "http://example.org/A"; URIRef "http://example.org/B"] <? 3)%nat
    then Done [URIRef "http://example.org/A"; URIRef "http://example.org/B"]
    else OutOfFuel.
Proof.
  apply (list_walk_reads_members (converter_of two_cell_list_graph "curie")).
  exact two_cell_list_is_list.
Defined.

Ltac walk_ends :=
  exists []; cbn [values_of]; rewrite ?app_nil_r; split; reflexivity.

(** The two walks step together. *)
Lemma walks_agree g fuel : forall current nodes result values,
  list_nodes_loop fuel g current nodes = Done result ->
  exists found,
    result = (nodes ++ found)%list
    /\ list_values_loop fuel g current values
       = match values_of found with
         | Some vs => Done (values ++ vs)%list
         | None => Raised ValueError
         end.
Proof.
  induction fuel as [|fuel IH]; intros current nodes result values H; [discriminate H|].
  cbn [list_nodes_loop list_values_loop] in *.
  destruct (node_eqb current RDF_nil).
  { injection H as <-. walk_ends. }
  destruct (graph_value g current RDF_first) as [first|].
  - assert (exists found,
              result = ((nodes ++ [first]) ++ found)%list
              /\ forall values',
                   match graph_value g current RDF_rest with
                   | Some rest =>
                       if truthy rest then list_values_loop fuel g rest values'
                       else Done values'
                   | None => Done values'
                   end
                   = match values_of found with
                     | Some vs => Done (values' ++ vs)%list
                     | None => Raised ValueError
                     end) as [found [-> Hv]].
    { destruct (graph_value g current RDF_rest) as [rest|].
      - destruct (truthy rest).
        + destruct (IH rest (nodes ++ [first])%list result [] H) as [found [-> _]].
          exists found. split; [reflexivity|]. intros values'.
          destruct (IH rest (nodes ++ [first])%list _ values' H) as [found' [E ->]].
          apply app_inv_head in E. now subst found'.
        + injection H as <-. exists []. split; [now rewrite app_nil_r|].
          intros values'. cbn [values_of]. now rewrite app_nil_r.
      - injection H as <-. exists []. split; [now rewrite app_nil_r|].
        intros values'. cbn [values_of]. now rewrite app_nil_r. }
    exists (first :: found). split; [now rewrite <- app_assoc|].
    cbn [values_of]. destruct (list_value_of first) as [vs|]; [|reflexivity].
    rewrite Hv. destruct (values_of found); [now rewrite <- app_assoc|reflexivity].
  - destruct (graph_value g current RDF_rest) as [rest|].
    + destruct (truthy rest).
      * now apply IH.
      * injection H as <-. walk_ends.
    + injection H as <-. walk_ends.
Qed.

(** X17.  The values of a list are its members, converted: when the walk
    over the nodes returns, the walk over the values returns the
    conversion of each member in order (the string of an IRI, the native
    value of a literal, nothing for a blank node), or raises [ValueError]
    when a conversion does. *)
Theorem list_values_are_converted_members (fuel : nat) (self : Converter)
  (list_node : node) (members : list node) :
  _extract_list_nodes fuel self list_node = Done members ->
  _extract_list_values fuel self list_node
  = match values_of members with
    | Some values => Done values
    | None => Raised ValueError
    end.
Proof.
  unfold _extract_list_nodes, _extract_list_values. intros H.
  destruct (walks_agree _ _ _ _ _ [] H) as [found [-> E]]. exact E.
Qed.

Lemma list_values_are_converted_members_witness :
  _extract_list_values 3 (converter_of enum_graph "curie") (BNode "l1")
  = match values_of [xsd_boolean_literal true; xsd_boolean_literal false] with
    | Some values => Done values
    | None => Raised ValueError
    end.
Proof.
  apply (list_values_are_converted_members 3 (converter_of enum_graph "curie") (BNode "l1")).
  reflexivity.
Defined.

(** ** Local names *)

Lemma split_last_spec c s :
  PyStr.contains c s = true ->
  (exists p, s = p ++ String c (PyStr.split_last c s))
  /\ PyStr.contains c (PyStr.split_last c s) = false.
Proof.
  induction s as [|a r IH]; [discriminate|].
  cbn [PyStr.contains PyStr.split_last]. intros H.
  destruct (PyStr.contains c r) eqn:Hr.
  - destruct (IH eq_refl) as [[p Hp] Hn]. split; [|exact Hn].
    exists (String a p). cbn [append]. now rewrite <- Hp.
  - rewrite orb_false_r in H. rewrite H. split; [|exact Hr].
    exists "". apply Ascii.eqb_eq in H. now subst a.
Qed.

(** X18.  The local name of a URI is what follows its last [#]; without a
    [#], what follows its last [/]; without either, the URI itself.  So it
    never contains a [#], and no [/] unless the URI has a [#]; a URI that
    ends in its separator has the empty local name. *)
Theorem local_name_is_last_segment (uri : node) :
  let s := str uri in
  let l := _get_local_name uri in
  (PyStr.contains "#" s = true ->
   (exists p, s = p ++ "#" ++ l) /\ PyStr.contains "#" l = false)
  /\ (PyStr.contains "#" s = false -> PyStr.contains "/" s = true ->
      (exists p, s = p ++ "/" ++ l) /\ PyStr.contains "/" l = false
      /\ PyStr.contains "#" l = false)
  /\ (PyStr.contains "#" s = false -> PyStr.contains "/" s = false -> l = s).
Proof.
  cbv zeta. unfold _get_local_name. split; [|split].
  - intros H. rewrite H. now apply split_last_spec.
  - intros H H0. rewrite H, H0.
    destruct (split_last_spec "/" (str uri) H0) as [[p Hp] Hn].
    split; [now exists p|]. split; [exact Hn|].
    destruct (PyStr.contains "#" (PyStr.split_last "/" (str uri))) eqn:E; [|reflexivity].
    rewrite Hp in H. clear - H E. exfalso. revert H.
    induction p as [|a p IH]; cbn [append PyStr.contains].
    + rewrite E. cbn. discriminate.
    + intros H. apply orb_false_iff in H as [_ H]. now apply IH.
  - intros H H0. now rewrite H, H0.
Qed.

(** ** The JSON-LD context *)

Lemma dict_get_setdefault {V} k k' (v : V) d :
  dict_get k' (dict_setdefault k v d)
  = match dict_get k' d with
    | Some x => Some x
    | None => if String.eqb k k' then Some v else None
    end.
Proof.
  unfold dict_setdefault, dict_has.
  destruct (String.eqb_spec k k') as [->|N].
  - destruct (dict_get k' d) eqn:E; [now rewrite E|]. apply dict_get_set_same.
  - destruct (dict_get k d).
    + now destruct (dict_get k' d).
    + rewrite dict_get_set_other by congruence. now destruct (dict_get k' d).
Qed.

Lemma inverse_fold prefixes entries : forall acc iri,
  dict_get iri
    (fold_left (fun (iri_to_term : dict string) (kv : string * string) =>
                  if PyStr.ends_with_sep (snd kv) then iri_to_term
                  else dict_setdefault (expand prefixes (snd kv)) (fst kv) iri_to_term)
               entries acc)
  = match dict_get iri acc with
    | Some term => Some term
    | None =>
        option_map snd
          (find (fun e => String.eqb (fst e) iri)
                (map (fun kv => (expand prefixes (snd kv), fst kv))
                     (filter (fun kv => negb (PyStr.ends_with_sep (snd kv))) entries)))
    end.
Proof.
  induction entries as [|kv entries IH]; intros acc iri; cbn [fold_left filter].
  - now destruct (dict_get iri acc).
  - rewrite IH. destruct (PyStr.ends_with_sep (snd kv)); cbn [negb]; [reflexivity|].
    cbn [map find fst]. rewrite dict_get_setdefault.
    destruct (dict_get iri acc); [reflexivity|].
    now destruct (String.eqb (expand prefixes (snd kv)) iri).
Qed.

(** X19.  Under [context] naming a path is named by the first term of the
    context, in the order of the document, whose string value is not a
    prefix declaration and expands to the IRI of the path; a path no term
    expands to, or whose first term is empty, gets its local name. *)
Theorem context_naming_first_term_wins (g : Graph) (doc ctx : pydict) (self : Converter)
  (path : node) :
  dict_get "@context" doc = Some (VDict ctx) ->
  init g "context" (Some (Some (VDict doc))) = Done self ->
  _get_property_name self path
  = match first_term ctx (str path) with
    | Some term => if PyStr.truthy term then term else _get_local_name path
    | None => _get_local_name path
    end.
Proof.
  intros Hctx Hi. unfold init in Hi. cbn [String.eqb Ascii.eqb Bool.eqb] in Hi.
  unfold _load_jsonld_context_inverse in Hi. rewrite Hctx in Hi. injection Hi as <-.
  unfold _get_property_name. cbn [naming iri_to_term String.eqb Ascii.eqb Bool.eqb].
  rewrite inverse_fold. cbn [dict_get]. reflexivity.
Qed.

Lemma context_naming_first_term_wins_witness :
  _get_property_name schema_org_converter (URIRef "https://schema.org/name")
  = match first_term [("schema", VStr "https://schema.org/");
                      ("name", VStr "schema:name");
                      ("label", VStr "https://schema.org/name");
                      ("version", VInt 1)]
                     (str (URIRef "https://schema.org/name")) with
    | Some term =>
        if PyStr.truthy term then term else _get_local_name (URIRef "https://schema.org/name")
    | None => _get_local_name (URIRef "https://schema.org/name")
    end.
Proof.
  apply (context_naming_first_term_wins (mkGraph [] [])
           [("@context",
             VDict [("schema", VStr "https://schema.org/");
                    ("name", VStr "schema:name");
                    ("label", VStr "https://schema.org/name");
                    ("version", VInt 1)])]); reflexivity.
Defined.

Example context_naming_schema_org :
  _get_property_name schema_org_converter (URIRef "https://schema.org/name") = "name"
  /\ _get_property_name schema_org_converter (URIRef "https://schema.org/age") = "age"
  /\ _get_property_name schema_org_converter (URIRef "https://schema.org/") = "".
Proof. repeat split; reflexivity. Qed.

(** X20.  The constructor fails exactly when the naming is [context] and
    there is no context path, the document does not load, is not an
    object, or has no object under [@context]; it then raises [ValueError].
    Otherwise the converter starts with the graph, no definitions, no
    diagnostics and an empty class map, and for a naming other than
    [context] the context is not looked at. *)
Theorem constructor_fails_on_bad_context (g : Graph) (naming : string)
  (context : option (option pyval)) :
  (init g naming context = Raised ValueError
   /\ naming = "context"
   /\ forall doc ctx, context = Some (Some (VDict doc)) ->
                      dict_get "@context" doc <> Some (VDict ctx))
  \/ (exists table,
        init g naming context = Done (mkConverter g naming table [] [] [])
        /\ (naming <> "context" -> table = [])
        /\ (naming = "context" ->
            exists doc ctx, context = Some (Some (VDict doc))
                            /\ dict_get "@context" doc = Some (VDict ctx))).
Proof.
  unfold init. destruct (String.eqb_spec naming "context") as [->|N].
  - destruct context as [[[| | | | | | |doc]|]|];
      try (left; repeat split; intros; discriminate).
    cbn [_load_jsonld_context_inverse].
    destruct (dict_get "@context" doc) as [[| | | | | | |ctx]|] eqn:E;
      try (left; repeat split; intros doc' ctx' [= <-]; congruence).
    right. eexists. split; [reflexivity|]. split; [congruence|].
    intros _. exists doc, ctx. now split.
  - right. exists []. split; [reflexivity|]. split; [reflexivity|]. congruence.
Qed.

Lemma informative_property_survives_merging_witness :
  (forall name schema,
      dict_get name [("lat", VDict [("type", VStr "number")])] = Some schema ->
      _is_informative_property_schema schema = true ->
      dict_get name (snd geo_merged) = Some schema)
  /\ (forall name, dict_has name [("lat", VDict [("type", VStr "number")])] = true ->
                   dict_has name (snd geo_merged) = true).
Proof.
  apply (informative_property_survives_merging 3 "GeoShape" (BNode "o1") []
           [("lat", VDict [("type", VStr "number")])] (converter_of geo_graph "local")
           (fst geo_merged) (snd geo_merged) (converter_of geo_graph "local")).
  left. reflexivity.
Defined.

(** ** Inline node constraints *)

Lemma for_each_acc_invariant {A S} (P : S -> Prop) (body : A -> S -> M S) (l : list A) :
  (forall x acc s acc' s', P acc -> body x acc s = Done (acc', s') -> P acc') ->
  forall acc s acc' s', P acc -> for_each l body acc s = Done (acc', s') -> P acc'.
Proof.
  intros Hb. induction l as [|x l IH]; intros acc s acc' s' Hacc H.
  - now injection H as <- _.
  - cbn [for_each] in H. apply bind_done in H as [acc1 [s1 [Hx H]]].
    apply (IH acc1 s1 acc' s'); [|exact H]. now apply (Hb x acc s acc1 s1).
Qed.

Lemma constraint_node_schema_form fuel : forall c self schema props self',
  _convert_node_constraint_node_to_schema fuel c self = Done ((schema, props), self') ->
  constraint_schema_form schema.
Proof.
  destruct fuel as [|fuel]; intros c self schema props self' H; [discriminate H|].
  cbn [_convert_node_constraint_node_to_schema] in H.
  apply bind_done in H as [self0 [s0 [_ H]]].
  apply bind_done in H as [[ps req] [s1 [_ H]]].
  apply bind_done in H as [[subschemas discovered] [s2 [Hloop H]]].
  assert (Forall constraint_form subschemas) as Hall.
  { apply (for_each_acc_invariant
             (fun acc : list pydict * pydict => Forall constraint_form (fst acc)))
      in Hloop; [exact Hloop| |].
    - intros not_node [subs disc] s [subs' disc'] s' Hacc Hb. cbn [fst] in *.
      apply bind_done in Hb as [[nested nprops] [s3 [_ Hb]]].
      injection Hb as <- _ _.
      destruct (nonempty nested); [|exact Hacc].
      apply Forall_app. split; [exact Hacc|]. constructor; [|constructor].
      right. now exists nested.
    - cbn [fst]. destruct (nonempty ps || nonempty req)%bool; [|constructor].
      constructor; [|constructor]. left.
      destruct (nonempty ps); destruct (nonempty req); cbn [dict_set String.eqb Ascii.eqb Bool.eqb];
        eexists; reflexivity. }
  destruct subschemas as [|only [|second rest]].
  - injection H as <- _ _. now left.
  - injection H as <- _ _. right. left. now inversion Hall.
  - injection H as <- _ _. right. right. eexists. split; [reflexivity|].
    cbn [map length]. lia.
Qed.

Lemma constraint_schema_is_no_reference schema name :
  constraint_schema_form schema -> schema <> [("$ref", ref_to name)].
Proof.
  intros [->|[[[rest ->]|[nested ->]]|[subs [-> _]]]]; discriminate.
Qed.

Lemma ref_member_inj a b :
  VDict [("$ref", ref_to a)] = VDict [("$ref", ref_to b)] -> a = b.
Proof. unfold ref_to. intros H. injection H as H. exact H. Qed.

(** The members the node-level [sh:and] collects. *)
Lemma node_and_stage_members fuel name l d p self d' p' self' members :
  node_and_stage fuel name l d p self = Done ((d', p'), self') ->
  dict_get "allOf" d = None ->
  dict_get "allOf" d' = Some (VList members) ->
  members <> [] /\ ~ In (VDict [("$ref", ref_to name)]) members.
Proof.
  unfold node_and_stage. intros H Hnone Hsome.
  apply bind_done in H as [s0 [s1 [_ H]]].
  apply bind_done in H as [mems [s2 [_ H]]].
  apply bind_done in H as [[all_of props] [s3 [Hloop H]]].
  assert (~ In (VDict [("$ref", ref_to name)]) all_of) as Hno.
  { apply (for_each_acc_invariant
             (fun acc : list pyval * pydict => ~ In (VDict [("$ref", ref_to name)]) (fst acc)))
      in Hloop; [exact Hloop| |intros []].
    intros m [acc q] s [acc' q'] s' Hacc Hb. cbn [fst] in *.
    destruct m as [iri|id|lit].
    - destruct (String.eqb_spec (_get_local_name (URIRef iri)) name) as [E|N].
      + now injection Hb as <- _ _.
      + injection Hb as <- _ _. intros Hin. apply in_app_or in Hin as [Hin|[Hin|[]]]; [auto|].
        apply N. now apply ref_member_inj.
    - apply bind_done in Hb as [[sc ps] [s'' [Hc Hb]]]. injection Hb as <- _ _.
      destruct (nonempty sc); [|exact Hacc].
      intros Hin. apply in_app_or in Hin as [Hin|[Hin|[]]]; [auto|].
      injection Hin as Hin.
      now apply (constraint_schema_is_no_reference _ name
                   (constraint_node_schema_form _ _ _ _ _ _ Hc)).
    - apply bind_done in Hb as [[sc ps] [s'' [Hc Hb]]]. injection Hb as <- _ _.
      destruct (nonempty sc); [|exact Hacc].
      intros Hin. apply in_app_or in Hin as [Hin|[Hin|[]]]; [auto|].
      injection Hin as Hin.
      now apply (constraint_schema_is_no_reference _ name
                   (constraint_node_schema_form _ _ _ _ _ _ Hc)). }
  destruct (nonempty all_of) eqn:Hne.
  - injection H as <- _ _. rewrite dict_get_set_same in Hsome. injection Hsome as <-.
    split; [|exact Hno]. intros E. rewrite E in Hne. discriminate Hne.
  - apply bind_done in H as [u [s4 [_ H]]]. injection H as <- _ _. congruence.
Qed.

(** X21.  The [allOf] of a definition, when it has one, is not empty and
    never refers to the definition itself: a member of [sh:and] with the
    local name of the shape is skipped. *)
Theorem all_of_never_refers_to_itself (fuel : nat) (shape : node) (self self' : Converter)
  (definition : pydict) (members : list pyval) :
  _convert_node_shape fuel shape self = Done (tt, self') ->
  dict_get (_get_local_name shape) (definitions self') = Some (VDict definition) ->
  dict_get "allOf" definition = Some (VList members) ->
  members <> []
  /\ ~ In (VDict [("$ref", VStr ("#/$defs/" ++ _get_local_name shape))]) members.
Proof.
  intros H Hdef Hall. apply convert_node_shape_stages in H.
  destruct H as (properties & required & s1 & definition1 & properties1 & s2 & definition2
                 & properties2 & s3 & Hloop & Hor & Hand & ->).
  cbn [with_definition definitions] in Hdef. rewrite dict_get_set_same in Hdef.
  injection Hdef as <-.
  assert (dict_get "allOf" definition2 = Some (VList members)) as Hall2.
  { cbv zeta in Hall.
    destruct (is_closed self shape); destruct (nonempty properties1);
      rewrite ?dict_get_set_other in Hall by discriminate; exact Hall. }
  assert (dict_get "allOf" definition1 = None) as Hnone1.
  { pose proof (shape_header_lookups self shape) as (_ & _ & _ & _ & Hbody).
    destruct (truthy_value (graph self) shape (sh "or")).
    - rewrite (node_or_stage_definition _ _ _ _ _ _ _ _ _ Hor) by discriminate.
      apply Hbody. simpl; tauto.
    - injection Hor as <- _ _. apply Hbody. simpl; tauto. }
  destruct (truthy_value (graph self) shape (sh "and")) as [and_list|].
  - apply (node_and_stage_members _ _ _ _ _ _ _ _ _ _ Hand); [|exact Hall2].
    cbv zeta. destruct (nonempty required); destruct (nonempty properties1);
      rewrite ?dict_get_set_other by discriminate; exact Hnone1.
  - injection Hand as <- _ _. cbv zeta in Hall2.
    destruct (nonempty required); destruct (nonempty properties1);
      rewrite ?dict_get_set_other in Hall2 by discriminate; congruence.
Qed.

Lemma all_of_never_refers_to_itself_witness :
  [VDict [("$ref", VStr "#/$defs/BaseShape")]] <> []
  /\ ~ In (VDict [("$ref", VStr ("#/$defs/" ++ _get_local_name (ex "GeoShape")))])
          [VDict [("$ref", VStr "#/$defs/BaseShape")]].
Proof.
  apply (all_of_never_refers_to_itself 4 (ex "GeoShape") (converter_of geo_graph "local")
           geo_converted
           (match dict_get "GeoShape" (definitions geo_converted) with
            | Some (VDict d) => d
            | _ => []
            end)); reflexivity.
Defined.

(** ** Every property is listed *)

Lemma property_loop_body_enters fuel ps properties required properties' required' self self'
  path :
  truthy_value (graph self) ps (sh "path") = Some path ->
  _get_property_name self path <> "" ->
  property_loop_body fuel ps (properties, required) self
  = Done ((properties', required'), self') ->
  dict_has (_get_property_name self path) properties' = true.
Proof.
  intros Hp Hne H. unfold property_loop_body in H.
  apply bind_done in H as [[[pn pd] rq] [s1 [Hc H]]].
  destruct (convert_property_shape_stages _ _ _ _ _ _ Hp Hc)
    as [d0 [self1 [d1 [req [d2 [d3 [d4 [_ [_ [_ [_ [_ [_ Hr]]]]]]]]]]]]].
  injection Hr; intros; subst pn pd rq. unfold truthy_str in H.
  destruct (_get_property_name self path) as [|a name] eqn:E; [congruence|].
  cbn [PyStr.truthy] in H. injection H as <- _ _. apply dict_has_set_same.
Qed.

Lemma property_loop_enters fuel l : forall properties required properties' required' self self'
  ps path,
  In ps l ->
  truthy_value (graph self) ps (sh "path") = Some path ->
  _get_property_name self path <> "" ->
  for_each l (property_loop_body fuel) (properties, required) self
  = Done ((properties', required'), self') ->
  dict_has (_get_property_name self path) properties' = true.
Proof.
  induction l as [|x l IH];
    intros properties required properties' required' self self' ps path Hin Hp Hne H;
    [destruct Hin|].
  cbn [for_each] in H. apply bind_done in H as [[p1 r1] [s1 [Hb H]]].
  pose proof (appends_property_loop_body _ _ _ _ _ _ Hb) as [ws Es].
  destruct Hin as [<-|Hin].
  - apply (property_loop_body_enters _ _ _ _ _ _ _ _ _ Hp Hne) in Hb.
    apply property_loop_cases in H as [Hk _]. now apply Hk.
  - subst s1.
    exact (IH p1 r1 properties' required' (with_warnings self (warnings self ++ ws)) self'
              ps path Hin Hp Hne H).
Qed.

(** X22.  Every property shape of a node shape that has a truthy path and
    a non-empty term is listed in the properties of the definition, under
    its term. *)
Theorem every_named_property_is_listed (fuel : nat) (shape prop_shape path : node)
  (self self' : Converter) :
  In prop_shape (objects (graph self) shape (sh "property")) ->
  truthy_value (graph self) prop_shape (sh "path") = Some path ->
  _get_property_name self path <> "" ->
  _convert_node_shape fuel shape self = Done (tt, self') ->
  exists definition properties,
    dict_get (_get_local_name shape) (definitions self') = Some (VDict definition)
    /\ dict_get "properties" definition = Some (VDict properties)
    /\ dict_has (_get_property_name self path) properties = true.
Proof.
  intros Hin Hp Hne H. apply convert_node_shape_stages in H.
  destruct H as (properties & required & s1 & definition1 & properties1 & s2 & definition2
                 & properties2 & s3 & Hloop & Hor & Hand & ->).
  destruct (type_entry (graph self) shape) as [p0 r0].
  apply (property_loop_enters _ _ _ _ _ _ _ _ _ _ Hin Hp Hne) in Hloop.
  assert (exists found, properties1 = fold_left merge_property found properties) as [found1 E1].
  { destruct (truthy_value (graph self) shape (sh "or")).
    - now apply node_or_stage_properties in Hor.
    - injection Hor as _ <- _. now exists []. }
  assert (dict_has (_get_property_name self path) properties1 = true) as Has1
      by (rewrite E1; now apply merge_all_has).
  assert (nonempty properties1 = true) as Hn1.
  { destruct properties1; [discriminate Has1|reflexivity]. }
  assert (exists found, properties2 = fold_left merge_property found properties1)
    as [found2 E2].
  { destruct (truthy_value (graph self) shape (sh "and")).
    - now apply node_and_stage_properties in Hand.
    - injection Hand as _ <- _. now exists []. }
  eexists. exists properties2. cbn [with_definition definitions].
  rewrite dict_get_set_same. split; [reflexivity|]. split.
  - cbv zeta. rewrite Hn1. destruct (is_closed self shape);
      rewrite ?dict_get_set_other by discriminate; apply dict_get_set_same.
  - rewrite E2. now apply merge_all_has.
Qed.

Lemma every_named_property_is_listed_witness :
  exists definition properties,
    dict_get "PartyShape" (definitions party_converted) = Some (VDict definition)
    /\ dict_get "properties" definition = Some (VDict properties)
    /\ dict_has "name" properties = true.
Proof.
  apply (every_named_property_is_listed 1 (ex "PartyShape") (BNode "name") (ex "name")
           (converter_of party_graph "local") party_converted).
  - simpl. now left.
  - reflexivity.
  - discriminate.
  - reflexivity.
Defined.

(** ** Classes, nodes and datatypes *)

(** X23.  [sh:class] and [sh:node] on one constraint: as an alternative of
    [sh:or] the constraint refers to the shape of the class, as a property
    shape it refers to the node shape. *)
Theorem class_and_node_precedence_differs (fuel : nat) (self : Converter)
  (constraint class_ref node_shape : node) (shape_name prop_name : string)
  (prop_def : pydict) :
  graph_value (graph self) constraint (sh "hasValue") = None ->
  truthy_value (graph self) constraint (sh "or") = None ->
  truthy_value (graph self) constraint (sh "datatype") = None ->
  truthy_value (graph self) constraint (sh "nodeKind") = None ->
  truthy_value (graph self) constraint (sh "class") = Some class_ref ->
  truthy_value (graph self) constraint (sh "node") = Some node_shape ->
  shape_of_class self class_ref = Some shape_name ->
  _convert_inline_constraint_to_schema self constraint
  = [("$ref", VStr ("#/$defs/" ++ shape_name))]
  /\ type_stage fuel constraint prop_name prop_def self
     = Done (dict_set "$ref" (VStr ("#/$defs/" ++ _get_local_name node_shape)) prop_def, self).
Proof.
  intros Hv Hor Hd Hk Hc Hn Hs. split.
  - unfold _convert_inline_constraint_to_schema. now rewrite Hd, Hk, Hc, Hs.
  - unfold type_stage, bind, get_self. now rewrite Hv, Hor, Hd, Hk, Hn.
Qed.

Lemma class_and_node_precedence_differs_witness :
  _convert_inline_constraint_to_schema owner_converter (BNode "owner")
  = [("$ref", VStr ("#/$defs/" ++ "AgentShape"))]
  /\ type_stage 1 (BNode "owner") "ex:owner" [] owner_converter
     = Done (dict_set "$ref" (VStr ("#/$defs/" ++ _get_local_name (ex "PersonShape"))) [],
             owner_converter).
Proof.
  apply (class_and_node_precedence_differs 1 owner_converter (BNode "owner") (ex "Agent"));
    reflexivity.
Defined.

Lemma node_eqb_neq a b : a <> b -> node_eqb a b = false.
Proof.
  intros N. destruct (node_eqb a b) eqn:E; [|reflexivity].
  apply node_eqb_eq in E. contradiction.
Qed.

(** The two tables agree: the datatypes with a format are strings, and a
    datatype without a type has no format. *)
Lemma datatype_tables datatype :
  let json_type :=
    match node_assoc datatype xsd_to_json_type with Some t => t | None => "string" end in
  In json_type json_types
  /\ (node_assoc datatype xsd_to_json_format <> None -> json_type = "string")
  /\ (node_assoc datatype xsd_to_json_type = None ->
      node_assoc datatype xsd_to_json_format = None).
Proof.
  cbv zeta.
  assert (forall k, datatype = xsd k ->
            In k ["string"; "integer"; "int"; "long"; "short"; "byte"; "decimal"; "float";
                  "double"; "boolean"; "date"; "dateTime"; "time"; "anyURI"] ->
            In match node_assoc datatype xsd_to_json_type with
               | Some t => t | None => "string" end json_types
            /\ (node_assoc datatype xsd_to_json_format <> None ->
                match node_assoc datatype xsd_to_json_type with
                | Some t => t | None => "string" end = "string")
            /\ (node_assoc datatype xsd_to_json_type = None ->
                node_assoc datatype xsd_to_json_format = None)) as Known.
  { intros k -> Hin. cbn in Hin. decompose [or] Hin; subst; try contradiction;
      vm_compute; repeat split; try tauto; try discriminate; intros C; now contradiction C. }
  destruct (existsb (fun k => node_eqb (xsd k) datatype)
              ["string"; "integer"; "int"; "long"; "short"; "byte"; "decimal"; "float";
               "double"; "boolean"; "date"; "dateTime"; "time"; "anyURI"]) eqn:E.
  - apply existsb_exists in E as [k [Hin Hk]]. apply node_eqb_eq in Hk.
    now apply (Known k).
  - cbn [existsb] in E. repeat (apply orb_false_iff in E as [?E E]).
    cbn [node_assoc xsd_to_json_type xsd_to_json_format].
    repeat match goal with H : node_eqb _ datatype = false |- _ => rewrite H; clear H end.
    repeat split; try (simpl; tauto); intros C; now contradiction C.
Qed.

(** X24.  Every datatype is given one of the JSON types [string],
    [integer], [number] and [boolean]; a datatype outside the table is a
    [string] without format (so [xsd:positiveInteger] is a string), and a
    format only ever goes with the type [string]. *)
Theorem datatype_gives_json_type (prop_def : pydict) (datatype : node) :
  dict_get "format" prop_def = None ->
  exists json_type,
    dict_get "type" (datatype_schema prop_def datatype) = Some (VStr json_type)
    /\ In json_type json_types
    /\ (dict_get "format" (datatype_schema prop_def datatype) <> None ->
        json_type = "string")
    /\ (node_assoc datatype xsd_to_json_type = None ->
        json_type = "string"
        /\ dict_get "format" (datatype_schema prop_def datatype) = None).
Proof.
  intros Hf. pose proof (datatype_tables datatype) as (Hin & Hfmt & Hnone). cbv zeta in *.
  unfold datatype_schema.
  set (t := match node_assoc datatype xsd_to_json_type with
            | Some t => t | None => "string" end) in *.
  exists t.
  assert (dict_get "format" (dict_set "type" (VStr t) prop_def) = None) as Hf'
      by (now rewrite dict_get_set_other by discriminate).
  destruct (node_assoc datatype xsd_to_json_format) as [f|] eqn:Ef.
  - assert (t = "string") as Et by (apply Hfmt; discriminate).
    assert (node_assoc datatype xsd_to_json_type <> None) as Hsome
        by (intros Hn; specialize (Hnone Hn); discriminate Hnone).
    destruct (PyStr.truthy f).
    + rewrite dict_get_set_other by discriminate. rewrite dict_get_set_same.
      split; [reflexivity|]. split; [exact Hin|]. split; [intros _; exact Et|].
      intros Hn. contradiction.
    + rewrite dict_get_set_same.
      split; [reflexivity|]. split; [exact Hin|]. split; [intros _; exact Et|].
      intros Hn. contradiction.
  - rewrite dict_get_set_same.
    split; [reflexivity|]. split; [exact Hin|]. split; [intros C; contradiction|].
    intros Hn. split; [|exact Hf']. subst t. now rewrite Hn.
Qed.

Lemma datatype_gives_json_type_witness :
  exists json_type,
    dict_get "type" (datatype_schema [] (xsd "positiveInteger")) = Some (VStr json_type)
    /\ In json_type json_types
    /\ (dict_get "format" (datatype_schema [] (xsd "positiveInteger")) <> None ->
        json_type = "string")
    /\ (node_assoc (xsd "positiveInteger") xsd_to_json_type = None ->
        json_type = "string"
        /\ dict_get "format" (datatype_schema [] (xsd "positiveInteger")) = None).
Proof. apply (datatype_gives_json_type [] (xsd "positiveInteger")). reflexivity. Defined.

(** ** Enumerations of IRIs *)

Lemma values_of_iris iris : values_of (map URIRef iris) = Some (map VStr iris).
Proof.
  induction iris as [|i iris IH]; [reflexivity|].
  cbn [map values_of list_value_of]. now rewrite IH.
Qed.

(** X25.  The members of a list that are IRIs are read as their full IRI
    strings, whatever the naming strategy: an enumeration of IRIs is not
    compacted to terms. *)
Theorem iri_enumeration_keeps_full_iris (fuel : nat) (self : Converter) (head : node)
  (iris : list string) :
  rdf_list (graph self) head (map URIRef iris) ->
  (length iris < fuel)%nat ->
  _extract_list_values fuel self head = Done (map VStr iris).
Proof.
  intros Hl Hfuel.
  assert (_extract_list_nodes fuel self head = Done (map URIRef iris)) as Hn.
  { unfold _extract_list_nodes.
    rewrite (list_nodes_loop_reads _ _ _ Hl) by (now rewrite length_map). reflexivity. }
  unfold _extract_list_nodes, _extract_list_values in *.
  destruct (walks_agree _ _ _ _ _ [] Hn) as [found [E ->]].
  cbn [app] in E. subst found. now rewrite values_of_iris.
Qed.

Lemma iri_enumeration_keeps_full_iris_witness :
  _extract_list_values 3 (converter_of two_cell_list_graph "local") (BNode "l1")
  = Done (map VStr ["http://example.org/A"; "http://example.org/B"]).
Proof.
  apply (iri_enumeration_keeps_full_iris 3 (converter_of two_cell_list_graph "local")
           (BNode "l1") ["http://example.org/A"; "http://example.org/B"]).
  - exact two_cell_list_is_list.
  - simpl. lia.
Defined.

(** ** Expanding the terms of a context *)

Lemma split_first_at c pfx suffix :
  PyStr.contains c pfx = false ->
  PyStr.split_first c (pfx ++ String c suffix) = Some (pfx, suffix).
Proof.
  induction pfx as [|a pfx IH]; cbn [append PyStr.split_first PyStr.contains].
  - now rewrite Ascii.eqb_refl.
  - intros H. apply orb_false_iff in H as [Ha Hp]. rewrite Ha. now rewrite IH.
Qed.

Lemma split_first_none c s :
  PyStr.contains c s = false -> PyStr.split_first c s = None.
Proof.
  induction s as [|a s IH]; [reflexivity|]. cbn [PyStr.split_first PyStr.contains].
  intros H. apply orb_false_iff in H as [Ha Hs]. rewrite Ha. now rewrite IH.
Qed.

(** X26.  [expand] leaves an absolute [http] or [https] IRI and a value
    without a colon as they are, and replaces the declared prefix of a
    CURIE by its namespace; a CURIE whose prefix is not declared is left as
    it is. *)
Theorem expand_curie (prefixes : dict string) (pfx suffix value : string) :
  ((PyStr.startswith value "http://" || PyStr.startswith value "https://")%bool = true ->
   expand prefixes value = value)
  /\ (PyStr.contains ":" value = false -> expand prefixes value = value)
  /\ (PyStr.contains ":" pfx = false ->
      (PyStr.startswith (pfx ++ ":" ++ suffix) "http://"
       || PyStr.startswith (pfx ++ ":" ++ suffix) "https://")%bool = false ->
      expand prefixes (pfx ++ ":" ++ suffix)
      = match dict_get pfx prefixes with
        | Some base => if PyStr.truthy base then base ++ suffix else pfx ++ ":" ++ suffix
        | None => pfx ++ ":" ++ suffix
        end).
Proof.
  unfold expand. split; [|split].
  - now intros ->.
  - intros H. rewrite (split_first_none _ _ H).
    now destruct (PyStr.startswith value "http://" || PyStr.startswith value "https://")%bool.
  - intros Hp Hs. rewrite Hs. change (":" ++ suffix) with (String ":" suffix).
    rewrite (split_first_at _ _ _ Hp). unfold truthy_str.
    destruct (dict_get pfx prefixes) as [base|]; [|reflexivity].
    now destruct (PyStr.truthy base).
Qed.
